(** * The authenticated session layer of geti-sdk, embedded in Rocq

    Source: [src/geti_sdk/http_session/geti_session.py], class [GetiSession].

    The session is a Python object that is mutated in place while it talks to
    a server.  It is embedded as a state-and-exception monad [M] over a
    [State] that holds the session's attributes, the heap of file buffers that
    request bodies refer to, and the chronological [trace] of everything the
    session did to the outside world (requests handed to the transport,
    sleeps, log records, closing of the connection pool).  What the outside
    world answers is an oracle of the environment [Env]: a function of the
    trace so far and of the request being sent.

    Names follow the source.  The [proxies] keyword arguments are passed
    through unchanged to every transport call in the source and are left out.
    Header names are always spelled the same way in the source, so the
    case-insensitive header dictionary is a plain finite map here. *)

From Stdlib Require Import ZArith Bool Lia.
From stdpp Require Import base option list gmap strings fin_maps.

Open Scope string_scope.
Open Scope list_scope.
Open Scope Z_scope.

(** ** Python values *)

(** What [response.json()] can decode to, and what the dynamically typed
    attributes of the session can hold. *)
#[local] Set Warnings "-register-all".
Inductive Value :=
| VNone
| VBool (b : bool)
| VInt (n : Z)
| VStr (s : string)
| VList (items : list Value)
| VDict (members : list (string * Value)).

Definition is_None (v : Value) : bool :=
  match v with VNone => true | _ => false end.

Fixpoint assoc {A} (k : string) (kv : list (string * A)) : option A :=
  match kv with
  | [] => None
  | (k', v) :: rest => if String.eqb k k' then Some v else assoc k rest
  end.

(** [v == "s"] for a decoded value [v]. *)
Definition value_eq_str (v : Value) (s : string) : bool :=
  match v with VStr s' => String.eqb s' s | _ => false end.

(** ** String helpers (Python's [in], slicing and [split]) *)

Fixpoint contains (needle hay : string) : bool :=
  String.prefix needle hay
  || match hay with
     | EmptyString => false
     | String _ rest => contains needle rest
     end.

Fixpoint str_drop (n : nat) (s : string) : string :=
  match n, s with
  | O, _ => s
  | S n', String _ rest => str_drop n' rest
  | S _, EmptyString => EmptyString
  end.

(** [s[n:]] *)
Definition slice_from (n : nat) (s : string) : string := str_drop n s.

(** [s[:-n]]; Python reads [s[:-0]] as [s[:0]], the empty string. *)
Definition slice_to_minus (n : nat) (s : string) : string :=
  match n with
  | O => EmptyString
  | _ => String.substring 0 (String.length s - n) s
  end.

(** [s.split(sep)] for a non-empty separator: [skip] counts the characters
    of a separator occurrence that are still to be passed over, [cur] is the
    piece being collected. *)
Fixpoint split_go (sep : string) (skip : nat) (cur : string) (s : string)
  : list string :=
  match s with
  | EmptyString => [cur]
  | String c rest =>
      match skip with
      | S k => split_go sep k cur rest
      | O =>
          if String.prefix sep s
          then cur :: split_go sep (String.length sep - 1) EmptyString rest
          else split_go sep O (cur +:+ String c EmptyString) rest
      end
  end.

Definition split (sep s : string) : list string := split_go sep O EmptyString s.

Definition in_Z (x : Z) (l : list Z) : bool := existsb (Z.eqb x) l.
Definition in_str (x : string) (l : list string) : bool := existsb (String.eqb x) l.

(** ** Constants of the module *)

Definition CSRF_COOKIE_NAME := "_oauth2_proxy_csrf".
Definition PROXY_COOKIE_NAME := "_oauth2_proxy".
Definition GETI_COOKIE_NAME := "geti-cookie".

Definition INITIAL_HEADERS : gmap string string :=
  {[ "Upgrade-Insecure-Requests" := "1" ]}.
Definition SUCCESS_STATUS_CODES : list Z := [200; 201; 202].

Definition AUTHENTICATION_DEX_OLD := "dex-old".
Definition AUTHENTICATION_DEX_NEW := "dex-new".
Definition AUTHENTICATION_CIDAAS := "cidaas".

(** ** Request bodies *)

(** A file buffer: its bytes and the read position. *)
Record Buffer := {
  contents : list Byte.byte;
  position : nat
}.

(** A value of a [files] dictionary: a file object on the heap, or bytes. *)
Inductive Part :=
| FileObj (ref : nat)
| Blob (bytes : list Byte.byte).

(** The [data] argument of a request. *)
Inductive Data :=
| DNone
| DValue (v : Value)
| DFiles (parts : list (string * Part))
| DBytes (bytes : list Byte.byte).

(** The keyword under which the body is handed to the transport. *)
Inductive Kw := KwJson | KwFiles | KwData.

(** ** Exceptions *)

(** What a [GetiRequestException] carries. *)
Record RequestFailure := {
  rf_method : string;
  rf_url : string;
  rf_status_code : Z;
  rf_request_data : option (Kw * Data);
  rf_response_data : option Value
}.

(** The places where the source raises [ValueError]. *)
Inductive ValueErrorSite :=
| TokenAuthorizationFailed        (* _acquire_access_token *)
| UnsupportedAuthService (service : string)   (* authenticate *)
| DummyLoginDetails               (* authenticate *)
| InvalidHostOrLogin (host : string)          (* authenticate *)
| UnsupportedContentType (contenttype : string)  (* get_rest_response *)
| NoOrganizationId                (* _get_organization_id *)
| AuthenticationFailed.           (* _handle_legacy_dex_response, _handle_dex_response *)


Inductive Exc :=
(* requests.exceptions *)
| SSLError (rewrapped : bool) (detail : string)
| RequestsConnectionError (detail : string)
| MissingSchema
| RequestsJSONDecodeError
| RequestException (detail : string)
(* the repository's own exception, http_session/exception.py *)
| GetiRequestException (failure : RequestFailure)
(* built-in exceptions *)
| ConnectionError (args : list Value)
| ValueError (site : ValueErrorSite)
| AttributeError
| KeyError (key : string)
| IndexError
| TypeError
| RecursionError
| OtherException (name : string).

Inductive Result (A : Type) :=
| Ok (a : A)
| Raise (e : Exc).
Arguments Ok {A} a.
Arguments Raise {A} e.

(** ** Requests and responses *)

(** A response of the redirect history: only its cookies are looked at. *)
Record Hop := {
  hop_status_code : Z;
  hop_cookies : gmap string string
}.

(** A response as it comes from the server. [decoded] is what [json()]
    returns, [None] when the body is not JSON. [next_url] is
    [response.next.url], present on a redirect with a location. *)
Record WireResponse := {
  w_status_code : Z;
  w_content_type : option string;
  w_decoded : option Value;
  w_cookies : gmap string string;
  w_url : string;
  w_next_url : option string;
  w_history : list Hop;
  w_request_method : string;
  w_content : string;
  w_reason : string
}.

(** [Aborted] is the response object that [get_rest_response] makes up when
    the connection was aborted: status 401, no headers, and a [raw] that
    cannot be read. *)
Inductive Response :=
| Wire (w : WireResponse)
| Aborted.

Definition status_code (r : Response) : Z :=
  match r with Wire w => w_status_code w | Aborted => 401 end.

Definition content_type_header (r : Response) : option string :=
  match r with Wire w => w_content_type w | Aborted => None end.

(** [response.json()], with the two decoding errors the source catches
    under one name. *)
Definition json (r : Response) : Result Value :=
  match r with
  | Wire w => match w_decoded w with
              | Some v => Ok v
              | None => Raise RequestsJSONDecodeError
              end
  | Aborted => Raise AttributeError
  end.

(** The [cookies] keyword: absent, the session's own [_cookies] dictionary
    (the same object, so later updates of it are seen by a retry), or a
    fresh dictionary. *)
Inductive CookieArg :=
| NoCookies
| SessionCookies
| FreshCookies (c : gmap string Value).

(** The keyword arguments of one [self.request] call ([request_params]). *)
Record Call := {
  c_method : string;
  c_url : string;
  c_body : option (Kw * Data);
  c_cookies : CookieArg;
  c_headers : option (gmap string Value);
  c_allow_redirects : option bool;
  c_stream : bool
}.

(** What reaches the transport: the call, the session headers and cookie jar
    at that moment, the cookies the call resolved to, the position at which
    each file object of a multipart body stands when the call is made, and
    the bytes then read from each part. *)
Record Request := {
  rq_call : Call;
  rq_session_headers : gmap string string;
  rq_jar : gmap string string;
  rq_cookies : option (gmap string Value);
  rq_offsets : list (string * nat);
  rq_parts : list (string * list Byte.byte)
}.

Inductive Level := DEBUG | INFO | WARNING.

(** The log records of the source, one constructor per call site. *)
Inductive LogRecord :=
| TokenValidated (host : string)
| AlreadyLoggedIn
| Authenticating (host : string)
| AuthenticationSuccessful
| LogoutSuccessful
| ClosedButNotLoggedOut
| ErrorDuringClosure (e : Exc)
| ErrorWhileExiting (e : Exc)
| ErrorDuringDeletion (e : Exc)
| AuthenticationMayHaveExpired
| AuthenticationComplete
| NewBearerToken
| NoValidOauthCookie (status : Z).

Inductive Event :=
| Sent (rq : Request)
| Slept (seconds : Z)
| Logged (lvl : Level) (record : LogRecord)
| Closed.

Inductive Outcome :=
| Responds (w : WireResponse)
| Throws (e : Exc).

(** ** Platform versions *)

(** Modelled from the spec: [geti_sdk/platform_versions.py] (the class
    [GetiVersion] and the constants [GETI_18_VERSION], [GETI_114_VERSION]) is
    not among the sources.  The spec describes a version as an ordered triple
    (major, minor, patch) with a total ordering; the two thresholds and the
    parsing of a version string are taken from the environment. *)
Definition Version : Type := nat * nat * nat.

Definition version_lt (a b : Version) : bool :=
  let '(a1, a2, a3) := a in
  let '(b1, b2, b3) := b in
  (a1 <? b1)%nat
  || ((a1 =? b1)%nat && ((a2 <? b2)%nat || ((a2 =? b2)%nat && (a3 <? b3)%nat))).

Definition version_le (a b : Version) : bool := negb (version_lt b a).

(** ** Session state *)

Inductive Credentials :=
| UserPassword (username password : string)   (* ServerCredentialConfig *)
| PersonalToken (token : string).             (* ServerTokenConfig *)

Record Config := {
  host : string;
  api_pattern : string;
  cfg_base_url : string;
  credentials : Credentials
}.

Record Session := {
  config : Config;
  logged_in : bool;
  use_token : bool;
  headers : gmap string string;
  cookies : gmap string string;
  _cookies : gmap string Value;
  _auth_service : option string;
  _product_info : Value;
  _organization_id : Value
}.

Record State := {
  session : Session;
  heap : gmap nat Buffer;
  trace : list Event
}.

(** The environment of a session: the server and the connection pool seen as
    oracles over the trace, and the parts of the Python runtime and of the
    repository that the session calls but that are not in its source file. *)
Record Env := {
  transport : list Event -> Request -> Outcome;
  closing : list Event -> option Exc;
  (* Python's built-in str(), applied by the f-strings to decoded values *)
  py_str : Value -> string;
  (* how many more nested calls the interpreter allows before RecursionError *)
  recursion_limit : nat;
  (* platform_versions.py *)
  GetiVersion : Value -> Result Version;
  GETI_18_VERSION : Version;
  GETI_114_VERSION : Version;
  (* exception.py: whether GetiRequestException derives from
     requests.exceptions.RequestException *)
  geti_exception_is_request_exception : bool
}.

(** ** The monad *)

Definition M (A : Type) : Type := State -> Result A * State.

Definition ret {A} (a : A) : M A := fun st => (Ok a, st).
Definition raise {A} (e : Exc) : M A := fun st => (Raise e, st).
Definition bind {A B} (m : M A) (k : A -> M B) : M B :=
  fun st => match m st with
            | (Ok a, st') => k a st'
            | (Raise e, st') => (Raise e, st')
            end.

Notation "'let*' x := m 'in' k" := (bind m (fun x => k))
  (at level 10, x name, m at level 100, k at level 200, only parsing).
Notation "m ;; k" := (bind m (fun _ => k))
  (at level 100, k at level 200, right associativity, only parsing).

(** [try: m except ...: h]; the handler answers [None] for an exception that
    no clause matches, which then propagates. *)
Definition try_except {A} (m : M A) (h : Exc -> option (M A)) : M A :=
  fun st => match m st with
            | (Ok a, st') => (Ok a, st')
            | (Raise e, st') =>
                match h e with
                | Some handler => handler st'
                | None => (Raise e, st')
                end
            end.

Definition lift {A} (r : Result A) : M A := fun st => (r, st).

Definition get_session : M Session := fun st => (Ok (session st), st).

Definition modify_session (f : Session -> Session) : M unit :=
  fun st => (Ok tt, {| session := f (session st); heap := heap st; trace := trace st |}).

Definition emit (e : Event) : M unit :=
  fun st => (Ok tt, {| session := session st; heap := heap st; trace := trace st ++ [e] |}).

Definition log (lvl : Level) (r : LogRecord) : M unit := emit (Logged lvl r).

Definition when (b : bool) (m : M unit) : M unit := if b then m else ret tt.

(** Attribute updates. *)
Definition set_logged_in (b : bool) (s : Session) : Session :=
  {| config := config s; logged_in := b; use_token := use_token s;
     headers := headers s; cookies := cookies s; _cookies := _cookies s;
     _auth_service := _auth_service s; _product_info := _product_info s;
     _organization_id := _organization_id s |}.

Definition set_headers (h : gmap string string) (s : Session) : Session :=
  {| config := config s; logged_in := logged_in s; use_token := use_token s;
     headers := h; cookies := cookies s; _cookies := _cookies s;
     _auth_service := _auth_service s; _product_info := _product_info s;
     _organization_id := _organization_id s |}.

Definition set_cookies (c : gmap string string) (s : Session) : Session :=
  {| config := config s; logged_in := logged_in s; use_token := use_token s;
     headers := headers s; cookies := c; _cookies := _cookies s;
     _auth_service := _auth_service s; _product_info := _product_info s;
     _organization_id := _organization_id s |}.

Definition set__cookies (c : gmap string Value) (s : Session) : Session :=
  {| config := config s; logged_in := logged_in s; use_token := use_token s;
     headers := headers s; cookies := cookies s; _cookies := c;
     _auth_service := _auth_service s; _product_info := _product_info s;
     _organization_id := _organization_id s |}.

Definition set__auth_service (a : option string) (s : Session) : Session :=
  {| config := config s; logged_in := logged_in s; use_token := use_token s;
     headers := headers s; cookies := cookies s; _cookies := _cookies s;
     _auth_service := a; _product_info := _product_info s;
     _organization_id := _organization_id s |}.

Definition set__organization_id (o : Value) (s : Session) : Session :=
  {| config := config s; logged_in := logged_in s; use_token := use_token s;
     headers := headers s; cookies := cookies s; _cookies := _cookies s;
     _auth_service := _auth_service s; _product_info := _product_info s;
     _organization_id := o |}.

(** [self.headers.update({k: v})] and [self.headers.pop(k, default)]. *)
Definition headers_update (k v : string) : M unit :=
  modify_session (fun s => set_headers (<[k := v]> (headers s)) s).
Definition headers_pop (k : string) : M unit :=
  modify_session (fun s => set_headers (delete k (headers s)) s).

(** [self.config.username] and [self.config.password] exist on a credential
    configuration only. *)
Definition config_username : M string :=
  let* s := get_session in
  match credentials (config s) with
  | UserPassword u _ => ret u
  | PersonalToken _ => raise AttributeError
  end.
Definition config_password : M string :=
  let* s := get_session in
  match credentials (config s) with
  | UserPassword _ p => ret p
  | PersonalToken _ => raise AttributeError
  end.
Definition config_token : M string :=
  let* s := get_session in
  match credentials (config s) with
  | PersonalToken t => ret t
  | UserPassword _ _ => raise AttributeError
  end.

(** [d.get(k, default)] on a decoded value; only a dictionary has [get]. *)
Definition dict_get (d : Value) (k : string) (default : Value) : Result Value :=
  match d with
  | VDict members => Ok (match assoc k members with Some v => v | None => default end)
  | _ => Raise AttributeError
  end.

(** [isinstance(e, requests.exceptions.RequestException)] *)
Definition is_RequestException (env : Env) (e : Exc) : bool :=
  match e with
  | SSLError _ _ | RequestsConnectionError _ | MissingSchema
  | RequestsJSONDecodeError | RequestException _ => true
  | GetiRequestException _ => geti_exception_is_request_exception env
  | _ => false
  end.

Section Session.

Variable env : Env.

(** ** The transport *)

(** A file object is read from its position to its end, which leaves the
    position at the end. *)
Definition read_buffer (b : Buffer) : list Byte.byte * Buffer :=
  (drop (position b) (contents b),
   {| contents := contents b;
      position := Nat.max (position b) (length (contents b)) |}).

(** The parts of a multipart body are read in order; a reference that is not
    on the heap reads as an empty file. *)
Fixpoint read_parts (parts : list (string * Part)) (h : gmap nat Buffer)
  : list (string * list Byte.byte) * gmap nat Buffer :=
  match parts with
  | [] => ([], h)
  | (name, Blob b) :: rest =>
      let '(sent, h') := read_parts rest h in ((name, b) :: sent, h')
  | (name, FileObj ref) :: rest =>
      match h !! ref with
      | Some buf =>
          let '(bytes, buf') := read_buffer buf in
          let '(sent, h') := read_parts rest (<[ref := buf']> h) in
          ((name, bytes) :: sent, h')
      | None =>
          let '(sent, h') := read_parts rest h in ((name, []) :: sent, h')
      end
  end.

Definition read_body (c : Call) (h : gmap nat Buffer)
  : list (string * list Byte.byte) * gmap nat Buffer :=
  match c_body c with
  | Some (KwFiles, DFiles parts) => read_parts parts h
  | _ => ([], h)
  end.

Definition resolve_cookies (c : CookieArg) (s : Session) : option (gmap string Value) :=
  match c with
  | NoCookies => None
  | SessionCookies => Some (_cookies s)
  | FreshCookies fresh => Some fresh
  end.

(** The cookie jar of the underlying session keeps the cookies that the
    responses set. *)
Definition store_cookies (w : WireResponse) (jar : gmap string string)
  : gmap string string :=
  w_cookies w ∪ foldl (fun j h => hop_cookies h ∪ j) jar (w_history w).

(** Where the file objects of a multipart body stand. *)
Fixpoint part_offsets (parts : list (string * Part)) (h : gmap nat Buffer)
  : list (string * nat) :=
  match parts with
  | [] => []
  | (name, FileObj ref) :: rest =>
      match h !! ref with
      | Some buf => (name, position buf) :: part_offsets rest h
      | None => part_offsets rest h
      end
  | (_, Blob _) :: rest => part_offsets rest h
  end.

Definition body_offsets (c : Call) (h : gmap nat Buffer) : list (string * nat) :=
  match c_body c with
  | Some (KwFiles, DFiles parts) => part_offsets parts h
  | _ => []
  end.

(** The request that the call [c] becomes in state [st], given the bytes
    read for its parts. *)
Definition request_of (c : Call) (parts : list (string * list Byte.byte))
    (st : State) : Request :=
  {| rq_call := c;
     rq_session_headers := headers (session st);
     rq_jar := cookies (session st);
     rq_cookies := resolve_cookies (c_cookies c) (session st);
     rq_offsets := body_offsets c (heap st);
     rq_parts := parts |}.

(** [self.request] with the keyword arguments [c] *)
Definition request (c : Call) : M WireResponse :=
  fun st =>
    let '(parts, heap') := read_body c (heap st) in
    let rq := request_of c parts st in
    let tr := trace st ++ [Sent rq] in
    match transport env (trace st) rq with
    | Responds w =>
        (Ok w, {| session := set_cookies (store_cookies w (cookies (session st)))
                                         (session st);
                  heap := heap'; trace := tr |})
    | Throws e => (Raise e, {| session := session st; heap := heap'; trace := tr |})
    end.

(** [self.get(url, allow_redirects=...)] *)
Definition get (url : string) (allow_redirects : bool) : M WireResponse :=
  request {| c_method := "GET"; c_url := url; c_body := None;
             c_cookies := NoCookies; c_headers := None;
             c_allow_redirects := Some allow_redirects; c_stream := false |}.

(** [self.post(url=..., data=..., cookies=..., headers=..., allow_redirects=...)];
    a [url] that is [None] is refused before anything is sent. *)
Definition post (url : option string) (data : Data) (cookies : CookieArg)
    (headers : option (gmap string Value)) (allow_redirects : bool) : M WireResponse :=
  match url with
  | None => raise MissingSchema
  | Some u =>
      request {| c_method := "POST"; c_url := u; c_body := Some (KwData, data);
                 c_cookies := cookies; c_headers := headers;
                 c_allow_redirects := Some allow_redirects; c_stream := false |}
  end.

(** [super().close()] *)
Definition close : M unit :=
  fun st =>
    let st' := {| session := session st; heap := heap st;
                  trace := trace st ++ [Closed] |} in
    match closing env (trace st) with
    | None => (Ok tt, st')
    | Some e => (Raise e, st')
    end.

(** ** Auth backend negotiation: the property [authentication_service] *)

Definition deployment_config_call (c : Config) : Call :=
  {| c_method := "GET";
     c_url := host c +:+ "/deployment-config.json";
     c_body := None; c_cookies := NoCookies; c_headers := None;
     c_allow_redirects := None; c_stream := false |}.

Definition authentication_service : M string :=
  let* s := get_session in
  match _auth_service s with
  | Some service => ret service
  | None =>
      let* deployment_config_response :=
        request (deployment_config_call (config s)) in
      let* authentication_info :=
        try_except
          (let* document := lift (json (Wire deployment_config_response)) in
           let* info := lift (dict_get document "auth"
                                (VDict [("type", VStr "dex")])) in
           ret (Some info))
          (fun e => match e with
                    | RequestsJSONDecodeError =>
                        Some (modify_session
                                (set__auth_service (Some AUTHENTICATION_DEX_OLD)) ;;
                              ret None)
                    | _ => None
                    end) in
      match authentication_info with
      | None => ret AUTHENTICATION_DEX_OLD
      | Some info =>
          let* type := lift (dict_get info "type" VNone) in
          let service := if value_eq_str type "dex"
                         then AUTHENTICATION_DEX_NEW
                         else AUTHENTICATION_CIDAAS in
          modify_session (set__auth_service (Some service)) ;;
          ret service
      end
  end.

(** ** The login flow *)

Definition next_url (response : WireResponse) : M string :=
  match w_next_url response with
  | Some u => ret u
  | None => raise AttributeError
  end.

(** The function calls itself once per redirect; [depth] is the number of
    nested calls the interpreter still allows. *)
Fixpoint _follow_login_redirects (depth : nat) (response : WireResponse)
    (use_legacy_dex : bool) : M (option string) :=
  match depth with
  | O => raise RecursionError
  | S depth' =>
      if use_legacy_dex then
        if in_Z (w_status_code response) [302; 303] then
          let* redirect_url := next_url response in
          let* redirected := get redirect_url false in
          let proxy_csrf :=
            match w_cookies redirected !! CSRF_COOKIE_NAME with
            | Some c => Some c
            | None => w_cookies response !! CSRF_COOKIE_NAME
            end in
          match proxy_csrf with
          | Some c =>
              modify_session
                (fun s => set__cookies (<[CSRF_COOKIE_NAME := VStr c]> (_cookies s)) s)
          | None => ret tt
          end ;;
          _follow_login_redirects depth' redirected use_legacy_dex
        else ret (Some (w_url response))
      else
        if in_Z (w_status_code response) [302; 303] then
          let* u := next_url response in ret (Some u)
        else ret None
  end.

Definition _get_initial_login_url (use_legacy_dex : bool) : M (option string) :=
  let* s := get_session in
  let url :=
    if use_legacy_dex then host (config s)
    else host (config s) +:+ "/dex/auth/regular_users?"
         +:+ "client_id=web_ui"
         +:+ "&redirect_uri=/callback"
         +:+ "&code_challenge_method=S256"
         +:+ "&response_type=code"
         +:+ "&response_mode=query"
         +:+ "&scope=openid+profile+groups+email+offline_access" in
  let* response := get url false in
  _follow_login_redirects (recursion_limit env) response use_legacy_dex.

Definition _handle_legacy_dex_response (response : WireResponse) : M unit :=
  match last (w_history response) with
  | None => raise (ValueError AuthenticationFailed)
  | Some previous_response =>
      match hop_cookies previous_response !! PROXY_COOKIE_NAME with
      | Some proxy_cookie =>
          modify_session
            (fun s => set__cookies (<[PROXY_COOKIE_NAME := VStr proxy_cookie]> (_cookies s)) s)
      | None => log WARNING (NoValidOauthCookie (w_status_code response))
      end
  end.

Definition _handle_dex_response (response : WireResponse) : M unit :=
  let* code :=
    if w_status_code response =? 200 then
      match split "code=" (w_url response) !! 1%nat with
      | Some after =>
          match split "&" after !! 0%nat with
          | Some code => ret code
          | None => raise IndexError
          end
      | None => raise IndexError
      end
    else if w_status_code response =? 401 then
      raise (ValueError AuthenticationFailed)
    else
      raise (GetiRequestException
               {| rf_method := w_request_method response;
                  rf_url := w_url response;
                  rf_status_code := w_status_code response;
                  rf_request_data := None;
                  rf_response_data :=
                    Some (VDict [("message", VStr (w_content response));
                                 ("error_code", VStr (w_reason response))]) |}) in
  let* s := get_session in
  let data := DValue (VDict [("grant_type", VStr "authorization_code");
                             ("redirect_uri", VStr "/callback");
                             ("code", VStr code);
                             ("client_id", VStr "web_ui")]) in
  let* login_response :=
    post (Some (host (config s) +:+ "/dex/token")) data NoCookies None true in
  let* document := lift (json (Wire login_response)) in
  let* token := lift (dict_get document "access_token" VNone) in
  modify_session (fun s => set__cookies (<[GETI_COOKIE_NAME := token]> (_cookies s)) s).

Definition csrf_cookie (s : Session) : Value :=
  default VNone (_cookies s !! CSRF_COOKIE_NAME).

Definition authenticate (verbose : bool) : M unit :=
  let* s := get_session in
  if logged_in s then log INFO AlreadyLoggedIn
  else
    let* service := authentication_service in
    let* use_legacy_dex :=
      if String.eqb service AUTHENTICATION_DEX_OLD then ret true
      else
        let* service' := authentication_service in
        if String.eqb service' AUTHENTICATION_DEX_NEW then ret false
        else
          let* service'' := authentication_service in
          raise (ValueError (UnsupportedAuthService service'')) in
    modify_session (set_cookies ∅) ;;
    let* login_path :=
      try_except (_get_initial_login_url use_legacy_dex)
        (fun e => match e with
                  | SSLError _ detail => Some (raise (SSLError true detail))
                  | RequestsConnectionError _ =>
                      Some (let* password := config_password in
                            if contains "dummy" password
                            then raise (ValueError DummyLoginDetails)
                            else
                              let* username := config_username in
                              if contains "dummy" username
                              then raise (ValueError DummyLoginDetails)
                              else raise (ValueError
                                            (InvalidHostOrLogin (host (config s)))))
                  | _ => None
                  end) in
    modify_session (set_headers ∅) ;;
    headers_update "Content-Type" "application/x-www-form-urlencoded" ;;
    when verbose (log INFO (Authenticating (host (config s)))) ;;
    let* s1 := get_session in
    let cookies :=
      if use_legacy_dex
      then FreshCookies {[ CSRF_COOKIE_NAME := csrf_cookie s1 ]}
      else FreshCookies ∅ in
    let headers : gmap string Value :=
      if use_legacy_dex
      then {[ "Cookie" := csrf_cookie s1 ]}
      else VStr <$> headers s1 in
    let* username := config_username in
    let* password := config_password in
    let* response :=
      post login_path
           (DValue (VDict [("login", VStr username); ("password", VStr password)]))
           cookies (Some headers) true in
    (if use_legacy_dex
     then _handle_legacy_dex_response response
     else _handle_dex_response response) ;;
    when verbose (log INFO AuthenticationSuccessful) ;;
    modify_session (set_logged_in true).

(** ** Disposal: [logout], [__exit__], [__del__] *)

Definition sign_out_url (c : Config) : string :=
  slice_to_minus (String.length (api_pattern c)) (cfg_base_url c) +:+ "/oauth2/sign_out".

Definition sign_out_call (c : Config) : Call :=
  {| c_method := "GET"; c_url := sign_out_url c;
     c_body := None; c_cookies := NoCookies; c_headers := None;
     c_allow_redirects := None; c_stream := false |}.

Definition clear_credentials (s : Session) : Session :=
  set_logged_in false
    (set_headers INITIAL_HEADERS (set_cookies ∅ (set__cookies ∅ s))).

Definition logout (verbose : bool) : M unit :=
  let* s := get_session in
  let requires_sign_out := negb (negb (logged_in s) || use_token s) in
  let* requires_closing :=
    if requires_sign_out then
      try_except
        (let* response := request (sign_out_call (config s)) in
         if in_Z (w_status_code response) SUCCESS_STATUS_CODES then
           when verbose (log INFO LogoutSuccessful) ;;
           ret true
         else
           raise (GetiRequestException
                    {| rf_method := "GET";
                       rf_url := sign_out_url (config s);
                       rf_status_code := w_status_code response;
                       rf_request_data := None;
                       rf_response_data := None |}))
        (fun e =>
           if is_RequestException env e
              || match e with AttributeError => true | _ => false end
           then Some (when verbose (log INFO ClosedButNotLoggedOut) ;; ret true)
           else match e with
                | TypeError => Some (ret false)
                | _ => None
                end)
    else ret false in
  modify_session clear_credentials ;;
  when requires_closing
    (try_except close
       (fun e => match e with
                 | TypeError => Some (log DEBUG (ErrorDuringClosure e))
                 | _ => None
                 end)).

Definition __exit__ : M unit :=
  let* s := get_session in
  when (logged_in s)
    (try_except (logout false)
       (fun e => Some (log DEBUG (ErrorWhileExiting e)))) ;;
  close.

Definition __del__ : M unit :=
  let* s := get_session in
  when (logged_in s)
    (try_except (logout false)
       (fun e => Some (log DEBUG (ErrorDuringDeletion e)))).

End Session.

(** ** The request dispatcher and the error recovery controller *)

(** What [get_rest_response] returns: the decoded body, or the response
    itself. *)
Inductive RestResult :=
| Decoded (v : Value)
| Raw (r : Response).

(** [get_rest_response] calls itself through [_acquire_access_token] and
    through the property [organization_id], each time with flags that cut the
    recursion: the token request forbids re-authentication and leaves the
    organization out, the profile request leaves the organization out.  The
    functions are therefore first written over the two callees and then
    closed, innermost first. *)
Section Dispatcher.

Variable env : Env.
Variable _acquire_access_token : M Value.
Variable organization_id : M Value.

Definition _update_headers_for_content_type (content_type : string) : M unit :=
  if String.eqb content_type "json" then
    headers_update "Content-Type" "application/json"
  else if String.eqb content_type "jpeg" then
    headers_update "Content-Type" "image/jpeg"
  else if String.eqb content_type "multipart" then
    headers_pop "Content-Type"
  else if String.eqb content_type "" then
    headers_pop "Content-Type"
  else if String.eqb content_type "zip" then
    headers_update "Content-Type" "application/zip"
  else ret tt.

(** The property [version]: it reads the product info that the constructor
    stored. *)
Definition version_of (s : Session) : Result Version :=
  match _product_info s with
  | VDict members =>
      let version_string :=
        match assoc "build-version" members with
        | Some v => v
        | None => default VNone (assoc "product-version" members)
        end in
      GetiVersion env version_string
  | _ => Raise AttributeError
  end.

Definition version : M Version :=
  let* s := get_session in
  lift (version_of s).

(** The property [base_url]. *)
Definition base_url_with : M string :=
  let* v := version in
  let* s := get_session in
  if version_le v (GETI_18_VERSION env) then ret (cfg_base_url (config s))
  else
    let* o := organization_id in
    ret (cfg_base_url (config s) +:+ "organizations/" +:+ py_str env o +:+ "/").

(** [file_buffer.seek(0, 0)] *)
Definition seek_start (ref : nat) : M unit :=
  fun st =>
    (Ok tt,
     {| session := session st;
        heap := alter (fun b => {| contents := contents b; position := 0 |})
                      ref (heap st);
        trace := trace st |}).

Fixpoint rewind (parts : list (string * Part)) : M unit :=
  match parts with
  | [] => ret tt
  | (_, FileObj ref) :: rest => seek_start ref ;; rewind rest
  | (_, Blob _) :: _ => raise AttributeError
  end.

(** The loop over [request_params["files"].items()]. *)
Definition rewind_files (request_params : Call) : M unit :=
  match c_body request_params with
  | Some (KwFiles, data) =>
      match data with
      | DFiles parts => rewind parts
      | DValue (VDict []) => ret tt
      | _ => raise AttributeError
      end
  | _ => raise (KeyError "files")
  end.

(** The re-authentication block of [_handle_error_response]. *)
Definition reauthenticate : M unit :=
  log INFO AuthenticationMayHaveExpired ;;
  modify_session (set_logged_in false) ;;
  let* s := get_session in
  if negb (use_token s) then
    authenticate env false ;;
    log INFO AuthenticationComplete
  else
    let* access_token := _acquire_access_token in
    log INFO NewBearerToken ;;
    headers_update "Authorization" ("Bearer " +:+ py_str env access_token).

(** What precedes the second [self.request] call: the content type header
    is set again and the file buffers are rewound. *)
Definition prepare_retry (request_params : Call) (content_type : string) : M unit :=
  _update_headers_for_content_type content_type ;;
  when (String.eqb content_type "multipart") (rewind_files request_params).

(** The end of [_handle_error_response]: the body is decoded if it can be,
    and the exception is raised. *)
Definition report_failure (failed : Response) (request_params : Call)
    (request_data : option (Kw * Data)) : M Response :=
  let* response_data :=
    match json failed with
    | Ok v => ret (Some v)
    | Raise RequestsJSONDecodeError => ret None
    | Raise e => raise e
    end in
  raise (GetiRequestException
           {| rf_method := c_method request_params;
              rf_url := c_url request_params;
              rf_status_code := status_code failed;
              rf_request_data := request_data;
              rf_response_data := response_data |}).

(** The first half of [_handle_error_response]: whether the request is to
    be made again, after re-authentication or after a pause. *)
Definition decide_retry (response : Response) (allow_reauthentication : bool) : M bool :=
  if in_Z (status_code response) [200; 401] && allow_reauthentication then
    reauthenticate ;;
    ret true
  else if status_code response =? 503 then
    emit (Slept 1) ;;
    ret true
  else ret false.

(** The second half, under [if retry_request]: the one attempt to do the
    request again. *)
Definition retry (request_params : Call) (request_data : option (Kw * Data))
    (content_type : string) : M Response :=
  prepare_retry request_params content_type ;;
  let* retried := request env request_params in
  if in_Z (w_status_code retried) SUCCESS_STATUS_CODES
  then ret (Wire retried)
  else report_failure (Wire retried) request_params request_data.

Definition _handle_error_response_with (response : Response)
    (request_params : Call) (request_data : option (Kw * Data))
    (allow_reauthentication : bool) (content_type : string) : M Response :=
  let* retry_request := decide_retry response allow_reauthentication in
  if retry_request
  then retry request_params request_data content_type
  else report_failure response request_params request_data.

Definition csrf_header_methods : list string := ["POST"; "PUT"; "DELETE"; "PATCH"].

Definition is_html (r : Response) : bool :=
  match content_type_header r with
  | Some response_content_type => contains "text/html" response_content_type
  | None => false
  end.

(** The first two lines of [get_rest_response]. *)
Definition strip_api_pattern (c : Config) (url : string) : string :=
  if String.prefix (api_pattern c) url
  then slice_from (String.length (api_pattern c)) url
  else url.

Definition get_rest_response_with (url method contenttype : string) (data : Data)
    (allow_reauthentication include_organization_id allow_text_response : bool)
  : M RestResult :=
  let* s := get_session in
  let url := strip_api_pattern (config s) url in
  _update_headers_for_content_type contenttype ;;
  let* without_organization :=
    if negb include_organization_id then ret true
    else
      let* o := organization_id in
      ret (String.prefix ("organizations/" +:+ py_str env o +:+ "/") url) in
  let* requesturl :=
    if without_organization then ret (cfg_base_url (config s) +:+ url)
    else
      let* b := base_url_with in
      ret (b +:+ url) in
  let* kw_data_arg :=
    if String.eqb method "POST" || String.eqb method "PUT" then
      if String.eqb contenttype "json" then ret (Some (KwJson, data))
      else if String.eqb contenttype "multipart" then ret (Some (KwFiles, data))
      else if String.eqb contenttype "jpeg" || String.eqb contenttype "zip"
      then ret (Some (KwData, data))
      else raise (ValueError (UnsupportedContentType contenttype))
    else ret None in
  let* s1 := get_session in
  let request_params :=
    {| c_method := method; c_url := requesturl; c_body := kw_data_arg;
       c_cookies := if negb (use_token s1) then SessionCookies else NoCookies;
       c_headers := None; c_allow_redirects := None; c_stream := true |} in
  (if in_str method csrf_header_methods
   then headers_update "x-geti-csrf-protection" "1"
   else headers_pop "x-geti-csrf-protection") ;;
  let* response :=
    try_except
      (let* w := request env request_params in ret (Wire w))
      (fun e => match e with
                | SSLError _ detail => Some (raise (SSLError true detail))
                | ConnectionError args =>
                    match args with
                    | [] => Some (raise IndexError)
                    | first :: _ =>
                        if value_eq_str first "Connection aborted."
                        then Some (ret Aborted)
                        else Some (raise e)
                    end
                | _ => None
                end) in
  let* response :=
    if negb (in_Z (status_code response) SUCCESS_STATUS_CODES) || is_html response then
      if negb (is_html response && allow_text_response) then
        _handle_error_response_with response request_params kw_data_arg
          allow_reauthentication contenttype
      else ret response
    else ret response in
  if match content_type_header response with
     | Some ct => String.prefix "application/json" ct
     | None => false
     end
  then
    let* result := lift (json response) in
    ret (Decoded result)
  else ret (Raw response).

End Dispatcher.

Section Closing.

Variable env : Env.

(** A callee that the flags of the call rule out; see
    [get_rest_response_with_plain] and [get_rest_response_with_no_organization]
    below. *)
Definition not_called : M Value := raise RecursionError.

Definition _acquire_access_token : M Value :=
  let* s := get_session in
  let* token := config_token in
  let* response :=
    try_except
      (get_rest_response_with env not_called not_called
         "service_accounts/access_token" "POST" "json"
         (DValue (VDict [("service_id", VStr token)]))
         false false false)
      (fun e => match e with
                | GetiRequestException error =>
                    if rf_status_code error =? 401
                    then Some (raise (ValueError TokenAuthorizationFailed))
                    else None
                | _ => None
                end) in
  log INFO (TokenValidated (host (config s))) ;;
  match response with
  | Decoded document => lift (dict_get document "access_token" VNone)
  | Raw _ => raise AttributeError
  end.

Definition default_org_id := "000000000000000000000001".

Definition _get_organization_id : M Value :=
  let* v := version env in
  let* org_id :=
    if version_lt v (GETI_114_VERSION env) then ret (VStr default_org_id)
    else
      let* result :=
        get_rest_response_with env _acquire_access_token not_called
          "profile" "GET" "json" DNone true false false in
      match result with
      | Decoded document => lift (dict_get document "organizationId" VNone)
      | Raw _ => raise AttributeError
      end in
  if is_None org_id then raise (ValueError NoOrganizationId)
  else ret org_id.

(** The property [organization_id]. *)
Definition organization_id : M Value :=
  let* s := get_session in
  if is_None (_organization_id s) then
    let* o := _get_organization_id in
    modify_session (set__organization_id o) ;;
    ret o
  else ret (_organization_id s).

Definition base_url : M string := base_url_with env organization_id.

Definition _handle_error_response :=
  _handle_error_response_with env _acquire_access_token.

Definition decision : Response -> bool -> M bool :=
  decide_retry env _acquire_access_token.


Definition get_rest_response :=
  get_rest_response_with env _acquire_access_token organization_id.

End Closing.

(** ** Reading a trace *)

(** The requests of a trace, oldest first. *)
Fixpoint sent (tr : list Event) : list Request :=
  match tr with
  | [] => []
  | Sent rq :: rest => rq :: sent rest
  | _ :: rest => sent rest
  end.

(** The headers a request goes out with: the session headers, overridden by
    the headers of the call, where a value that is not a string removes the
    header. *)
Definition effective_headers (rq : Request) : gmap string string :=
  match c_headers (rq_call rq) with
  | None => rq_session_headers rq
  | Some call_headers =>
      union_with (fun v _ => Some v)
        (omap (fun v => match v with VStr s => Some s | _ => None end) call_headers)
        (filter (fun kv => call_headers !! kv.1 = None) (rq_session_headers rq))
  end.

Definition carries_csrf_header (rq : Request) : bool :=
  bool_decide (is_Some (effective_headers rq !! "x-geti-csrf-protection")).

Definition is_mutating (method : string) : bool :=
  in_str method ["POST"; "PUT"; "DELETE"; "PATCH"].

(** ** Concrete servers and sessions, used to run the model *)

Module Sample.

Definition reply (status : Z) (content_type : option string) (body : option Value)
  : WireResponse :=
  {| w_status_code := status; w_content_type := content_type; w_decoded := body;
     w_cookies := ∅; w_url := "https://geti.example/"; w_next_url := None;
     w_history := []; w_request_method := "GET"; w_content := "";
     w_reason := "" |}.

Definition json_reply (status : Z) (body : Value) : WireResponse :=
  reply status (Some "application/json") (Some body).

(** A server that answers the n-th request of the session with the n-th
    element of a script, and with [fallback] after that. *)
Definition scripted (script : list Outcome) (fallback : Outcome)
  : list Event -> Request -> Outcome :=
  fun tr _ => nth (length (sent tr)) script fallback.

Definition str_of (v : Value) : string :=
  match v with VStr s => s | _ => "None" end.

Definition parse_version (v : Value) : Result Version :=
  match v with
  | VStr "1.8.0" => Ok (1, 8, 0)%nat
  | VStr "1.14.0" => Ok (1, 14, 0)%nat
  | VStr "2.0.0" => Ok (2, 0, 0)%nat
  | _ => Raise (ValueError NoOrganizationId)
  end.

Definition environment (server : list Event -> Request -> Outcome) : Env :=
  {| transport := server;
     closing := fun _ => None;
     py_str := str_of;
     recursion_limit := 1000;
     GetiVersion := parse_version;
     GETI_18_VERSION := (1, 8, 0)%nat;
     GETI_114_VERSION := (1, 14, 0)%nat;
     geti_exception_is_request_exception := false |}.

Definition credential_config : Config :=
  {| host := "https://geti.example";
     api_pattern := "/api/v1/";
     cfg_base_url := "https://geti.example/api/v1/";
     credentials := UserPassword "alice" "secret" |}.

Definition token_config : Config :=
  {| host := "https://geti.example";
     api_pattern := "/api/v1/";
     cfg_base_url := "https://geti.example/api/v1/";
     credentials := PersonalToken "pat" |}.

(** A credential session as the constructor leaves it on a legacy server. *)
Definition credential_session (platform : string) : Session :=
  {| config := credential_config; logged_in := true; use_token := false;
     headers := {[ "Content-Type" := "application/x-www-form-urlencoded" ]};
     cookies := ∅;
     _cookies := {[ CSRF_COOKIE_NAME := VStr "csrf"; PROXY_COOKIE_NAME := VStr "proxy" ]};
     _auth_service := Some AUTHENTICATION_DEX_OLD;
     _product_info := VDict [("build-version", VStr platform)];
     _organization_id := VStr default_org_id |}.

(** A token session as the constructor leaves it. *)
Definition token_session (platform : string) : Session :=
  {| config := token_config; logged_in := false; use_token := true;
     headers := {[ "Upgrade-Insecure-Requests" := "1";
                   "Authorization" := "Bearer old" ]};
     cookies := ∅;
     _cookies := {[ CSRF_COOKIE_NAME := VNone; PROXY_COOKIE_NAME := VNone ]};
     _auth_service := Some AUTHENTICATION_DEX_OLD;
     _product_info := VDict [("build-version", VStr platform)];
     _organization_id := VStr default_org_id |}.

Definition start (s : Session) : State :=
  {| session := s; heap := ∅; trace := [] |}.

(** A credential session before its first login, with the backend not yet
    negotiated or already known. *)
Definition new_session (backend : option string) : Session :=
  {| config := credential_config; logged_in := false; use_token := false;
     headers := INITIAL_HEADERS; cookies := ∅;
     _cookies := {[ CSRF_COOKIE_NAME := VNone; PROXY_COOKIE_NAME := VNone ]};
     _auth_service := backend;
     _product_info := VDict [];
     _organization_id := VNone |}.

(** A descriptor that is a JSON object without an "auth" member. *)
Definition bare_descriptor : WireResponse := json_reply 200 (VDict []).

(** A legacy server whose login form answers through one redirect that sets
    no proxy cookie. *)
Definition login_page : WireResponse :=
  reply 200 (Some "text/html") None.
Definition login_answer_without_cookie : WireResponse :=
  {| w_status_code := 200; w_content_type := Some "text/html"; w_decoded := None;
     w_cookies := ∅; w_url := "https://geti.example/"; w_next_url := None;
     w_history := [ {| hop_status_code := 302; hop_cookies := ∅ |} ];
     w_request_method := "GET"; w_content := ""; w_reason := "OK" |}.
Definition legacy_server_without_cookie : list Event -> Request -> Outcome :=
  scripted [Responds login_page; Responds login_answer_without_cookie]
           (Throws (RequestException "unexpected request")).

(** A server that rejects the first request with 401, then issues a bearer
    token, then answers every request with an empty JSON object. *)
Definition expired_then_fine : list Event -> Request -> Outcome :=
  scripted [Responds (reply 401 None None);
            Responds (json_reply 200 (VDict [("access_token", VStr "fresh")]))]
           (Responds (json_reply 200 (VDict []))).

(** A legacy server on which the session has expired: the first request is
    rejected with 401, the login that follows succeeds, and every later
    request is answered with an empty JSON object. *)
Definition login_answer_with_cookie : WireResponse :=
  {| w_status_code := 200; w_content_type := Some "text/html"; w_decoded := None;
     w_cookies := ∅; w_url := "https://geti.example/"; w_next_url := None;
     w_history := [ {| hop_status_code := 302;
                       hop_cookies := {[ PROXY_COOKIE_NAME := "renewed" ]} |} ];
     w_request_method := "GET"; w_content := ""; w_reason := "OK" |}.
Definition expired_then_login : list Event -> Request -> Outcome :=
  scripted [Responds (reply 401 None None);
            Responds login_page;
            Responds login_answer_with_cookie]
           (Responds (json_reply 200 (VDict []))).

(** A server that is unavailable once and fine afterwards. *)
Definition unavailable_once : list Event -> Request -> Outcome :=
  scripted [Responds (reply 503 None None)] (Responds (json_reply 200 (VDict []))).

(** A server that answers every request with an empty JSON object. *)
Definition always_fine : list Event -> Request -> Outcome :=
  scripted [] (Responds (json_reply 200 (VDict []))).


Definition upload_call : Call :=
  {| c_method := "POST"; c_url := "https://geti.example/api/v1/media";
     c_body := Some (KwFiles, DFiles [("file", FileObj 0)]);
     c_cookies := SessionCookies; c_headers := None;
     c_allow_redirects := None; c_stream := true |}.

(** The state after a first attempt of the upload: the file has been read
    to its end. *)
Definition after_upload (s : Session) : State :=
  {| session := s;
     heap := {[ 0%nat := {| contents := [Byte.x47; Byte.x45; Byte.x54];
                            position := 3 |} ]};
     trace := [] |}.


(** A server that cannot be reached. *)
Definition unreachable : list Event -> Request -> Outcome :=
  scripted [] (Throws (RequestsConnectionError "connection refused")).

(** Method and URL of the requests of a trace, and whether each went out
    with the CSRF header. *)
Definition dispatched (st : State) : list (string * string * bool) :=
  map (fun rq => (c_method (rq_call rq), c_url (rq_call rq), carries_csrf_header rq))
      (sent (trace st)).

End Sample.

(** ** Vocabulary of the properties *)

(** The state after the transport answered call [c] with [w]. *)
Definition answered (c : Call) (w : WireResponse) (st : State) : State :=
  {| session := set_cookies (store_cookies w (cookies (session st))) (session st);
     heap := (read_body c (heap st)).2;
     trace := trace st ++ [Sent (request_of c (read_body c (heap st)).1 st)] |}.

Definition store_service (service : string) (st : State) : State :=
  {| session := set__auth_service (Some service) (session st);
     heap := heap st; trace := trace st |}.

(** Two relations between an earlier and a later state: the trace has only
    grown, and the file buffers still hold the same bytes. *)
Definition extends (st st' : State) : Prop :=
  exists events, trace st' = trace st ++ events.

Definition same_contents (st st' : State) : Prop :=
  forall ref, contents <$> heap st' !! ref = contents <$> heap st !! ref.

(** A relation that holds across every primitive step: a change of the
    session attributes, one more event, and a change of the read positions
    of the buffers. *)
Class Stable (R : State -> State -> Prop) : Prop := {
  stable_refl : forall st, R st st;
  stable_trans : forall a b c, R a b -> R b c -> R a c;
  stable_session : forall st s,
    R st {| session := s; heap := heap st; trace := trace st |};
  stable_event : forall st e,
    R st {| session := session st; heap := heap st; trace := trace st ++ [e] |};
  stable_positions : forall st h,
    (forall ref, contents <$> h !! ref = contents <$> heap st !! ref) ->
    R st {| session := session st; heap := h; trace := trace st |}
}.

Definition preserves (R : State -> State -> Prop) {A} (m : M A) : Prop :=
  forall st, R st (m st).2.

Abbreviation monotone := (preserves extends).

Definition with_headers (h : gmap string string) (st : State) : State :=
  {| session := set_headers h (session st); heap := heap st; trace := trace st |}.

Definition is_file (part : string * Part) : bool :=
  match part.2 with FileObj _ => true | Blob _ => false end.

(** The loop over the [files] of the request finds a dictionary whose values
    all have [seek]. *)
Definition rewindable (request_params : Call) : bool :=
  match c_body request_params with
  | Some (KwFiles, DFiles parts) => forallb is_file parts
  | Some (KwFiles, DValue (VDict [])) => true
  | _ => false
  end.

Definition file_parts (request_params : Call) : list (string * Part) :=
  match c_body request_params with
  | Some (KwFiles, DFiles parts) => parts
  | _ => []
  end.











Definition rewound (b : Buffer) : Buffer :=
  {| contents := contents b; position := 0 |}.

(** The heap after [seek(0, 0)] on every file object of [parts]. *)
Definition rewind_heap (parts : list (string * Part)) (h : gmap nat Buffer)
  : gmap nat Buffer :=
  foldl (fun h part => match part.2 with
                       | FileObj ref => alter rewound ref h
                       | Blob _ => h
                       end) h parts.

Definition mentions (parts : list (string * Part)) (ref : nat) : bool :=
  existsb (fun part => match part.2 with
                       | FileObj r => Nat.eqb r ref
                       | Blob _ => false
                       end) parts.

(** The state in which [authenticate] starts the login flow, the state in
    which it submits the login form, and the call that submits it to a
    legacy server. *)
Definition same_identity (st st' : State) : Prop :=
  config (session st') = config (session st)
  /\ logged_in (session st') = logged_in (session st).

Definition cleared (st : State) : State :=
  {| session := set_cookies ∅ (session st); heap := heap st; trace := trace st |}.

Definition ready_to_submit (verbose : bool) (host : string) (st1 : State) : State :=
  (bind (modify_session (set_headers ∅))
     (fun _ =>
        bind (headers_update "Content-Type" "application/x-www-form-urlencoded")
          (fun _ => when verbose (log INFO (Authenticating host)))) st1).2.

Definition legacy_login_call (login_path username password : string) (s : Session)
  : Call :=
  {| c_method := "POST"; c_url := login_path;
     c_body := Some (KwData, DValue (VDict [("login", VStr username);
                                            ("password", VStr password)]));
     c_cookies := FreshCookies {[ CSRF_COOKIE_NAME := csrf_cookie s ]};
     c_headers := Some {[ "Cookie" := csrf_cookie s ]};
     c_allow_redirects := Some true; c_stream := false |}.

(** ** The stages of [get_rest_response] *)

(** The request is prepared (headers, URL, body keyword), sent, and its
    answer is settled.  The pieces below name what each stage computes, so
    that the properties can speak about the request that reaches the
    transport and about the state in which it does. *)

(** [kw_data_arg]: the keyword under which the body is handed to
    [self.request]. *)
Definition kw_data_arg (method contenttype : string) (data : Data)
  : Result (option (Kw * Data)) :=
  if String.eqb method "POST" || String.eqb method "PUT" then
    if String.eqb contenttype "json" then Ok (Some (KwJson, data))
    else if String.eqb contenttype "multipart" then Ok (Some (KwFiles, data))
    else if String.eqb contenttype "jpeg" || String.eqb contenttype "zip"
    then Ok (Some (KwData, data))
    else Raise (ValueError (UnsupportedContentType contenttype))
  else Ok None.

(** The path segment that names the organization. *)
Definition organization_segment (env : Env) (s : Session) : string :=
  "organizations/" +:+ py_str env (_organization_id s) +:+ "/".

(** [requesturl], on a session that knows its organization id and whose
    platform version is [v]. *)
Definition request_url (env : Env) (s : Session) (v : Version)
    (include_organization_id : bool) (url : string) : string :=
  let url := strip_api_pattern (config s) url in
  if negb include_organization_id || String.prefix (organization_segment env s) url
  then cfg_base_url (config s) +:+ url
  else if version_le v (GETI_18_VERSION env)
       then cfg_base_url (config s) +:+ url
       else (cfg_base_url (config s) +:+ organization_segment env s) +:+ url.

(** What a call that includes the organization needs from the session: the
    organization id that the constructor stored, and a product info from
    which the version can be read. *)
Definition organization_known (env : Env) (s : Session) (v : Version)
    (include_organization_id : bool) : Prop :=
  include_organization_id = true ->
  is_None (_organization_id s) = false /\ version_of env s = Ok v.

(** [request_params] *)
Definition rest_call (method requesturl : string) (body : option (Kw * Data))
    (s : Session) : Call :=
  {| c_method := method; c_url := requesturl; c_body := body;
     c_cookies := if negb (use_token s) then SessionCookies else NoCookies;
     c_headers := None; c_allow_redirects := None; c_stream := true |}.

Definition csrf_protection (method : string) : M unit :=
  if in_str method csrf_header_methods
  then headers_update "x-geti-csrf-protection" "1"
  else headers_pop "x-geti-csrf-protection".

(** The state in which the request is handed to the transport: the session
    headers are set for the content kind and for the method. *)
Definition prepared (method contenttype : string) (st : State) : State :=
  (bind (_update_headers_for_content_type contenttype)
     (fun _ => csrf_protection method) st).2.

(** The [Content-Type] session header after
    [_update_headers_for_content_type], given the header before it. *)
Definition content_type_for (content_type : string) (current : option string)
  : option string :=
  if String.eqb content_type "json" then Some "application/json"
  else if String.eqb content_type "jpeg" then Some "image/jpeg"
  else if String.eqb content_type "multipart" then None
  else if String.eqb content_type "" then None
  else if String.eqb content_type "zip" then Some "application/zip"
  else current.

(** The state after the transport raised on call [c]. *)
Definition thrown (c : Call) (st : State) : State :=
  {| session := session st;
     heap := (read_body c (heap st)).2;
     trace := trace st ++ [Sent (request_of c (read_body c (heap st)).1 st)] |}.

(** The built-in [ConnectionError] whose first argument is
    "Connection aborted.", for which a 401 response is made up. *)
Definition aborted (e : Exc) : bool :=
  match e with
  | ConnectionError (first :: _) => value_eq_str first "Connection aborted."
  | _ => false
  end.


(** What the [except] clauses around [self.request] raise for an exception
    that is not an aborted connection. *)
Definition reraised (e : Exc) : Exc :=
  match e with
  | SSLError _ detail => SSLError true detail
  | ConnectionError [] => IndexError
  | _ => e
  end.

(** Whether the response is passed to [_handle_error_response]. *)
Definition needs_handling (response : Response) (allow_text_response : bool) : bool :=
  (negb (in_Z (status_code response) SUCCESS_STATUS_CODES) || is_html response)
  && negb (is_html response && allow_text_response).

(** [result]: the decoded body of a JSON response, the response itself
    otherwise. *)
Definition delivered (response : Response) : Result RestResult :=
  if match content_type_header response with
     | Some ct => String.prefix "application/json" ct
     | None => false
     end
  then match json response with
       | Ok v => Ok (Decoded v)
       | Raise e => Raise e
       end
  else Ok (Raw response).

(** The last stage: error handling where it applies, then the result. *)
Definition settle (env : Env) (request_params : Call)
    (request_data : option (Kw * Data))
    (allow_reauthentication allow_text_response : bool) (contenttype : string)
    (response : Response) : M RestResult :=
  let* response :=
    if needs_handling response allow_text_response
    then _handle_error_response env response request_params request_data
           allow_reauthentication contenttype
    else ret response in
  lift (delivered response).

(** ** The constructor: product info and API version *)

Definition set_config (c : Config) (s : Session) : Session :=
  {| config := c; logged_in := logged_in s; use_token := use_token s;
     headers := headers s; cookies := cookies s; _cookies := _cookies s;
     _auth_service := _auth_service s; _product_info := _product_info s;
     _organization_id := _organization_id s |}.

Definition set_use_token (b : bool) (s : Session) : Session :=
  {| config := config s; logged_in := logged_in s; use_token := b;
     headers := headers s; cookies := cookies s; _cookies := _cookies s;
     _auth_service := _auth_service s; _product_info := _product_info s;
     _organization_id := _organization_id s |}.

Definition set__product_info (v : Value) (s : Session) : Session :=
  {| config := config s; logged_in := logged_in s; use_token := use_token s;
     headers := headers s; cookies := cookies s; _cookies := _cookies s;
     _auth_service := _auth_service s; _product_info := v;
     _organization_id := _organization_id s |}.

(** [self.headers.pop(k)], without a default. *)
Definition headers_pop_or_raise (k : string) : M unit :=
  let* s := get_session in
  match headers s !! k with
  | Some _ => headers_pop k
  | None => raise (KeyError k)
  end.

(** What [self._product_info] holds for a result of [get_rest_response]: the
    decoded document.  A response that is not JSON is stored as it is; the
    session only calls [keys()] on its product info, which a response does
    not have, no more than [None] has. *)
Definition product_info_of (result : RestResult) : Value :=
  match result with
  | Decoded document => document
  | Raw _ => VNone
  end.

Section ProductInfo.

Variable env : Env.

(** [server_config.py] is not among the sources.  The assignment
    [self.config.api_version = LEGACY_API_VERSION] is taken as a function of
    the configuration: it yields the configuration whose [base_url] and
    [api_pattern] are those of the legacy API version. *)
Variable set_legacy_api_version : Config -> Config.

Definition _get_product_info_and_set_api_version : M RestResult :=
  try_except
    (get_rest_response env "product_info" "GET" "json" DNone true false false)
    (fun e => match e with
              | GetiRequestException _ =>
                  Some (modify_session
                          (fun s => set_config (set_legacy_api_version (config s)) s) ;;
                        get_rest_response env "product_info" "GET" "json" DNone
                          true false false)
              | _ => None
              end).

(** [requests.utils.default_headers()], with which [super().__init__()]
    fills the headers of the session; [requests] is not among the sources. *)
Variable default_headers : gmap string string.

(** The session after the assignments that precede the choice of the
    authentication method.  [use_token], [_product_info] and
    [_organization_id] are assigned further down, each before anything reads
    it: [authenticate] and the requests of the login do not read
    [use_token], and the requests of the constructor do not include the
    organization.  Until then they hold [false] and [VNone].  The proxies,
    [verify] and the warning on a disabled certificate validation concern
    the transport only. *)
Definition fresh_session (server_config : Config) : Session :=
  {| config := server_config; logged_in := false; use_token := false;
     headers := INITIAL_HEADERS ∪ default_headers;
     cookies := ∅;
     _cookies := {[ CSRF_COOKIE_NAME := VNone; PROXY_COOKIE_NAME := VNone ]};
     _auth_service := None;
     _product_info := VNone;
     _organization_id := VNone |}.

Definition __init__ (server_config : Config) : M unit :=
  modify_session (fun _ => fresh_session server_config) ;;
  (* Determine authentication method *)
  match credentials server_config with
  | UserPassword _ _ =>
      authenticate env true ;;
      modify_session (set_use_token false)
  | PersonalToken token =>
      modify_session (set_use_token true) ;;
      let* service := authentication_service env in
      (if String.eqb service AUTHENTICATION_DEX_OLD then
         let* access_token := _acquire_access_token env in
         headers_update "Authorization" ("Bearer " +:+ py_str env access_token)
       else headers_update "x-api-key" token) ;;
      headers_pop_or_raise "Connection"
  end ;;
  (* Get server version *)
  let* product_info := _get_product_info_and_set_api_version in
  modify_session (set__product_info (product_info_of product_info)) ;;
  let* o := _get_organization_id env in
  modify_session (set__organization_id o).

End ProductInfo.

(** A modern platform that is set up with a personal access token: the
    deployment configuration, the product info and the profile are
    answered in turn. *)
Definition modern_descriptor : WireResponse :=
  Sample.json_reply 200 (VDict [("auth", VDict [("type", VStr "dex")])]).
Definition product_info_answer : WireResponse :=
  Sample.json_reply 200 (VDict [("build-version", VStr "2.0.0")]).
Definition profile_answer : WireResponse :=
  Sample.json_reply 200 (VDict [("organizationId", VStr "org-1")]).

Definition platform_for_token : list Event -> Request -> Outcome :=
  Sample.scripted
    [Responds modern_descriptor; Responds product_info_answer]
    (Responds profile_answer).

(** The headers that [requests] gives a new session. *)
Definition requests_headers : gmap string string :=
  {[ "Accept" := "*/*"; "Connection" := "keep-alive" ]}.

(** A part of the session, picked by [view], is the same in two states. *)
Definition unchanged {X : Type} (view : Session -> X) (st st' : State) : Prop :=
  view (session st') = view (session st).

(** The attributes of the session that only the constructor assigns. *)
Definition same_platform (st st' : State) : Prop :=
  config (session st') = config (session st)
  /\ use_token (session st') = use_token (session st)
  /\ _product_info (session st') = _product_info (session st).

(** The state in which the product info is requested again. *)
Definition with_legacy_api_version (set_legacy_api_version : Config -> Config)
    (st : State) : State :=
  {| session := set_config (set_legacy_api_version (config (session st))) (session st);
     heap := heap st; trace := trace st |}.

(** ** The search for the login page *)

(** A request that only looks: a GET without a body, with redirects not
    followed. *)
Definition is_probe (rq : Request) : bool :=
  String.eqb (c_method (rq_call rq)) "GET"
  && match c_body (rq_call rq) with None => true | Some _ => false end
  && match c_allow_redirects (rq_call rq) with Some false => true | _ => false end.

(** ** The modern login *)

(** The call that submits the login form to a modern server, the
    authorization code in the URL of its answer, and the call that exchanges
    the code for a token. *)
Definition modern_login_call (login_path username password : string) (s : Session)
  : Call :=
  {| c_method := "POST"; c_url := login_path;
     c_body := Some (KwData, DValue (VDict [("login", VStr username);
                                            ("password", VStr password)]));
     c_cookies := FreshCookies ∅;
     c_headers := Some (VStr <$> headers s);
     c_allow_redirects := Some true; c_stream := false |}.

Definition authorization_code (url : string) : option string :=
  match split "code=" url !! 1%nat with
  | Some after => split "&" after !! 0%nat
  | None => None
  end.

(** The text of [s] that precedes the first occurrence of [sep], all of [s]
    when [sep] does not occur; and the text that follows the first
    occurrence, nothing when [sep] does not occur. *)
Fixpoint text_before (sep s : string) : string :=
  if String.prefix sep s then EmptyString
  else match s with
       | EmptyString => EmptyString
       | String c rest => String c (text_before sep rest)
       end.

Fixpoint text_after (sep s : string) : string :=
  if String.prefix sep s then str_drop (String.length sep) s
  else match s with
       | EmptyString => EmptyString
       | String _ rest => text_after sep rest
       end.

Definition token_call (host code : string) : Call :=
  {| c_method := "POST"; c_url := host +:+ "/dex/token";
     c_body := Some (KwData,
                     DValue (VDict [("grant_type", VStr "authorization_code");
                                    ("redirect_uri", VStr "/callback");
                                    ("code", VStr code);
                                    ("client_id", VStr "web_ui")]));
     c_cookies := NoCookies; c_headers := None;
     c_allow_redirects := Some true; c_stream := false |}.

(** The redirect from the login page to the login form. *)
Definition login_redirect : WireResponse :=
  {| w_status_code := 302; w_content_type := None; w_decoded := None;
     w_cookies := ∅; w_url := "https://geti.example/dex/auth";
     w_next_url := Some "https://geti.example/dex/auth/local/login";
     w_history := []; w_request_method := "GET"; w_content := "";
     w_reason := "Found" |}.

(** A modern server: the login page request is answered with a redirect to
    the login form, and the form with [form_answer]; [token_answer] answers
    every later request. *)
Definition modern_server (form_answer token_answer : WireResponse)
  : list Event -> Request -> Outcome :=
  Sample.scripted [Responds login_redirect; Responds form_answer]
    (Responds token_answer).

(** The answer to a login form that was accepted: the URL carries the
    authorization code. *)
Definition form_accepted : WireResponse :=
  {| w_status_code := 200; w_content_type := Some "text/html"; w_decoded := None;
     w_cookies := ∅;
     w_url := "https://geti.example/callback?code=abc123&state=xyz";
     w_next_url := None; w_history := []; w_request_method := "POST";
     w_content := ""; w_reason := "OK" |}.

(** A modern platform that is set up with a user name and a password: the
    deployment configuration, the login page, the login form, the token,
    the product info and the profile are answered in turn. *)
Definition platform_for_credentials : list Event -> Request -> Outcome :=
  Sample.scripted
    [Responds modern_descriptor; Responds login_redirect; Responds form_accepted;
     Responds (Sample.json_reply 200 (VDict [("access_token", VStr "jwt")]));
     Responds product_info_answer]
    (Responds profile_answer).

(** ** The logged-in flag *)

(** The two attributes that say how the session authenticates and whether
    it is logged in. *)
Definition login_view (s : Session) : bool * bool := (logged_in s, use_token s).

(** From a state whose view satisfies [P], the computation returns in a
    state whose view satisfies [Q], or raises in one whose view satisfies
    [E]. *)
Definition ensures {A} (P : bool * bool -> Prop) (m : M A)
    (Q E : bool * bool -> Prop) : Prop :=
  forall st,
    P (login_view (session st)) ->
    match m st with
    | (Ok _, st') => Q (login_view (session st'))
    | (Raise _, st') => E (login_view (session st'))
    end.

Definition logged_in_with_credentials (v : bool * bool) : Prop := v = (true, false).
Definition credential_mode (v : bool * bool) : Prop := v.2 = false.
Definition token_mode (v : bool * bool) : Prop := v = (false, true).

(** The outcome of a call on a credential session: the session is still in
    credential mode, and logged in if the call returned. *)
Definition logged_in_on_return {X} (run : Result X * State) : Prop :=
  use_token (session run.2) = false
  /\ match run.1 with
     | Ok _ => logged_in (session run.2) = true
     | Raise _ => True
     end.

(** * Properties *)

(** ** Basic facts about the monad and the trace *)

Lemma sent_app (a b : list Event) : sent (a ++ b) = sent a ++ sent b.
Proof.
  induction a as [|e a IH]; simpl; [reflexivity|].
  destruct e; simpl; rewrite IH; reflexivity.
Qed.

Lemma sent_logged (tr : list Event) lvl r : sent (tr ++ [Logged lvl r]) = sent tr.
Proof. rewrite sent_app. simpl. apply app_nil_r. Qed.

Lemma bind_ext {A B} (m : M A) (k k' : A -> M B) (st : State) :
  (forall a st', k a st' = k' a st') -> bind m k st = bind m k' st.
Proof.
  intros H. unfold bind. destruct (m st) as [[a|e] st']; [apply H | reflexivity].
Qed.

Lemma bind_ok {A B} (m : M A) (k : A -> M B) (st st' : State) (a : A) :
  m st = (Ok a, st') -> bind m k st = k a st'.
Proof. intros H. unfold bind. rewrite H. reflexivity. Qed.

Lemma bind_raise {A B} (m : M A) (k : A -> M B) (st st' : State) (e : Exc) :
  m st = (Raise e, st') -> bind m k st = (Raise e, st').
Proof. intros H. unfold bind. rewrite H. reflexivity. Qed.

(** ** Idempotence of [authenticate] *)

(** C7. Calling [authenticate] on a session that is already logged in returns
    without error, leaves every attribute of the session and every file
    buffer as it was, and sends nothing: the only effect is the log record
    "Already logged in, authentication is skipped". *)
Theorem authenticate_when_logged_in (env : Env) (verbose : bool) (st : State) :
  logged_in (session st) = true ->
  let '(result, st') := authenticate env verbose st in
  result = Ok tt
  /\ session st' = session st
  /\ heap st' = heap st
  /\ trace st' = trace st ++ [Logged INFO AlreadyLoggedIn]
  /\ sent (trace st') = sent (trace st).
Proof.
  intros Hin.
  unfold authenticate, bind, get_session. rewrite Hin. simpl.
  repeat split. apply sent_logged.
Qed.

Lemma authenticate_when_logged_in_witness :
  let st := Sample.start (Sample.credential_session "1.8.0") in
  let '(result, st') :=
    authenticate (Sample.environment (Sample.scripted [] (Throws TypeError))) true st in
  result = Ok tt
  /\ session st' = session st
  /\ heap st' = heap st
  /\ trace st' = trace st ++ [Logged INFO AlreadyLoggedIn]
  /\ sent (trace st') = sent (trace st).
Proof.
  exact (authenticate_when_logged_in
           (Sample.environment (Sample.scripted [] (Throws TypeError))) true
           (Sample.start (Sample.credential_session "1.8.0")) eq_refl).
Defined.

(** ** Auth backend negotiation *)

Lemma value_eq_str_true (v : Value) (s : string) :
  value_eq_str v s = true <-> v = VStr s.
Proof.
  destruct v; simpl; split; try discriminate.
  - intros H. apply String.eqb_eq in H. congruence.
  - intros H. injection H as ->. apply String.eqb_refl.
Qed.

Lemma authentication_service_cached (env : Env) (st : State) (service : string) :
  _auth_service (session st) = Some service ->
  authentication_service env st = (Ok service, st).
Proof.
  intros H. unfold authentication_service, bind, get_session. rewrite H.
  reflexivity.
Qed.

Lemma request_responds (env : Env) (c : Call) (st : State) (w : WireResponse) :
  transport env (trace st) (request_of c (read_body c (heap st)).1 st) = Responds w ->
  request env c st = (Ok w, answered c w st).
Proof.
  intros H. unfold request, answered.
  destruct (read_body c (heap st)) as [parts heap']. simpl in *.
  rewrite H. reflexivity.
Qed.

Lemma authentication_service_fresh (env : Env) (st : State) (w : WireResponse) :
  _auth_service (session st) = None ->
  transport env (trace st)
    (request_of (deployment_config_call (config (session st))) [] st) = Responds w ->
  let st1 := answered (deployment_config_call (config (session st))) w st in
  authentication_service env st =
  match w_decoded w with
  | None => (Ok AUTHENTICATION_DEX_OLD, store_service AUTHENTICATION_DEX_OLD st1)
  | Some document =>
      match dict_get document "auth" (VDict [("type", VStr "dex")]) with
      | Raise e => (Raise e, st1)
      | Ok info =>
          match dict_get info "type" VNone with
          | Raise e => (Raise e, st1)
          | Ok type =>
              let service := if value_eq_str type "dex"
                             then AUTHENTICATION_DEX_NEW
                             else AUTHENTICATION_CIDAAS in
              (Ok service, store_service service st1)
          end
      end
  end.
Proof.
  intros Hnone Hw st1.
  unfold authentication_service.
  unfold bind at 1. unfold get_session at 1. rewrite Hnone.
  unfold bind at 1.
  rewrite (request_responds env _ st w Hw). fold st1.
  unfold try_except, bind, lift, json.
  destruct (w_decoded w) as [document|]; [|reflexivity].
  destruct document; try reflexivity.
Qed.

(** C3, as the code has it. The deployment descriptor resolves to the legacy
    redirect login when it cannot be decoded; to the modern redirect login
    when it is an object without an "auth" member (the member defaults to
    type "dex") or whose "auth" object declares the type "dex"; and to the
    token service when the "auth" object declares any other type or no type.
    A resolved backend is stored in the session, one request was sent for it,
    and from then on the property answers from the stored value without
    sending anything. *)
Theorem authentication_service_resolution (env : Env) (st : State) (w : WireResponse) :
  _auth_service (session st) = None ->
  transport env (trace st)
    (request_of (deployment_config_call (config (session st))) [] st) = Responds w ->
  let '(result, st') := authentication_service env st in
  (w_decoded w = None -> result = Ok AUTHENTICATION_DEX_OLD)
  /\ (forall members,
        w_decoded w = Some (VDict members) -> assoc "auth" members = None ->
        result = Ok AUTHENTICATION_DEX_NEW)
  /\ (forall members info,
        w_decoded w = Some (VDict members) ->
        assoc "auth" members = Some (VDict info) ->
        assoc "type" info = Some (VStr "dex") ->
        result = Ok AUTHENTICATION_DEX_NEW)
  /\ (forall members info,
        w_decoded w = Some (VDict members) ->
        assoc "auth" members = Some (VDict info) ->
        assoc "type" info <> Some (VStr "dex") ->
        result = Ok AUTHENTICATION_CIDAAS)
  /\ (forall service,
        result = Ok service ->
        _auth_service (session st') = Some service
        /\ sent (trace st')
           = sent (trace st)
             ++ [request_of (deployment_config_call (config (session st))) [] st]
        /\ forall later,
             _auth_service (session later) = Some service ->
             authentication_service env later = (Ok service, later)).
Proof.
  intros Hnone Hw.
  rewrite (authentication_service_fresh env st w Hnone Hw).
  assert (Hstored : forall service : string,
             _auth_service (session (store_service service
                (answered (deployment_config_call (config (session st))) w st)))
             = Some service
             /\ sent (trace (store_service service
                   (answered (deployment_config_call (config (session st))) w st)))
                = sent (trace st)
                  ++ [request_of (deployment_config_call (config (session st))) [] st]
             /\ forall later,
                  _auth_service (session later) = Some service ->
                  authentication_service env later = (Ok service, later)).
  { intros service. split; [reflexivity|]. split.
    - simpl. rewrite sent_app. reflexivity.
    - intros later Hl. apply authentication_service_cached, Hl. }
  destruct (w_decoded w) as [document|] eqn:Hdoc.
  - destruct document as [| | | | |members]; simpl;
      try (repeat split; intros; discriminate).
    destruct (assoc "auth" members) as [info|] eqn:Hauth.
    + destruct info as [| | | | |info]; simpl;
        try (repeat split; intros; congruence).
      destruct (value_eq_str _ "dex") eqn:Htype.
      * apply value_eq_str_true in Htype.
        split; [discriminate|]. split; [congruence|]. split; [reflexivity|].
        split.
        -- intros ms i Hm Hi Ht. injection Hm as <-.
           rewrite Hauth in Hi. injection Hi as <-.
           destruct (assoc "type" info); simpl in Htype; congruence.
        -- intros service Hs. injection Hs as <-. apply Hstored.
      * split; [discriminate|]. split; [congruence|]. split.
        -- intros ms i Hm Hi Ht. injection Hm as <-.
           rewrite Hauth in Hi. injection Hi as <-.
           rewrite Ht in Htype. simpl in Htype. discriminate.
        -- split; [reflexivity|].
           intros service Hs. injection Hs as <-. apply Hstored.
    + simpl. split; [discriminate|]. split; [reflexivity|].
      split; [congruence|]. split; [congruence|].
      intros service Hs. injection Hs as <-. apply Hstored.
  - split; [reflexivity|]. split; [discriminate|].
    split; [discriminate|]. split; [discriminate|].
    intros service Hs. injection Hs as <-. apply Hstored.
Qed.

Lemma authentication_service_resolution_witness :
  fst (authentication_service
         (Sample.environment
            (Sample.scripted
               [Responds (Sample.json_reply 200
                            (VDict [("auth", VDict [("type", VStr "oidc")])]))]
               (Throws TypeError)))
         (Sample.start (Sample.new_session None)))
  = Ok AUTHENTICATION_CIDAAS.
Proof.
  pose proof (authentication_service_resolution
                (Sample.environment
                   (Sample.scripted
                      [Responds (Sample.json_reply 200
                                   (VDict [("auth", VDict [("type", VStr "oidc")])]))]
                      (Throws TypeError)))
                (Sample.start (Sample.new_session None))
                (Sample.json_reply 200 (VDict [("auth", VDict [("type", VStr "oidc")])]))
                eq_refl eq_refl) as H.
  destruct (authentication_service _ _) as [result st'].
  destruct H as (_ & _ & _ & H & _).
  apply (H _ _ eq_refl eq_refl). discriminate.
Defined.

(** C3 as stated fails: a descriptor that decodes to an object without any
    auth type resolves to the modern redirect login, not to the legacy one. *)
Lemma auth_type_absent_is_not_legacy :
  ~ (forall (env : Env) (st : State) (w : WireResponse) members,
        _auth_service (session st) = None ->
        transport env (trace st)
          (request_of (deployment_config_call (config (session st))) [] st)
        = Responds w ->
        w_decoded w = Some (VDict members) ->
        assoc "auth" members = None ->
        fst (authentication_service env st) = Ok AUTHENTICATION_DEX_OLD).
Proof.
  intros claim.
  specialize (claim
    (Sample.environment (Sample.scripted [Responds Sample.bare_descriptor] (Throws TypeError)))
    (Sample.start (Sample.new_session None))
    Sample.bare_descriptor [] eq_refl eq_refl eq_refl eq_refl).
  vm_compute in claim. discriminate.
Qed.

(** ** The legacy login and the proxy cookie *)

(** Looking for the login page changes neither the configuration nor the
    logged-in flag of the session. *)
Lemma same_identity_trans (a b c : State) :
  same_identity a b -> same_identity b c -> same_identity a c.
Proof. intros [H1 H2] [H3 H4]. split; congruence. Qed.

Lemma request_identity (env : Env) (c : Call) (st : State) :
  same_identity st (request env c st).2.
Proof.
  unfold request. destruct (read_body c (heap st)) as [parts heap'].
  destruct (transport env (trace st) _); split; reflexivity.
Qed.

Lemma _follow_login_redirects_identity (env : Env) (depth : nat)
    (response : WireResponse) (use_legacy_dex : bool) (st : State) :
  same_identity st (_follow_login_redirects env depth response use_legacy_dex st).2.
Proof.
  revert response st. induction depth as [|depth IH]; intros response st;
    [split; reflexivity|].
  cbn [_follow_login_redirects]. destruct use_legacy_dex.
  - destruct (in_Z (w_status_code response) [302; 303]); [|split; reflexivity].
    unfold bind at 1. unfold next_url.
    destruct (w_next_url response) as [redirect_url|]; [|split; reflexivity].
    unfold ret at 1. unfold bind at 1. unfold get.
    pose proof (request_identity env
                  {| c_method := "GET"; c_url := redirect_url; c_body := None;
                     c_cookies := NoCookies; c_headers := None;
                     c_allow_redirects := Some false; c_stream := false |} st)
      as Hrequest.
    destruct (request env _ st) as [[redirected|e] st1]; [|exact Hrequest].
    apply (same_identity_trans st st1); [exact Hrequest|].
    unfold bind at 1.
    destruct (match w_cookies redirected !! CSRF_COOKIE_NAME with
              | Some c => Some c
              | None => w_cookies response !! CSRF_COOKIE_NAME
              end) as [proxy_csrf|].
    + unfold modify_session at 1.
      eapply same_identity_trans; [|apply IH]. split; reflexivity.
    + unfold ret at 1. apply IH.
  - destruct (in_Z (w_status_code response) [302; 303]); [|split; reflexivity].
    unfold bind, next_url.
    destruct (w_next_url response); split; reflexivity.
Qed.

Lemma _get_initial_login_url_identity (env : Env) (use_legacy_dex : bool) (st : State) :
  same_identity st (_get_initial_login_url env use_legacy_dex st).2.
Proof.
  unfold _get_initial_login_url. unfold bind at 1. unfold get_session at 1.
  unfold bind at 1. unfold get.
  match goal with
  | |- context [request env ?c st] =>
      pose proof (request_identity env c st) as Hrequest;
      destruct (request env c st) as [[response|e] st1]
  end; [|exact Hrequest].
  eapply same_identity_trans; [exact Hrequest|].
  apply _follow_login_redirects_identity.
Qed.

(** C2, as the code has it. In a legacy redirect login whose form submission
    is answered by the server: an empty redirect history is a terminal
    authentication failure, the login raises the [ValueError] and the session
    is not logged in; with a redirect history whose last response carries the
    [_oauth2_proxy] cookie, the cookie is stored and the session is logged
    in; with a redirect history whose last response carries no such cookie,
    the login only logs a warning, stores nothing, and still ends with the
    session logged in. *)
Theorem legacy_login_outcome (env : Env) (verbose : bool) (st st1 : State)
    (login_path username password : string) (w : WireResponse) :
  logged_in (session st) = false ->
  _auth_service (session st) = Some AUTHENTICATION_DEX_OLD ->
  credentials (config (session st)) = UserPassword username password ->
  _get_initial_login_url env true (cleared st) = (Ok (Some login_path), st1) ->
  let st2 := ready_to_submit verbose (host (config (session st))) st1 in
  transport env (trace st2)
    (request_of (legacy_login_call login_path username password (session st2)) [] st2)
  = Responds w ->
  let '(result, st') := authenticate env verbose st in
  match last (w_history w) with
  | None =>
      result = Raise (ValueError AuthenticationFailed)
      /\ logged_in (session st') = false
  | Some previous_response =>
      result = Ok tt
      /\ logged_in (session st') = true
      /\ match hop_cookies previous_response !! PROXY_COOKIE_NAME with
         | Some proxy_cookie =>
             _cookies (session st') !! PROXY_COOKIE_NAME = Some (VStr proxy_cookie)
         | None =>
             _cookies (session st') = _cookies (session st1)
             /\ In (Logged WARNING (NoValidOauthCookie (w_status_code w))) (trace st')
         end
  end.
Proof.
  intros Hlogged Hservice Hcredentials Hurl st2 Hanswer.
  destruct (_get_initial_login_url_identity env true (cleared st)) as [Hconfig Hflag].
  rewrite Hurl in Hconfig, Hflag. simpl in Hconfig, Hflag.
  assert (Hcredentials2 :
            credentials (config (session st2)) = UserPassword username password).
  { unfold st2, ready_to_submit. destruct verbose; simpl;
      rewrite Hconfig; exact Hcredentials. }
  assert (Hflag2 : logged_in (session st2) = false).
  { unfold st2, ready_to_submit. destruct verbose; simpl;
      rewrite Hflag; exact Hlogged. }
  assert (Hcookies2 : _cookies (session st2) = _cookies (session st1)).
  { unfold st2, ready_to_submit. destruct verbose; reflexivity. }
  unfold authenticate. unfold bind at 1. unfold get_session at 1.
  rewrite Hlogged.
  rewrite (bind_ok _ _ _ _ _ (authentication_service_cached env st _ Hservice)).
  cbn [String.eqb Ascii.eqb Bool.eqb AUTHENTICATION_DEX_OLD].
  unfold bind at 1. unfold ret at 1.
  unfold bind at 1. unfold modify_session at 1. fold (cleared st).
  unfold bind at 1. unfold try_except. rewrite Hurl.
  assert (Hready :
            forall k : unit -> M unit,
              bind (modify_session (set_headers ∅))
                (fun _ =>
                   bind (headers_update "Content-Type"
                           "application/x-www-form-urlencoded")
                     (fun _ =>
                        bind (when verbose
                                (log INFO (Authenticating (host (config (session st))))))
                          k)) st1
              = k tt st2).
  { intros k. unfold st2, ready_to_submit. destruct verbose; reflexivity. }
  rewrite Hready.
  unfold bind at 1. unfold get_session at 1.
  unfold bind at 1. unfold config_username at 1.
  unfold bind at 1. unfold get_session at 1. rewrite Hcredentials2.
  unfold ret at 1.
  unfold bind at 1. unfold config_password at 1.
  unfold bind at 1. unfold get_session at 1. rewrite Hcredentials2.
  unfold ret at 1.
  unfold bind at 1. unfold post, request. cbn [read_body c_body].
  fold (legacy_login_call login_path username password (session st2)).
  rewrite Hanswer.
  unfold _handle_legacy_dex_response.
  destruct (last (w_history w)) as [previous_response|].
  - destruct (hop_cookies previous_response !! PROXY_COOKIE_NAME) as [proxy_cookie|];
      destruct verbose; cbn; (split; [reflexivity|]); (split; [reflexivity|]).
    + apply lookup_insert_eq.
    + apply lookup_insert_eq.
    + split; [exact Hcookies2|]. rewrite !in_app_iff. simpl. tauto.
    + split; [exact Hcookies2|]. rewrite !in_app_iff. simpl. tauto.
  - cbn. split; [reflexivity | exact Hflag2].
Qed.

Lemma legacy_login_outcome_witness :
  let '(result, st') :=
    authenticate (Sample.environment Sample.legacy_server_without_cookie) true
      (Sample.start (Sample.new_session (Some AUTHENTICATION_DEX_OLD))) in
  result = Ok tt /\ logged_in (session st') = true.
Proof.
  pose proof (legacy_login_outcome
                (Sample.environment Sample.legacy_server_without_cookie) true
                (Sample.start (Sample.new_session (Some AUTHENTICATION_DEX_OLD)))
                (_get_initial_login_url
                   (Sample.environment Sample.legacy_server_without_cookie) true
                   (cleared (Sample.start
                               (Sample.new_session (Some AUTHENTICATION_DEX_OLD))))).2
                "https://geti.example/" "alice" "secret"
                Sample.login_answer_without_cookie
                eq_refl eq_refl eq_refl eq_refl eq_refl) as H.
  destruct (authenticate _ _ _) as [result st'].
  destruct H as (Hresult & Hflag & _). split; assumption.
Defined.

(** C2 as stated fails: a form submission that comes back through a redirect
    without the [_oauth2_proxy] cookie does not make the login raise;
    [authenticate] logs the warning, then logs that the authentication was
    successful, and leaves the session logged in. *)
Lemma legacy_login_without_proxy_cookie :
  ~ (forall (env : Env) (verbose : bool) (st st1 : State)
            (login_path username password : string) (w : WireResponse),
        logged_in (session st) = false ->
        _auth_service (session st) = Some AUTHENTICATION_DEX_OLD ->
        credentials (config (session st)) = UserPassword username password ->
        _get_initial_login_url env true (cleared st) = (Ok (Some login_path), st1) ->
        let st2 := ready_to_submit verbose (host (config (session st))) st1 in
        transport env (trace st2)
          (request_of (legacy_login_call login_path username password (session st2))
             [] st2)
        = Responds w ->
        Forall (fun hop => hop_cookies hop !! PROXY_COOKIE_NAME = None) (w_history w) ->
        let '(result, st') := authenticate env verbose st in
        (exists e, result = Raise e) /\ logged_in (session st') = false).
Proof.
  intros claim.
  specialize (claim
    (Sample.environment Sample.legacy_server_without_cookie) true
    (Sample.start (Sample.new_session (Some AUTHENTICATION_DEX_OLD)))
    (_get_initial_login_url
       (Sample.environment Sample.legacy_server_without_cookie) true
       (cleared (Sample.start (Sample.new_session (Some AUTHENTICATION_DEX_OLD))))).2
    "https://geti.example/" "alice" "secret" Sample.login_answer_without_cookie
    eq_refl eq_refl eq_refl eq_refl eq_refl).
  assert (Hhistory : Forall (fun hop => hop_cookies hop !! PROXY_COOKIE_NAME = None)
                       (w_history Sample.login_answer_without_cookie)).
  { repeat constructor. }
  specialize (claim Hhistory).
  destruct (authenticate _ _ _) as [result st'] eqn:Hrun.
  vm_compute in Hrun. injection Hrun as <- <-.
  destruct claim as [_ claim]. vm_compute in claim. discriminate.
Qed.

Example legacy_login_without_proxy_cookie_run :
  let '(result, st') :=
    authenticate (Sample.environment Sample.legacy_server_without_cookie) true
      (Sample.start (Sample.new_session (Some AUTHENTICATION_DEX_OLD))) in
  result = Ok tt
  /\ logged_in (session st') = true
  /\ _cookies (session st') !! PROXY_COOKIE_NAME = Some VNone
  /\ Sample.dispatched st'
     = [("GET", "https://geti.example", false);
        ("POST", "https://geti.example/", false)]
  /\ last (trace st') = Some (Logged INFO AuthenticationSuccessful).
Proof. vm_compute. repeat apply conj; reflexivity. Qed.

(** ** The CSRF header *)

(** C5, the code at a failing input. A token session sends a GET that the
    server rejects with 401; the token is refreshed with a POST, which puts
    the CSRF header into the session headers; the GET is then sent again and
    goes out with the CSRF header. *)
Theorem retried_get_carries_csrf_header :
  let '(result, st') :=
    get_rest_response (Sample.environment Sample.expired_then_fine)
      "projects" "GET" "json" DNone true true false
      (Sample.start (Sample.token_session "1.8.0")) in
  result = Ok (Decoded (VDict []))
  /\ Sample.dispatched st'
     = [("GET", "https://geti.example/api/v1/projects", false);
        ("POST", "https://geti.example/api/v1/service_accounts/access_token", true);
        ("GET", "https://geti.example/api/v1/projects", true)].
Proof. vm_compute. repeat apply conj; reflexivity. Qed.

(** The same defect in a credential session: the login that follows the 401
    clears the session headers, and the POST is sent again without the CSRF
    header. *)
Example retried_post_lacks_csrf_header :
  let '(result, st') :=
    get_rest_response (Sample.environment Sample.expired_then_login)
      "projects" "POST" "json" (DValue (VDict [])) true true false
      (Sample.start (Sample.credential_session "1.8.0")) in
  result = Ok (Decoded (VDict []))
  /\ Sample.dispatched st'
     = [("POST", "https://geti.example/api/v1/projects", true);
        ("GET", "https://geti.example", true);
        ("POST", "https://geti.example/", false);
        ("POST", "https://geti.example/api/v1/projects", false)].
Proof. vm_compute. repeat apply conj; reflexivity. Qed.

(** ** Unsupported content kinds *)

Lemma in_str_cons_false (x y : string) (l : list string) :
  in_str x (y :: l) = false -> String.eqb x y = false /\ in_str x l = false.
Proof. unfold in_str. simpl. apply orb_false_elim. Qed.

(** C9, as the code has it. A POST or a PUT whose content kind is none of
    json, multipart, jpeg and zip raises the [ValueError] of the dispatcher,
    and nothing is sent; this is on a session whose version and organization
    id are resolved, as the constructor leaves them. *)
Theorem unsupported_content_type_of_post_or_put (env : Env) (st : State)
    (url method contenttype : string) (data : Data)
    (allow_reauthentication include_organization_id allow_text_response : bool)
    (v : Version) :
  String.eqb method "POST" || String.eqb method "PUT" = true ->
  in_str contenttype ["json"; "multipart"; "jpeg"; "zip"] = false ->
  is_None (_organization_id (session st)) = false ->
  version_of env (session st) = Ok v ->
  let '(result, st') :=
    get_rest_response env url method contenttype data
      allow_reauthentication include_organization_id allow_text_response st in
  result = Raise (ValueError (UnsupportedContentType contenttype))
  /\ trace st' = trace st.
Proof.
  intros Hmethod Hkind Horg Hversion.
  apply in_str_cons_false in Hkind as [Hjson Hkind].
  apply in_str_cons_false in Hkind as [Hmultipart Hkind].
  apply in_str_cons_false in Hkind as [Hjpeg Hkind].
  apply in_str_cons_false in Hkind as [Hzip _].
  unfold get_rest_response, get_rest_response_with, _update_headers_for_content_type,
    organization_id, base_url_with, version, headers_update, headers_pop.
  unfold bind, get_session, modify_session, ret, raise, lift.
  rewrite Hjson, Hmultipart, Hjpeg, Hzip, Hmethod. simpl.
  assert (Hv : forall h, version_of env (set_headers h (session st)) = Ok v)
    by (intros h; exact Hversion).
  destruct (String.eqb contenttype ""); simpl;
    destruct include_organization_id; simpl; rewrite ?Horg; simpl;
    try (split; reflexivity);
    destruct (String.prefix _ _); simpl; try (split; reflexivity);
    rewrite ?Hv, ?Hversion; simpl;
    destruct (version_le v (GETI_18_VERSION env)); simpl;
    rewrite ?Horg; simpl; split; reflexivity.
Qed.

Lemma unsupported_content_type_of_post_or_put_witness :
  let '(result, st') :=
    get_rest_response (Sample.environment Sample.always_fine)
      "projects" "POST" "xml" DNone true true false
      (Sample.start (Sample.credential_session "1.8.0")) in
  result = Raise (ValueError (UnsupportedContentType "xml"))
  /\ trace st' = trace (Sample.start (Sample.credential_session "1.8.0")).
Proof.
  exact (unsupported_content_type_of_post_or_put
           (Sample.environment Sample.always_fine)
           (Sample.start (Sample.credential_session "1.8.0"))
           "projects" "POST" "xml" DNone true true false (1, 8, 0)%nat
           eq_refl eq_refl eq_refl eq_refl).
Defined.

(** C9 as stated fails: a DELETE with an unsupported content kind is not
    refused; it is sent, and its answer is returned. *)
Lemma unsupported_content_type_of_delete_is_sent :
  ~ (forall (env : Env) (st : State) (url method contenttype : string) (data : Data)
            (allow_reauthentication include_organization_id allow_text_response : bool)
            (v : Version),
        is_mutating method = true ->
        in_str contenttype ["json"; "multipart"; "jpeg"; "zip"] = false ->
        is_None (_organization_id (session st)) = false ->
        version_of env (session st) = Ok v ->
        let '(result, st') :=
          get_rest_response env url method contenttype data
            allow_reauthentication include_organization_id allow_text_response st in
        result = Raise (ValueError (UnsupportedContentType contenttype))
        /\ sent (trace st') = sent (trace st)).
Proof.
  intros claim.
  specialize (claim (Sample.environment Sample.always_fine)
                (Sample.start (Sample.credential_session "1.8.0"))
                "projects/1" "DELETE" "xml" DNone true true false (1, 8, 0)%nat
                eq_refl eq_refl eq_refl eq_refl).
  vm_compute in claim. destruct claim as [claim _]. discriminate.
Qed.

(** ** The API prefix of the URL argument *)

Lemma prefix_append (p rest : string) : String.prefix p (p +:+ rest) = true.
Proof.
  induction p as [|c p IH]; simpl.
  - destruct rest; reflexivity.
  - rewrite IH. destruct (Ascii.ascii_dec c c); congruence.
Qed.

Lemma str_drop_append (p rest : string) : str_drop (String.length p) (p +:+ rest) = rest.
Proof. induction p as [|c p IH]; simpl; [reflexivity | exact IH]. Qed.

Lemma strip_api_pattern_prefixed (c : Config) (rest : string) :
  strip_api_pattern c (api_pattern c +:+ rest) = rest.
Proof.
  unfold strip_api_pattern, slice_from.
  rewrite prefix_append. apply str_drop_append.
Qed.

(** C10, as the code has it. The API prefix is stripped once: a URL that is
    the prefix followed by [rest] is handled exactly as [rest] is, provided
    [rest] does not begin with the prefix again (or the prefix is empty). *)
Theorem api_prefix_is_stripped (env : Env) (st : State) (rest method contenttype : string)
    (data : Data)
    (allow_reauthentication include_organization_id allow_text_response : bool) :
  api_pattern (config (session st)) = ""
  \/ String.prefix (api_pattern (config (session st))) rest = false ->
  get_rest_response env (api_pattern (config (session st)) +:+ rest)
    method contenttype data
    allow_reauthentication include_organization_id allow_text_response st
  = get_rest_response env rest method contenttype data
      allow_reauthentication include_organization_id allow_text_response st.
Proof.
  intros [Hempty|Hrest]; [rewrite Hempty; reflexivity|].
  unfold get_rest_response, get_rest_response_with.
  unfold bind at 1. unfold get_session at 1.
  symmetry. unfold bind at 1. unfold get_session at 1. symmetry.
  rewrite strip_api_pattern_prefixed.
  assert (Hstrip : strip_api_pattern (config (session st)) rest = rest)
    by (unfold strip_api_pattern; rewrite Hrest; reflexivity).
  rewrite Hstrip. reflexivity.
Qed.

Lemma api_prefix_is_stripped_witness :
  get_rest_response (Sample.environment Sample.always_fine)
    ("/api/v1/" +:+ "projects") "GET" "json" DNone true true false
    (Sample.start (Sample.credential_session "1.8.0"))
  = get_rest_response (Sample.environment Sample.always_fine)
      "projects" "GET" "json" DNone true true false
      (Sample.start (Sample.credential_session "1.8.0")).
Proof.
  exact (api_prefix_is_stripped (Sample.environment Sample.always_fine)
           (Sample.start (Sample.credential_session "1.8.0"))
           "projects" "GET" "json" DNone true true false (or_intror eq_refl)).
Defined.

(** C10 as stated fails: when what follows the prefix begins with the prefix
    again, the two calls ask for different URLs. *)
Lemma api_prefix_is_stripped_only_once :
  ~ (forall (env : Env) (st : State) (rest method contenttype : string) (data : Data)
            (allow_reauthentication include_organization_id allow_text_response : bool),
        get_rest_response env (api_pattern (config (session st)) +:+ rest)
          method contenttype data
          allow_reauthentication include_organization_id allow_text_response st
        = get_rest_response env rest method contenttype data
            allow_reauthentication include_organization_id allow_text_response st).
Proof.
  intros claim.
  specialize (claim (Sample.environment Sample.always_fine)
                (Sample.start (Sample.credential_session "1.8.0"))
                "/api/v1/projects" "GET" "json" DNone true true false).
  apply (f_equal (fun x => Sample.dispatched x.2)) in claim.
  vm_compute in claim. discriminate.
Qed.

(** ** What every step of the session preserves *)

Lemma extends_same_trace (st st' : State) : trace st' = trace st -> extends st st'.
Proof. intros H. exists []. rewrite H. symmetry. apply app_nil_r. Qed.

Lemma extends_trans (a b c : State) : extends a b -> extends b c -> extends a c.
Proof.
  intros [e1 H1] [e2 H2]. exists (e1 ++ e2).
  rewrite H2, H1. symmetry. apply app_assoc.
Qed.

Lemma extends_sent (st st' : State) :
  extends st st' -> exists more, sent (trace st') = sent (trace st) ++ more.
Proof. intros [events H]. exists (sent events). rewrite H. apply sent_app. Qed.

#[export] Instance extends_stable : Stable extends.
Proof.
  split.
  - intros st. apply extends_same_trace. reflexivity.
  - apply extends_trans.
  - intros st s. apply extends_same_trace. reflexivity.
  - intros st e. exists [e]. reflexivity.
  - intros st h _. apply extends_same_trace. reflexivity.
Qed.

#[export] Instance same_contents_stable : Stable same_contents.
Proof.
  split.
  - intros st ref. reflexivity.
  - intros a b c Hab Hbc ref. rewrite Hbc. apply Hab.
  - intros st s ref. reflexivity.
  - intros st e ref. reflexivity.
  - intros st h H ref. apply H.
Qed.

Lemma read_parts_contents (parts : list (string * Part)) (h : gmap nat Buffer)
    (ref : nat) :
  contents <$> (read_parts parts h).2 !! ref = contents <$> h !! ref.
Proof.
  revert h. induction parts as [|[name part] parts IH]; intros h; [reflexivity|].
  destruct part as [r|bytes]; simpl.
  - destruct (h !! r) as [buf|] eqn:Hbuf.
    + specialize (IH (<[r := {| contents := contents buf;
                               position := Nat.max (position buf)
                                             (length (contents buf)) |}]> h)).
      destruct (read_parts parts _) as [sent' h']. simpl in *. rewrite IH.
      destruct (decide (r = ref)) as [->|Hne].
      * rewrite lookup_insert_eq, Hbuf. reflexivity.
      * rewrite lookup_insert_ne by assumption. reflexivity.
    + specialize (IH h). destruct (read_parts parts h). exact IH.
  - specialize (IH h). destruct (read_parts parts h). exact IH.
Qed.

Lemma read_body_contents (c : Call) (h : gmap nat Buffer) (ref : nat) :
  contents <$> (read_body c h).2 !! ref = contents <$> h !! ref.
Proof.
  unfold read_body. destruct (c_body c) as [[[] []]|]; try reflexivity.
  apply read_parts_contents.
Qed.

Section Primitives.

Context (R : State -> State -> Prop) `{!Stable R} {A B : Type}.

Lemma preserves_ret (a : A) : preserves R (ret a).
Proof. intros st. apply stable_refl. Qed.

Lemma preserves_raise (e : Exc) : preserves R (@raise A e).
Proof. intros st. apply stable_refl. Qed.

Lemma preserves_lift (r : Result A) : preserves R (lift r).
Proof. intros st. apply stable_refl. Qed.

Lemma preserves_bind (m : M A) (k : A -> M B) :
  preserves R m -> (forall a, preserves R (k a)) -> preserves R (bind m k).
Proof.
  intros Hm Hk st. unfold bind. specialize (Hm st).
  destruct (m st) as [[a|e] st1]; simpl in *; [|exact Hm].
  eapply stable_trans; [exact Hm | apply Hk].
Qed.

Lemma preserves_try_except (m : M A) (h : Exc -> option (M A)) :
  preserves R m -> (forall e handler, h e = Some handler -> preserves R handler) ->
  preserves R (try_except m h).
Proof.
  intros Hm Hh st. unfold try_except. specialize (Hm st).
  destruct (m st) as [[a|e] st1]; simpl in *; [exact Hm|].
  destruct (h e) as [handler|] eqn:He; [|exact Hm].
  eapply stable_trans; [exact Hm | eapply Hh, He].
Qed.

Lemma preserves_get_session : preserves R get_session.
Proof. intros st. apply stable_refl. Qed.

Lemma preserves_modify_session (f : Session -> Session) :
  preserves R (modify_session f).
Proof. intros st. apply (stable_session st). Qed.

Lemma preserves_emit (e : Event) : preserves R (emit e).
Proof. intros st. apply (stable_event st). Qed.

Lemma preserves_request (env : Env) (c : Call) : preserves R (request env c).
Proof.
  intros st. unfold request.
  pose proof (read_body_contents c (heap st)) as Hbody.
  destruct (read_body c (heap st)) as [parts heap']. simpl in Hbody.
  set (st1 := {| session := session st; heap := heap'; trace := trace st |}).
  set (st2 := {| session := session st1; heap := heap st1;
                 trace := trace st1 ++ [Sent (request_of c parts st)] |}).
  assert (Hst2 : R st st2).
  { apply (stable_trans st st1 st2);
      [apply (stable_positions st heap' Hbody) | apply (stable_event st1)]. }
  destruct (transport env (trace st) _) as [w|e]; simpl; [|exact Hst2].
  apply (stable_trans st st2); [exact Hst2|].
  apply (stable_session st2).
Qed.

Lemma preserves_close (env : Env) : preserves R (close env).
Proof.
  intros st. unfold close.
  destruct (closing env (trace st)); simpl; apply (stable_event st).
Qed.

Lemma preserves_seek_start (ref : nat) : preserves R (seek_start ref).
Proof.
  intros st. unfold seek_start. simpl. apply (stable_positions st).
  intros r. rewrite lookup_alter. destruct (decide (ref = r)) as [->|];
    [destruct (heap st !! r)|]; reflexivity.
Qed.

End Primitives.

Lemma preserves_when (R : State -> State -> Prop) `{!Stable R} (b : bool) (m : M unit) :
  preserves R m -> preserves R (when b m).
Proof. intros H. destruct b; [exact H | apply preserves_ret; assumption]. Qed.

Create HintDb preserves.

(** One step of a proof that a computation of the source preserves a stable
    relation: the goal is taken apart along the structure of the
    computation. *)
Ltac stable_instance := first [assumption | typeclasses eauto].

Ltac preserves_step :=
  match goal with
  | |- preserves _ (bind _ _) => apply preserves_bind; [stable_instance| |intros ?]
  | |- preserves _ (ret _) => apply preserves_ret; stable_instance
  | |- preserves _ (raise _) => apply preserves_raise; stable_instance
  | |- preserves _ (lift _) => apply preserves_lift; stable_instance
  | |- preserves _ get_session => apply preserves_get_session; stable_instance
  | |- preserves _ (modify_session _) => apply preserves_modify_session; stable_instance
  | |- preserves _ (emit _) => apply preserves_emit; stable_instance
  | |- preserves _ (log _ _) => apply preserves_emit; stable_instance
  | |- preserves _ (when _ _) => apply preserves_when; [stable_instance|]
  | |- preserves _ (headers_update _ _) => apply preserves_modify_session; stable_instance
  | |- preserves _ (headers_pop _) => apply preserves_modify_session; stable_instance
  | |- preserves _ (request _ _) => apply preserves_request; stable_instance
  | |- preserves _ (close _) => apply preserves_close; stable_instance
  | |- preserves _ (seek_start _) => apply preserves_seek_start; stable_instance
  | |- preserves _ (try_except _ _) =>
      apply preserves_try_except; [stable_instance| |intros ? ? ?]
  | H : preserves ?R ?m |- preserves ?R ?m => exact H
  | H : forall x, preserves ?R (?m x) |- preserves ?R (?m _) => apply H
  | H : Some _ = Some ?h |- preserves _ ?h => injection H as <-
  | H : None = Some ?h |- preserves _ ?h => discriminate H
  | H : context [match ?x with _ => _ end] |- preserves _ _ => destruct x; simpl in H
  | |- preserves _ (if ?b then _ else _) => destruct b
  | |- preserves _ (match ?x with _ => _ end) => destruct x
  end.

Ltac preserves_auto := repeat preserves_step; eauto with preserves.

Section Preserved.

Context (R : State -> State -> Prop) (stable : Stable R).

Lemma preserves_config_username : preserves R config_username.
Proof. unfold config_username. preserves_auto. Qed.
Lemma preserves_config_password : preserves R config_password.
Proof. unfold config_password. preserves_auto. Qed.
Lemma preserves_config_token : preserves R config_token.
Proof. unfold config_token. preserves_auto. Qed.
Lemma preserves_get (env : Env) url allow : preserves R (get env url allow).
Proof. apply preserves_request, stable. Qed.
Lemma preserves_post (env : Env) url data cookies headers allow :
  preserves R (post env url data cookies headers allow).
Proof. unfold post. preserves_auto. Qed.
#[local] Hint Resolve preserves_config_username preserves_config_password
  preserves_config_token preserves_get preserves_post : preserves.

Lemma preserves_authentication_service (env : Env) : preserves R (authentication_service env).
Proof. unfold authentication_service. preserves_auto. Qed.
#[local] Hint Resolve preserves_authentication_service : preserves.

Lemma preserves__follow_login_redirects (env : Env) depth response legacy :
  preserves R (_follow_login_redirects env depth response legacy).
Proof.
  revert response. induction depth as [|depth IH]; intros response; simpl.
  - apply preserves_raise, stable.
  - unfold next_url. preserves_auto.
Qed.
#[local] Hint Resolve preserves__follow_login_redirects : preserves.

Lemma preserves__get_initial_login_url (env : Env) legacy :
  preserves R (_get_initial_login_url env legacy).
Proof. unfold _get_initial_login_url. preserves_auto. Qed.

Lemma preserves__handle_legacy_dex_response (response : WireResponse) :
  preserves R (_handle_legacy_dex_response response).
Proof. unfold _handle_legacy_dex_response. preserves_auto. Qed.

Lemma preserves__handle_dex_response (env : Env) (response : WireResponse) :
  preserves R (_handle_dex_response env response).
Proof. unfold _handle_dex_response. preserves_auto. Qed.
#[local] Hint Resolve preserves__get_initial_login_url
  preserves__handle_legacy_dex_response preserves__handle_dex_response : preserves.

Lemma preserves_authenticate (env : Env) verbose : preserves R (authenticate env verbose).
Proof. unfold authenticate. preserves_auto. Qed.
#[local] Hint Resolve preserves_authenticate : preserves.

Section PreservedByDispatcher.

Variable env : Env.
Variables acquire organization : M Value.
Hypothesis preserves_acquire : preserves R acquire.
Hypothesis preserves_organization : preserves R organization.

Lemma preserves__update_headers_for_content_type content_type :
  preserves R (_update_headers_for_content_type content_type).
Proof. unfold _update_headers_for_content_type. preserves_auto. Qed.

Lemma preserves_rewind parts : preserves R (rewind parts).
Proof.
  induction parts as [|[name part] parts IH]; simpl; [apply preserves_ret, stable|].
  preserves_auto.
Qed.

Lemma preserves_rewind_files request_params : preserves R (rewind_files request_params).
Proof. unfold rewind_files. preserves_auto; apply preserves_rewind. Qed.

Lemma preserves_prepare_retry request_params content_type :
  preserves R (prepare_retry request_params content_type).
Proof.
  unfold prepare_retry. preserves_auto.
  - apply preserves__update_headers_for_content_type.
  - apply preserves_rewind_files.
Qed.

Lemma preserves_report_failure failed request_params request_data :
  preserves R (report_failure failed request_params request_data).
Proof. unfold report_failure. preserves_auto. Qed.

Lemma preserves_reauthenticate : preserves R (reauthenticate env acquire).
Proof. unfold reauthenticate. preserves_auto. Qed.

Lemma preserves_decide_retry response allow :
  preserves R (decide_retry env acquire response allow).
Proof. unfold decide_retry. preserves_auto; apply preserves_reauthenticate. Qed.

Lemma preserves__handle_error_response_with response request_params request_data
    allow content_type :
  preserves R (_handle_error_response_with env acquire response request_params
              request_data allow content_type).
Proof.
  unfold _handle_error_response_with, decide_retry, retry. preserves_auto;
    first [ apply preserves_reauthenticate | apply preserves_prepare_retry
          | apply preserves_report_failure ].
Qed.

Lemma preserves_version : preserves R (version env).
Proof. unfold version. preserves_auto. Qed.

Lemma preserves_base_url_with : preserves R (base_url_with env organization).
Proof. unfold base_url_with. preserves_auto. apply preserves_version. Qed.

Lemma preserves_get_rest_response_with url method contenttype data allow include text :
  preserves R (get_rest_response_with env acquire organization url method contenttype
              data allow include text).
Proof.
  unfold get_rest_response_with. preserves_auto;
    first [ apply preserves__update_headers_for_content_type
          | apply preserves_base_url_with
          | apply preserves__handle_error_response_with ].
Qed.

End PreservedByDispatcher.

Lemma preserves_not_called : preserves R not_called.
Proof. apply preserves_raise, stable. Qed.

Lemma preserves__acquire_access_token (env : Env) : preserves R (_acquire_access_token env).
Proof.
  unfold _acquire_access_token. preserves_auto.
  apply preserves_get_rest_response_with; apply preserves_not_called.
Qed.

Lemma preserves__get_organization_id (env : Env) : preserves R (_get_organization_id env).
Proof.
  unfold _get_organization_id. preserves_auto.
  - apply preserves_version.
  - apply preserves_get_rest_response_with;
      [apply preserves__acquire_access_token | apply preserves_not_called].
Qed.

Lemma preserves_organization_id (env : Env) : preserves R (organization_id env).
Proof. unfold organization_id. preserves_auto. apply preserves__get_organization_id. Qed.

Lemma preserves__handle_error_response (env : Env) response request_params request_data
    allow content_type :
  preserves R (_handle_error_response env response request_params request_data
              allow content_type).
Proof.
  apply preserves__handle_error_response_with, preserves__acquire_access_token.
Qed.

Lemma preserves_get_rest_response (env : Env) url method contenttype data allow include text :
  preserves R (get_rest_response env url method contenttype data allow include text).
Proof.
  apply preserves_get_rest_response_with;
    [apply preserves__acquire_access_token | apply preserves_organization_id].
Qed.

End Preserved.

(** ** Closing the recursion of the dispatcher *)

(** Without the organization in the URL the property [organization_id] is
    not read. *)
Lemma get_rest_response_with_no_organization (env : Env) (acquire org org' : M Value)
    url method contenttype data allow text :
  get_rest_response_with env acquire org url method contenttype data allow false text
  = get_rest_response_with env acquire org' url method contenttype data allow false text.
Proof. reflexivity. Qed.

(** When re-authentication is not allowed the token is not refreshed. *)
Lemma _handle_error_response_with_no_reauthentication (env : Env) (acquire acquire' : M Value)
    response request_params request_data content_type (st : State) :
  _handle_error_response_with env acquire response request_params request_data
    false content_type st
  = _handle_error_response_with env acquire' response request_params request_data
      false content_type st.
Proof.
  unfold _handle_error_response_with, decide_retry. rewrite andb_false_r.
  reflexivity.
Qed.

Lemma get_rest_response_with_plain (env : Env) (acquire acquire' org org' : M Value)
    url method contenttype data text (st : State) :
  get_rest_response_with env acquire org url method contenttype data false false text st
  = get_rest_response_with env acquire' org' url method contenttype data false false text st.
Proof.
  rewrite (get_rest_response_with_no_organization env acquire org org').
  unfold get_rest_response_with.
  repeat (apply bind_ext; intros).
  destruct (_ || _); [|reflexivity].
  destruct (negb _); [|reflexivity].
  unfold bind.
  rewrite (_handle_error_response_with_no_reauthentication env acquire acquire').
  reflexivity.
Qed.

(** The token request of [_acquire_access_token] and the profile request of
    [_get_organization_id] are calls of [get_rest_response]. *)
Lemma token_request_is_get_rest_response (env : Env) url method contenttype data text st :
  get_rest_response_with env not_called not_called url method contenttype data
    false false text st
  = get_rest_response env url method contenttype data false false text st.
Proof. apply get_rest_response_with_plain. Qed.

Lemma profile_request_is_get_rest_response (env : Env) url method contenttype data
    allow text :
  get_rest_response_with env (_acquire_access_token env) not_called url method
    contenttype data allow false text
  = get_rest_response env url method contenttype data allow false text.
Proof. reflexivity. Qed.

(** ** Organization id resolution *)

Lemma _update_headers_for_content_type_result (content_type : string) (st : State) :
  exists h, _update_headers_for_content_type content_type st = (Ok tt, with_headers h st).
Proof.
  unfold _update_headers_for_content_type, headers_update, headers_pop, modify_session.
  repeat match goal with
         | |- context [if ?b then _ else _] => destruct b
         end; try (eexists; reflexivity).
  exists (headers (session st)). destruct st as [[] ? ?]; reflexivity.
Qed.

Lemma csrf_header_step (method : string) (st : State) :
  exists h,
    (if in_str method csrf_header_methods
     then headers_update "x-geti-csrf-protection" "1"
     else headers_pop "x-geti-csrf-protection") st
    = (Ok tt, with_headers h st).
Proof. destruct (in_str _ _); eexists; reflexivity. Qed.

(** A dispatch followed by anything that only adds to the trace: the request
    is the first thing added. *)
Lemma dispatch_comes_first {B} (env : Env) (request_params : Call)
    (h : Exc -> option (M Response)) (k : Response -> M B) (st : State) :
  (forall e handler, h e = Some handler -> monotone handler) ->
  (forall r, monotone (k r)) ->
  exists more,
    trace (bind (try_except
                   (bind (request env request_params) (fun w => ret (Wire w))) h)
                k st).2
    = trace st
      ++ Sent (request_of request_params (read_body request_params (heap st)).1 st)
      :: more.
Proof.
  intros Hh Hk.
  assert (Hlater : forall (m : M B) st1,
             monotone m ->
             trace st1 = trace st
               ++ [Sent (request_of request_params
                           (read_body request_params (heap st)).1 st)] ->
             exists more,
               trace (m st1).2
               = trace st
                 ++ Sent (request_of request_params
                            (read_body request_params (heap st)).1 st) :: more).
  { intros m st1 Hm Hst1. destruct (Hm st1) as [events He].
    exists events. rewrite He, Hst1, <- app_assoc. reflexivity. }
  unfold bind at 1. unfold try_except. unfold bind at 1. unfold request.
  destruct (read_body request_params (heap st)) as [parts heap'] eqn:Hbody. simpl.
  destruct (transport env (trace st) _) as [w|e]; simpl.
  - apply Hlater; [apply Hk | reflexivity].
  - destruct (h e) as [handler|] eqn:He.
    + apply (Hlater (bind handler k));
        [apply preserves_bind; [exact _ | eapply Hh, He | apply Hk] | reflexivity].
    + simpl. exists []. reflexivity.
Qed.

(** A request that leaves the organization out and carries no body starts by
    sending the request for the plain base URL. *)
Lemma get_rest_response_sends_first (env : Env) (url method contenttype : string)
    (data : Data) (allow text : bool) (st : State) :
  String.eqb method "POST" || String.eqb method "PUT" = false ->
  exists rq more,
    sent (trace (get_rest_response env url method contenttype data allow false text st).2)
    = sent (trace st) ++ rq :: more
    /\ c_method (rq_call rq) = method
    /\ c_url (rq_call rq)
       = cfg_base_url (config (session st))
         +:+ strip_api_pattern (config (session st)) url.
Proof.
  intros Hbody.
  unfold get_rest_response, get_rest_response_with.
  unfold bind at 1. unfold get_session at 1.
  destruct (_update_headers_for_content_type_result contenttype st) as [h1 H1].
  rewrite (bind_ok _ _ _ _ _ H1).
  simpl negb. cbv iota.
  unfold bind at 1. unfold ret at 1.
  unfold bind at 1. unfold ret at 1.
  rewrite Hbody.
  unfold bind at 1. unfold ret at 1.
  unfold bind at 1. unfold get_session at 1.
  destruct (csrf_header_step method (with_headers h1 st)) as [h2 H2].
  rewrite (bind_ok _ _ _ _ _ H2).
  match goal with
  | |- context [bind (try_except (bind (request env ?rp) _) ?h) ?k] =>
      destruct (dispatch_comes_first env rp h k (with_headers h2 (with_headers h1 st)))
        as [more Hmore]
  end.
  - intros e handler He.
    destruct e; try discriminate He;
      try (injection He as <-; apply preserves_raise; exact _).
    destruct args as [|first rest];
      [injection He as <-; apply preserves_raise; exact _|].
    destruct (value_eq_str first _); injection He as <-;
      [apply preserves_ret | apply preserves_raise]; exact _.
  - intros r. preserves_auto;
      (apply preserves__handle_error_response_with;
       [exact _ | apply preserves__acquire_access_token; exact _]).
  - rewrite Hmore. simpl trace. rewrite sent_app. simpl sent.
    eexists. eexists. split; [reflexivity|]. split; reflexivity.
Qed.

(** The first attempt of a request is sent with the CSRF header exactly when
    its method is one of POST, PUT, DELETE and PATCH. *)
Lemma first_attempt_csrf_header (env : Env) (url method contenttype : string)
    (data : Data) (allow text : bool) (st : State) :
  (String.eqb method "POST" || String.eqb method "PUT" = true ->
   in_str contenttype ["json"; "multipart"; "jpeg"; "zip"] = true) ->
  exists rq more,
    sent (trace (get_rest_response env url method contenttype data allow false text st).2)
    = sent (trace st) ++ rq :: more
    /\ c_method (rq_call rq) = method
    /\ carries_csrf_header rq = is_mutating method.
Proof.
  intros Hkind.
  unfold get_rest_response, get_rest_response_with.
  unfold bind at 1. unfold get_session at 1.
  destruct (_update_headers_for_content_type_result contenttype st) as [h1 H1].
  rewrite (bind_ok _ _ _ _ _ H1).
  simpl negb. cbv iota.
  unfold bind at 1. unfold ret at 1.
  unfold bind at 1. unfold ret at 1.
  assert (Hbody : exists body,
             (if String.eqb method "POST" || String.eqb method "PUT"
              then
                if String.eqb contenttype "json" then ret (Some (KwJson, data))
                else if String.eqb contenttype "multipart"
                     then ret (Some (KwFiles, data))
                     else if String.eqb contenttype "jpeg"
                             || String.eqb contenttype "zip"
                          then ret (Some (KwData, data))
                          else raise (ValueError (UnsupportedContentType contenttype))
              else ret None) = ret body).
  { destruct (String.eqb method "POST" || String.eqb method "PUT");
      [|eexists; reflexivity].
    specialize (Hkind eq_refl). unfold in_str in Hkind. simpl in Hkind.
    destruct (String.eqb contenttype "json"); [eexists; reflexivity|].
    destruct (String.eqb contenttype "multipart"); [eexists; reflexivity|].
    destruct (String.eqb contenttype "jpeg"); [eexists; reflexivity|].
    destruct (String.eqb contenttype "zip"); [eexists; reflexivity|].
    discriminate Hkind. }
  destruct Hbody as [body Hbody]. rewrite Hbody.
  unfold bind at 1. unfold ret at 1.
  unfold bind at 1. unfold get_session at 1.
  set (st1 := with_headers h1 st).
  set (h2 := if in_str method csrf_header_methods
             then <["x-geti-csrf-protection" := "1"]> (headers (session st1))
             else delete "x-geti-csrf-protection" (headers (session st1))).
  assert (H2 : (if in_str method csrf_header_methods
                then headers_update "x-geti-csrf-protection" "1"
                else headers_pop "x-geti-csrf-protection") st1
               = (Ok tt, with_headers h2 st1)).
  { unfold h2. destruct (in_str method csrf_header_methods); reflexivity. }
  rewrite (bind_ok _ _ _ _ _ H2).
  match goal with
  | |- context [bind (try_except (bind (request env ?rp) _) ?h) ?k] =>
      destruct (dispatch_comes_first env rp h k (with_headers h2 st1))
        as [more Hmore]
  end.
  - intros e handler He.
    destruct e; try discriminate He;
      try (injection He as <-; apply preserves_raise; exact _).
    destruct args as [|first rest];
      [injection He as <-; apply preserves_raise; exact _|].
    destruct (value_eq_str first _); injection He as <-;
      [apply preserves_ret | apply preserves_raise]; exact _.
  - intros r. preserves_auto;
      (apply preserves__handle_error_response_with;
       [exact _ | apply preserves__acquire_access_token; exact _]).
  - rewrite Hmore. simpl trace. rewrite sent_app. simpl sent.
    eexists. eexists. split; [reflexivity|]. split; [reflexivity|].
    unfold carries_csrf_header, effective_headers, request_of. simpl.
    unfold h2, is_mutating, csrf_header_methods.
    destruct (in_str method ["POST"; "PUT"; "DELETE"; "PATCH"]).
    + rewrite lookup_insert_eq. reflexivity.
    + rewrite lookup_delete_eq. reflexivity.
Qed.

Lemma version_resolved (env : Env) (st : State) (v : Version) :
  version_of env (session st) = Ok v -> version env st = (Ok v, st).
Proof.
  intros H. unfold version, bind, get_session, lift. rewrite H. reflexivity.
Qed.

(** C6. On a session whose version resolves: below the threshold
    [GETI_114_VERSION] the organization id is the constant
    000000000000000000000001 and the state, hence the trace, is untouched, so
    no request is issued; at or above the threshold the id comes from a GET
    of the profile endpoint through [get_rest_response], which starts by
    sending that request, and a profile without an [organizationId] (or with
    a null one) raises the [ValueError] instead of yielding a default. *)
Theorem organization_id_is_version_gated (env : Env) (st : State) (v : Version) :
  version_of env (session st) = Ok v ->
  (version_lt v (GETI_114_VERSION env) = true ->
     _get_organization_id env st = (Ok (VStr "000000000000000000000001"), st))
  /\ (version_lt v (GETI_114_VERSION env) = false ->
      let '(fetched, st') :=
        get_rest_response env "profile" "GET" "json" DNone true false false st in
      (exists rq more,
          sent (trace st') = sent (trace st) ++ rq :: more
          /\ c_method (rq_call rq) = "GET"
          /\ c_url (rq_call rq)
             = cfg_base_url (config (session st))
               +:+ strip_api_pattern (config (session st)) "profile")
      /\ exists outcome,
          _get_organization_id env st = (outcome, st')
          /\ match fetched with
             | Ok (Decoded (VDict members)) =>
                 match assoc "organizationId" members with
                 | None | Some VNone => outcome = Raise (ValueError NoOrganizationId)
                 | Some id => outcome = Ok id
                 end
             | Ok _ => outcome = Raise AttributeError
             | Raise e => outcome = Raise e
             end).
Proof.
  intros Hversion. split; intros Hlt.
  - unfold _get_organization_id.
    rewrite (bind_ok _ _ _ _ _ (version_resolved env st v Hversion)).
    rewrite Hlt. reflexivity.
  - pose proof (get_rest_response_sends_first env "profile" "GET" "json" DNone
                  true false st eq_refl) as Hfirst.
    unfold _get_organization_id.
    rewrite (bind_ok _ _ _ _ _ (version_resolved env st v Hversion)).
    rewrite Hlt. rewrite profile_request_is_get_rest_response.
    unfold bind at 1. unfold bind at 1.
    destruct (get_rest_response env "profile" "GET" "json" DNone true false false st)
      as [[result|e] st'].
    + split; [exact Hfirst|].
      destruct result as [document|raw].
      * destruct document as [| | | | |members];
          try (eexists; split; reflexivity).
        simpl. destruct (assoc "organizationId" members) as [id|];
          [destruct id|]; eexists; split; reflexivity.
      * eexists; split; reflexivity.
    + split; [exact Hfirst|]. eexists; split; reflexivity.
Qed.

Lemma organization_id_is_version_gated_witness :
  _get_organization_id (Sample.environment Sample.always_fine)
    (Sample.start (Sample.credential_session "1.8.0"))
  = (Ok (VStr "000000000000000000000001"),
     Sample.start (Sample.credential_session "1.8.0")).
Proof.
  exact (proj1 (organization_id_is_version_gated
                  (Sample.environment Sample.always_fine)
                  (Sample.start (Sample.credential_session "1.8.0"))
                  (1, 8, 0)%nat eq_refl) eq_refl).
Defined.

Example organization_id_missing_in_profile :
  fst (_get_organization_id (Sample.environment Sample.always_fine)
         (Sample.start (Sample.credential_session "2.0.0")))
  = Raise (ValueError NoOrganizationId).
Proof. vm_compute. reflexivity. Qed.

(** ** The error recovery controller *)

Arguments in_Z : simpl never.







(** ** Disposal *)







(** ** Rewinding the parts of a multipart body *)

Lemma rewind_result (parts : list (string * Part)) (st : State) :
  forallb is_file parts = true ->
  rewind parts st
  = (Ok tt, {| session := session st; heap := rewind_heap parts (heap st);
               trace := trace st |}).
Proof.
  revert st. induction parts as [|[name part] parts IH]; intros st Hfiles.
  - destruct st; reflexivity.
  - simpl in Hfiles. apply andb_prop in Hfiles as [Hfile Hrest].
    destruct part as [ref|bytes]; [|discriminate Hfile].
    simpl. unfold bind, seek_start. rewrite (IH _ Hrest). reflexivity.
Qed.

Lemma rewind_stops_at_bytes (parts : list (string * Part)) (st : State) :
  forallb is_file parts = false ->
  exists h, rewind parts st
            = (Raise AttributeError,
               {| session := session st; heap := h; trace := trace st |}).
Proof.
  revert st. induction parts as [|[name part] parts IH]; intros st Hfiles.
  - discriminate Hfiles.
  - destruct part as [ref|bytes].
    + simpl in Hfiles. simpl. unfold bind, seek_start.
      destruct (IH {| session := session st; heap := alter
                        (fun b => {| contents := contents b; position := 0 |})
                        ref (heap st); trace := trace st |} Hfiles) as [h Hh].
      rewrite Hh. exists h. reflexivity.
    + exists (heap st). destruct st; reflexivity.
Qed.

Lemma rewind_heap_cons (name : string) (part : Part)
    (parts : list (string * Part)) (h : gmap nat Buffer) :
  rewind_heap ((name, part) :: parts) h
  = rewind_heap parts (match part with
                       | FileObj ref => alter rewound ref h
                       | Blob _ => h
                       end).
Proof. reflexivity. Qed.

Lemma rewind_heap_lookup (parts : list (string * Part)) (h : gmap nat Buffer)
    (ref : nat) :
  rewind_heap parts h !! ref
  = if mentions parts ref then rewound <$> h !! ref else h !! ref.
Proof.
  revert h. induction parts as [|[name part] parts IH]; intros h; [reflexivity|].
  rewrite rewind_heap_cons, IH. destruct part as [r|bytes]; simpl.
  - rewrite lookup_alter. destruct (decide (r = ref)) as [->|Hne].
    + rewrite Nat.eqb_refl. simpl.
      destruct (mentions parts ref); destruct (h !! ref); reflexivity.
    + apply Nat.eqb_neq in Hne. rewrite Hne. reflexivity.
  - reflexivity.
Qed.

Lemma part_offsets_rewound (parts all : list (string * Part)) (h : gmap nat Buffer) :
  (forall ref, mentions parts ref = true -> mentions all ref = true) ->
  Forall (fun o => o.2 = 0%nat) (part_offsets parts (rewind_heap all h)).
Proof.
  induction parts as [|[name part] parts IH]; intros Hsub; [constructor|].
  assert (Hrest : forall ref, mentions parts ref = true -> mentions all ref = true).
  { intros ref H. apply Hsub. simpl. rewrite H. apply orb_true_r. }
  destruct part as [ref|bytes]; simpl; [|apply IH, Hrest].
  rewrite rewind_heap_lookup.
  rewrite (Hsub ref) by (simpl; rewrite Nat.eqb_refl; reflexivity).
  destruct (h !! ref); simpl; [constructor; [reflexivity|]|]; apply IH, Hrest.
Qed.

Lemma read_parts_file (name : string) (ref : nat) (rest : list (string * Part))
    (h : gmap nat Buffer) (buf : Buffer) :
  h !! ref = Some buf ->
  (read_parts ((name, FileObj ref) :: rest) h).1
  = (name, (read_buffer buf).1)
    :: (read_parts rest (<[ref := (read_buffer buf).2]> h)).1.
Proof.
  intros H. simpl. rewrite H. unfold read_buffer. simpl.
  destruct (read_parts rest _). reflexivity.
Qed.

Lemma read_parts_missing (name : string) (ref : nat) (rest : list (string * Part))
    (h : gmap nat Buffer) :
  h !! ref = None ->
  (read_parts ((name, FileObj ref) :: rest) h).1
  = (name, []) :: (read_parts rest h).1.
Proof. intros H. simpl. rewrite H. destruct (read_parts rest _). reflexivity. Qed.

Lemma read_parts_blob (name : string) (bytes : list Byte.byte)
    (rest : list (string * Part)) (h : gmap nat Buffer) :
  (read_parts ((name, Blob bytes) :: rest) h).1
  = (name, bytes) :: (read_parts rest h).1.
Proof. simpl. destruct (read_parts rest _). reflexivity. Qed.

(** Reading the parts depends only on the buffers they mention. *)
Lemma read_parts_agree (parts : list (string * Part)) (h h' : gmap nat Buffer) :
  (forall ref, mentions parts ref = true -> h !! ref = h' !! ref) ->
  (read_parts parts h).1 = (read_parts parts h').1.
Proof.
  revert h h'. induction parts as [|[name part] parts IH]; intros h h' Hagree;
    [reflexivity|].
  destruct part as [ref|bytes].
  - assert (Href : h !! ref = h' !! ref)
      by (apply Hagree; simpl; rewrite Nat.eqb_refl; reflexivity).
    destruct (h !! ref) as [buf|] eqn:Hbuf.
    + rewrite (read_parts_file _ _ _ h buf Hbuf).
      rewrite (read_parts_file _ _ _ h' buf (eq_sym Href)).
      f_equal. apply IH.
      intros r Hr. destruct (decide (ref = r)) as [->|Hne].
      * rewrite !lookup_insert_eq. reflexivity.
      * rewrite !lookup_insert_ne by assumption.
        apply Hagree. simpl. rewrite Hr. apply orb_true_r.
    + rewrite (read_parts_missing _ _ _ h Hbuf).
      rewrite (read_parts_missing _ _ _ h' (eq_sym Href)).
      f_equal. apply IH.
      intros r Hr. apply Hagree. simpl. rewrite Hr. apply orb_true_r.
  - rewrite !read_parts_blob. f_equal. apply IH.
    intros r Hr. apply Hagree. simpl. exact Hr.
Qed.

(** The retry block for the content kind multipart. *)
Lemma retry_multipart (env : Env) (request_params : Call)
    (request_data : option (Kw * Data)) (st1 : State) :
  let '(result, st') :=
    retry env request_params request_data "multipart" st1 in
  if rewindable request_params then
    exists rq,
      trace st' = trace st1 ++ [Sent rq]
      /\ rq_call rq = request_params
      /\ Forall (fun o => o.2 = 0%nat) (rq_offsets rq)
      /\ rq_parts rq
         = (read_parts (file_parts request_params)
              (rewind_heap (file_parts request_params) (heap st1))).1
  else
    trace st' = trace st1 /\ exists e, result = Raise e.
Proof.
  unfold retry, prepare_retry.
  destruct (_update_headers_for_content_type_result "multipart" st1) as [h Hh].
  unfold bind at 1. unfold bind at 1. rewrite Hh.
  cbn [String.eqb Ascii.eqb Bool.eqb when].
  unfold rewind_files, rewindable, file_parts.
  destruct (c_body request_params) as [[kw data]|] eqn:Hbody;
    [|split; [reflexivity | eexists; reflexivity]].
  destruct kw; try (split; [reflexivity | eexists; reflexivity]).
  assert (Hsend : forall parts st2,
             read_body request_params (heap st2) = (read_parts parts (heap st2)) ->
             body_offsets request_params (heap st2) = part_offsets parts (heap st2) ->
             Forall (fun o => o.2 = 0%nat) (part_offsets parts (heap st2)) ->
             trace st2 = trace st1 ->
             let '(result, st') :=
               bind (request env request_params)
                 (fun retried =>
                    if in_Z (w_status_code retried) SUCCESS_STATUS_CODES
                    then ret (Wire retried)
                    else report_failure (Wire retried) request_params request_data)
                 st2 in
             exists rq,
               trace st' = trace st1 ++ [Sent rq]
               /\ rq_call rq = request_params
               /\ Forall (fun o => o.2 = 0%nat) (rq_offsets rq)
               /\ rq_parts rq = (read_parts parts (heap st2)).1).
  { intros parts st2 Hread Hoffsets Hzero Htrace.
    unfold bind at 1. unfold request. rewrite Hread.
    destruct (read_parts parts (heap st2)) as [bytes heap'].
    match goal with
    | |- context [transport env ?tr ?rq] => destruct (transport env tr rq) as [w|e]
    end.
    - destruct (in_Z (w_status_code w) SUCCESS_STATUS_CODES);
        [|unfold report_failure, bind, json; destruct (w_decoded w)];
        cbn [ret raise fst snd trace];
        (eexists; split; [rewrite Htrace; reflexivity|];
         split; [reflexivity|]; split;
         [ unfold request_of; cbn [rq_offsets]; rewrite Hoffsets; exact Hzero
         | reflexivity ]).
    - cbn [fst snd trace].
      eexists; split; [rewrite Htrace; reflexivity|];
        split; [reflexivity|]; split;
        [ unfold request_of; cbn [rq_offsets]; rewrite Hoffsets; exact Hzero
        | reflexivity ]. }
  destruct data as [|v|parts|bytes];
    try (split; [reflexivity | eexists; reflexivity]).
  - destruct v as [| | | | |[|member members]];
      try (split; [reflexivity | eexists; reflexivity]).
    apply (Hsend [] (with_headers h st1));
      [ unfold read_body; rewrite Hbody; reflexivity
      | unfold body_offsets; rewrite Hbody; reflexivity
      | constructor
      | reflexivity ].
  - destruct (forallb is_file parts) eqn:Hfiles.
    + rewrite (rewind_result parts _ Hfiles).
      apply (Hsend parts
               {| session := session (with_headers h st1);
                  heap := rewind_heap parts (heap (with_headers h st1));
                  trace := trace (with_headers h st1) |});
        [ unfold read_body; rewrite Hbody; reflexivity
        | unfold body_offsets; rewrite Hbody; reflexivity
        | apply part_offsets_rewound; auto
        | reflexivity ].
    + destruct (rewind_stops_at_bytes parts (with_headers h st1) Hfiles)
        as [h' Hstop].
      rewrite Hstop. split; [reflexivity | eexists; reflexivity].
Qed.

(** An upload that meets a 503: both attempts send the whole file, the first
    from where the caller left the file (its start), the second after the
    rewinding. *)
Example upload_is_replayed :
  let st := {| session := Sample.credential_session "1.8.0";
               heap := {[ 0%nat := {| contents := [Byte.x47; Byte.x45; Byte.x54];
                                      position := 0 |} ]};
               trace := [] |} in
  let '(result, st') :=
    get_rest_response (Sample.environment Sample.unavailable_once)
      "media" "POST" "multipart" (DFiles [("file", FileObj 0)]) true true false st in
  map (fun rq => (rq_offsets rq, rq_parts rq)) (sent (trace st'))
  = [([("file", 0%nat)], [("file", [Byte.x47; Byte.x45; Byte.x54])]);
     ([("file", 0%nat)], [("file", [Byte.x47; Byte.x45; Byte.x54])])].
Proof. vm_compute. reflexivity. Qed.

(** ** The stages of [get_rest_response] *)

Lemma organization_id_cached (env : Env) (st : State) :
  is_None (_organization_id (session st)) = false ->
  organization_id env st = (Ok (_organization_id (session st)), st).
Proof.
  intros H. unfold organization_id, bind, get_session. rewrite H. reflexivity.
Qed.

Lemma prepared_headers (method contenttype : string) (st : State) :
  exists h,
    bind (_update_headers_for_content_type contenttype)
      (fun _ => csrf_protection method) st
    = (Ok tt, with_headers h st).
Proof.
  destruct (_update_headers_for_content_type_result contenttype st) as [h1 H1].
  rewrite (bind_ok _ _ _ _ _ H1).
  destruct (csrf_header_step method (with_headers h1 st)) as [h2 H2].
  exists h2. exact H2.
Qed.

Lemma prepared_trace (method contenttype : string) (st : State) :
  trace (prepared method contenttype st) = trace st.
Proof.
  unfold prepared. destruct (prepared_headers method contenttype st) as [h Hh].
  rewrite Hh. reflexivity.
Qed.

Lemma settle_guard {A} (failing html text : bool) (handle pass : A) :
  (if negb failing || html
   then if negb (html && text) then handle else pass
   else pass)
  = if (negb failing || html) && negb (html && text) then handle else pass.
Proof. destruct failing, html, text; reflexivity. Qed.

Lemma settle_is_the_tail (env : Env) (rp : Call) (body : option (Kw * Data))
    (allow text : bool) (contenttype : string) (response : Response) (st : State) :
  bind
    (if negb (in_Z (status_code response) SUCCESS_STATUS_CODES) || is_html response
     then
       if negb (is_html response && text)
       then _handle_error_response_with env (_acquire_access_token env) response rp
              body allow contenttype
       else ret response
     else ret response)
    (fun response =>
       if match content_type_header response with
          | Some ct => String.prefix "application/json" ct
          | None => false
          end
       then bind (lift (json response)) (fun result => ret (Decoded result))
       else ret (Raw response)) st
  = settle env rp body allow text contenttype response st.
Proof.
  unfold settle, needs_handling. rewrite settle_guard.
  apply bind_ext. intros r st'. unfold delivered, lift, bind, ret.
  destruct (match content_type_header r with
            | Some ct => String.prefix "application/json" ct
            | None => false
            end); [destruct (json r)|]; reflexivity.
Qed.

Lemma get_rest_response_run (env : Env) (url method contenttype : string)
    (data : Data) (allow include text : bool) (st : State) (v : Version)
    (body : option (Kw * Data)) :
  organization_known env (session st) v include ->
  kw_data_arg method contenttype data = Ok body ->
  let st0 := prepared method contenttype st in
  let rp := rest_call method (request_url env (session st) v include url) body
              (session st) in
  get_rest_response env url method contenttype data allow include text st
  = match transport env (trace st0) (request_of rp (read_body rp (heap st0)).1 st0) with
    | Responds w =>
        settle env rp body allow text contenttype (Wire w) (answered rp w st0)
    | Throws e =>
        if aborted e
        then settle env rp body allow text contenttype Aborted (thrown rp st0)
        else (Raise (reraised e), thrown rp st0)
    end.
Proof.
  intros Hknown Hbody st0 rp.
  unfold get_rest_response, get_rest_response_with.
  unfold bind at 1. unfold get_session at 1.
  destruct (_update_headers_for_content_type_result contenttype st) as [h1 H1].
  rewrite (bind_ok _ _ _ _ _ H1).
  set (st1 := with_headers h1 st).
  set (path := strip_api_pattern (config (session st)) url).
  assert (HA :
    (if negb include then ret true
     else bind (organization_id env)
            (fun o => ret (String.prefix ("organizations/" +:+ py_str env o +:+ "/")
                             path))) st1
    = (Ok (negb include
           || String.prefix (organization_segment env (session st)) path), st1)).
  { destruct include; [|reflexivity]. cbn [negb].
    destruct (Hknown eq_refl) as [Horg _].
    rewrite (bind_ok _ _ _ _ _ (organization_id_cached env st1 Horg)).
    reflexivity. }
  rewrite (bind_ok _ _ _ _ _ HA). clear HA.
  assert (HB :
    (if negb include || String.prefix (organization_segment env (session st)) path
     then ret (cfg_base_url (config (session st)) +:+ path)
     else bind (base_url_with env (organization_id env))
            (fun b => ret (b +:+ path))) st1
    = (Ok (request_url env (session st) v include url), st1)).
  { unfold request_url. fold path.
    destruct (negb include || String.prefix _ path) eqn:Hwithout; [reflexivity|].
    destruct include; [|discriminate Hwithout].
    destruct (Hknown eq_refl) as [Horg Hversion].
    unfold bind at 1. unfold base_url_with.
    rewrite (bind_ok _ _ _ _ _ (version_resolved env st1 v Hversion)).
    unfold bind at 1. unfold get_session at 1.
    destruct (version_le v (GETI_18_VERSION env)); [reflexivity|].
    rewrite (bind_ok _ _ _ _ _ (organization_id_cached env st1 Horg)).
    reflexivity. }
  rewrite (bind_ok _ _ _ _ _ HB). clear HB.
  assert (HK :
    (if String.eqb method "POST" || String.eqb method "PUT"
     then
       if String.eqb contenttype "json" then ret (Some (KwJson, data))
       else if String.eqb contenttype "multipart" then ret (Some (KwFiles, data))
            else if String.eqb contenttype "jpeg" || String.eqb contenttype "zip"
                 then ret (Some (KwData, data))
                 else raise (ValueError (UnsupportedContentType contenttype))
     else ret None) st1
    = (Ok body, st1)).
  { unfold kw_data_arg in Hbody.
    repeat match type of Hbody with
           | context [if ?b then _ else _] => destruct b
           end;
      first [injection Hbody as <-; reflexivity | discriminate Hbody]. }
  rewrite (bind_ok _ _ _ _ _ HK). clear HK.
  unfold bind at 1. unfold get_session at 1.
  destruct (csrf_header_step method st1) as [h2 H2].
  rewrite (bind_ok _ _ _ _ _ H2).
  assert (Hst0 : st0 = with_headers h2 st1).
  { unfold st0, prepared. rewrite (bind_ok _ _ _ _ _ H1).
    unfold csrf_protection. fold st1. rewrite H2. reflexivity. }
  rewrite <- Hst0.
  change {| c_method := method;
            c_url := request_url env (session st) v include url;
            c_body := body;
            c_cookies := if negb (use_token (session st1))
                         then SessionCookies else NoCookies;
            c_headers := None; c_allow_redirects := None; c_stream := true |}
    with rp.
  unfold bind at 1. unfold try_except. unfold bind at 1. unfold request.
  destruct (read_body rp (heap st0)) as [parts heap'] eqn:Hread.
  cbn [fst].
  unfold answered, thrown. rewrite Hread. cbn [fst snd].
  destruct (transport env (trace st0) (request_of rp parts st0)) as [w|e].
  - unfold ret at 1. apply settle_is_the_tail.
  - destruct e as [rewrapped detail| | | | | |args| | | | | | |]; try reflexivity.
    destruct args as [|first rest]; [reflexivity|].
    cbn [aborted reraised].
    destruct (value_eq_str first "Connection aborted."); [|reflexivity].
    unfold ret at 1. apply settle_is_the_tail.
Qed.

(** ** Answers that need no handling *)

(** X1. When the server answers the first attempt with a success status and
    a content type that is not HTML, or with an HTML page while the caller
    allows text responses (whatever the status), [get_rest_response] sends
    that one request and nothing else happens: no error handling, no
    re-authentication, no retry.  The result is the decoded body when the
    content type of the answer starts with application/json (the decoding
    error when the body cannot be decoded), and the response itself
    otherwise. *)
Theorem answer_is_delivered (env : Env) (url method contenttype : string)
    (data : Data) (allow include text : bool) (st : State) (v : Version)
    (body : option (Kw * Data)) (w : WireResponse) :
  organization_known env (session st) v include ->
  kw_data_arg method contenttype data = Ok body ->
  let st0 := prepared method contenttype st in
  let rp := rest_call method (request_url env (session st) v include url) body
              (session st) in
  let rq := request_of rp (read_body rp (heap st0)).1 st0 in
  transport env (trace st0) rq = Responds w ->
  (in_Z (w_status_code w) SUCCESS_STATUS_CODES = true /\ is_html (Wire w) = false)
  \/ (is_html (Wire w) = true /\ text = true) ->
  let '(result, st') :=
    get_rest_response env url method contenttype data allow include text st in
  trace st' = trace st ++ [Sent rq]
  /\ st' = answered rp w st0
  /\ result
     = match w_content_type w with
       | Some ct =>
           if String.prefix "application/json" ct
           then match w_decoded w with
                | Some document => Ok (Decoded document)
                | None => Raise RequestsJSONDecodeError
                end
           else Ok (Raw (Wire w))
       | None => Ok (Raw (Wire w))
       end.
Proof.
  intros Hknown Hbody st0 rp rq Hanswer Hfine.
  rewrite (get_rest_response_run env url method contenttype data allow include text
             st v body Hknown Hbody).
  fold st0. fold rp. fold rq. rewrite Hanswer.
  assert (Hpass : needs_handling (Wire w) text = false).
  { unfold needs_handling. change (status_code (Wire w)) with (w_status_code w).
    destruct Hfine as [[-> ->]|[-> ->]]; [reflexivity|].
    rewrite orb_true_r. reflexivity. }
  unfold settle. rewrite Hpass. unfold bind, ret, lift.
  split; [|split].
  - simpl. unfold st0. rewrite prepared_trace. reflexivity.
  - reflexivity.
  - unfold delivered, json, content_type_header.
    destruct (w_content_type w) as [ct|]; [|reflexivity].
    destruct (String.prefix "application/json" ct); [|reflexivity].
    destruct (w_decoded w); reflexivity.
Qed.

Lemma answer_is_delivered_witness :
  let '(result, st') :=
    get_rest_response (Sample.environment Sample.always_fine)
      "projects" "GET" "json" DNone true true false
      (Sample.start (Sample.credential_session "2.0.0")) in
  result = Ok (Decoded (VDict []))
  /\ Sample.dispatched st'
     = [("GET",
         "https://geti.example/api/v1/organizations/000000000000000000000001/projects",
         false)].
Proof.
  pose proof (answer_is_delivered (Sample.environment Sample.always_fine)
                "projects" "GET" "json" DNone true true false
                (Sample.start (Sample.credential_session "2.0.0"))
                (2, 0, 0)%nat None (Sample.json_reply 200 (VDict []))
                (fun _ => conj eq_refl eq_refl) eq_refl eq_refl
                (or_introl (conj eq_refl eq_refl))) as H.
  destruct (get_rest_response _ _ _ _ _ _ _ _ _) as [result st'].
  destruct H as (_ & -> & ->). split; vm_compute; reflexivity.
Defined.

(** ** Failures of the transport *)

(** X2. When the transport raises on the first attempt and the exception is
    not the built-in [ConnectionError] that says "Connection aborted.",
    [get_rest_response] raises after that one request, without retrying and
    without re-authenticating: an [SSLError] is raised anew as an [SSLError]
    that carries the original detail, a built-in [ConnectionError] without
    arguments fails on [args[0]] with [IndexError], and every other
    exception, the connection errors and timeouts of requests among them,
    propagates unchanged. *)
Theorem transport_error_is_not_retried (env : Env) (url method contenttype : string)
    (data : Data) (allow include text : bool) (st : State) (v : Version)
    (body : option (Kw * Data)) (e : Exc) :
  organization_known env (session st) v include ->
  kw_data_arg method contenttype data = Ok body ->
  let st0 := prepared method contenttype st in
  let rp := rest_call method (request_url env (session st) v include url) body
              (session st) in
  let rq := request_of rp (read_body rp (heap st0)).1 st0 in
  transport env (trace st0) rq = Throws e ->
  aborted e = false ->
  let '(result, st') :=
    get_rest_response env url method contenttype data allow include text st in
  trace st' = trace st ++ [Sent rq]
  /\ logged_in (session st') = logged_in (session st)
  /\ result = Raise match e with
                    | SSLError _ detail => SSLError true detail
                    | ConnectionError [] => IndexError
                    | _ => e
                    end.
Proof.
  intros Hknown Hbody st0 rp rq Hanswer Hnot.
  rewrite (get_rest_response_run env url method contenttype data allow include text
             st v body Hknown Hbody).
  fold st0. fold rp. fold rq. rewrite Hanswer, Hnot.
  split; [|split].
  - simpl. unfold st0. rewrite prepared_trace. reflexivity.
  - unfold st0, prepared.
    destruct (prepared_headers method contenttype st) as [h Hh].
    rewrite Hh. reflexivity.
  - reflexivity.
Qed.

Lemma transport_error_is_not_retried_witness :
  let '(result, st') :=
    get_rest_response (Sample.environment Sample.unreachable)
      "projects" "GET" "json" DNone true true false
      (Sample.start (Sample.credential_session "1.8.0")) in
  result = Raise (RequestsConnectionError "connection refused")
  /\ length (sent (trace st')) = 1%nat.
Proof.
  pose proof (transport_error_is_not_retried (Sample.environment Sample.unreachable)
                "projects" "GET" "json" DNone true true false
                (Sample.start (Sample.credential_session "1.8.0"))
                (1, 8, 0)%nat None (RequestsConnectionError "connection refused")
                (fun _ => conj eq_refl eq_refl) eq_refl eq_refl eq_refl) as H.
  destruct (get_rest_response _ _ _ _ _ _ _ _ _) as [result st'].
  destruct H as (-> & _ & ->). split; reflexivity.
Defined.

(** ** Answers that are failures *)

(** X3. When the answer to the first attempt goes to the error handling (its
    status is not a success, or it is an HTML page that the caller does not
    accept) and the handling has nothing to try again (the status is not
    503, and it is not 200 or 401 with re-authentication allowed),
    [get_rest_response] raises a [GetiRequestException] after that one
    request.  The exception carries the method, the full request URL (base
    URL and organization segment included), the status code of the answer,
    the body under the keyword it was sent with, and the decoded body of the
    answer when there is one. *)
Theorem failure_is_raised_with_request_details (env : Env)
    (url method contenttype : string) (data : Data) (allow include text : bool)
    (st : State) (v : Version) (body : option (Kw * Data)) (w : WireResponse) :
  organization_known env (session st) v include ->
  kw_data_arg method contenttype data = Ok body ->
  let st0 := prepared method contenttype st in
  let rp := rest_call method (request_url env (session st) v include url) body
              (session st) in
  let rq := request_of rp (read_body rp (heap st0)).1 st0 in
  transport env (trace st0) rq = Responds w ->
  needs_handling (Wire w) text = true ->
  in_Z (w_status_code w) [200; 401] && allow = false ->
  w_status_code w <> 503 ->
  let '(result, st') :=
    get_rest_response env url method contenttype data allow include text st in
  trace st' = trace st ++ [Sent rq]
  /\ result = Raise (GetiRequestException
                       {| rf_method := method;
                          rf_url := request_url env (session st) v include url;
                          rf_status_code := w_status_code w;
                          rf_request_data := body;
                          rf_response_data := w_decoded w |}).
Proof.
  intros Hknown Hbody st0 rp rq Hanswer Hhandled Hallow Hbusy.
  rewrite (get_rest_response_run env url method contenttype data allow include text
             st v body Hknown Hbody).
  fold st0. fold rp. fold rq. rewrite Hanswer.
  unfold settle. rewrite Hhandled.
  unfold _handle_error_response, _handle_error_response_with, decide_retry.
  change (status_code (Wire w)) with (w_status_code w).
  rewrite Hallow.
  apply Z.eqb_neq in Hbusy. rewrite Hbusy.
  unfold bind at 1. unfold bind at 1. unfold ret at 1.
  unfold report_failure, bind, json, ret, raise.
  destruct (w_decoded w); (split; [|reflexivity]);
    simpl; unfold st0; rewrite prepared_trace; reflexivity.
Qed.

Lemma failure_is_raised_with_request_details_witness :
  let not_found :=
    Sample.json_reply 404 (VDict [("message", VStr "no such project")]) in
  let '(result, st') :=
    get_rest_response
      (Sample.environment (Sample.scripted [] (Responds not_found)))
      "projects/42" "DELETE" "json" DNone true true false
      (Sample.start (Sample.credential_session "2.0.0")) in
  length (sent (trace st')) = 1%nat
  /\ result
     = Raise (GetiRequestException
                {| rf_method := "DELETE";
                   rf_url := "https://geti.example/api/v1/organizations/"
                             +:+ "000000000000000000000001/projects/42";
                   rf_status_code := 404;
                   rf_request_data := None;
                   rf_response_data :=
                     Some (VDict [("message", VStr "no such project")]) |}).
Proof.
  intros not_found.
  pose proof (failure_is_raised_with_request_details
                (Sample.environment (Sample.scripted [] (Responds not_found)))
                "projects/42" "DELETE" "json" DNone true true false
                (Sample.start (Sample.credential_session "2.0.0"))
                (2, 0, 0)%nat None not_found
                (fun _ => conj eq_refl eq_refl) eq_refl eq_refl eq_refl eq_refl
                ltac:(discriminate)) as H.
  destruct (get_rest_response _ _ _ _ _ _ _ _ _) as [result st'].
  destruct H as (-> & ->). split; reflexivity.
Defined.

(** ** Answers that mean the authentication has expired *)




(** A multipart upload of bytes that meets a 401: the session logs in again
    and then fails on the rewinding; the upload is not sent a second time. *)
Example upload_of_bytes_is_not_replayed :
  let '(result, st') :=
    get_rest_response (Sample.environment Sample.expired_then_login)
      "media" "POST" "multipart"
      (DFiles [("file", Blob [Byte.x47; Byte.x45; Byte.x54])]) true true false
      (Sample.start (Sample.credential_session "1.8.0")) in
  result = Raise AttributeError
  /\ map (fun rq => c_method (rq_call rq)) (sent (trace st'))
     = ["POST"; "GET"; "POST"].
Proof. vm_compute. split; reflexivity. Qed.

(** ** The request that reaches the transport *)

Lemma settle_extends (env : Env) (rp : Call) (body : option (Kw * Data))
    (allow text : bool) (contenttype : string) (response : Response) :
  monotone (settle env rp body allow text contenttype response).
Proof.
  unfold settle. preserves_auto.
  apply preserves__handle_error_response. exact _.
Qed.

Lemma get_rest_response_first_request (env : Env) (url method contenttype : string)
    (data : Data) (allow include text : bool) (st : State) (v : Version)
    (body : option (Kw * Data)) :
  organization_known env (session st) v include ->
  kw_data_arg method contenttype data = Ok body ->
  let st0 := prepared method contenttype st in
  let rp := rest_call method (request_url env (session st) v include url) body
              (session st) in
  let rq := request_of rp (read_body rp (heap st0)).1 st0 in
  exists more,
    trace (get_rest_response env url method contenttype data allow include text st).2
    = trace st ++ Sent rq :: more.
Proof.
  intros Hknown Hbody st0 rp rq.
  rewrite (get_rest_response_run env url method contenttype data allow include text
             st v body Hknown Hbody).
  fold st0. fold rp. fold rq.
  assert (Hlater : forall response st1,
             trace st1 = trace st ++ [Sent rq] ->
             exists more,
               trace (settle env rp body allow text contenttype response st1).2
               = trace st ++ Sent rq :: more).
  { intros response st1 Hst1.
    destruct (settle_extends env rp body allow text contenttype response st1)
      as [events Hevents].
    exists events. rewrite Hevents, Hst1, <- app_assoc. reflexivity. }
  assert (Htrace : trace st0 = trace st) by apply prepared_trace.
  destruct (transport env (trace st0) rq) as [w|e].
  - apply Hlater. simpl. rewrite Htrace. reflexivity.
  - destruct (aborted e).
    + apply Hlater. simpl. rewrite Htrace. reflexivity.
    + exists []. simpl. rewrite Htrace. reflexivity.
Qed.

Lemma prepared_session (method contenttype : string) (st : State) :
  prepared method contenttype st
  = with_headers (headers (session (prepared method contenttype st))) st.
Proof.
  unfold prepared. destruct (prepared_headers method contenttype st) as [h Hh].
  rewrite Hh. reflexivity.
Qed.

Lemma content_type_header_is_set (content_type : string) (st : State) (k : string) :
  headers (session (_update_headers_for_content_type content_type st).2) !! k
  = if decide (k = "Content-Type")
    then content_type_for content_type (headers (session st) !! "Content-Type")
    else headers (session st) !! k.
Proof.
  unfold _update_headers_for_content_type, content_type_for, headers_update,
    headers_pop, modify_session.
  destruct (decide (k = "Content-Type")) as [->|Hne];
    repeat match goal with
           | |- context [if String.eqb ?a ?b then _ else _] =>
               destruct (String.eqb a b)
           end; cbn [snd session headers set_headers ret];
    rewrite ?lookup_insert_eq, ?lookup_delete_eq,
      ?(lookup_insert_ne _ _ _ _ (not_eq_sym Hne)),
      ?(lookup_delete_ne _ _ _ (not_eq_sym Hne)); reflexivity.
Qed.

Lemma prepared_headers_lookup (method contenttype : string) (st : State) (k : string) :
  headers (session (prepared method contenttype st)) !! k
  = if decide (k = "x-geti-csrf-protection")
    then if is_mutating method then Some "1" else None
    else if decide (k = "Content-Type")
         then content_type_for contenttype (headers (session st) !! "Content-Type")
         else headers (session st) !! k.
Proof.
  pose proof (content_type_header_is_set contenttype st k) as Hkind.
  unfold prepared.
  destruct (_update_headers_for_content_type_result contenttype st) as [h1 H1].
  rewrite H1 in Hkind. rewrite (bind_ok _ _ _ _ _ H1).
  unfold csrf_protection, is_mutating, csrf_header_methods, headers_update,
    headers_pop, modify_session.
  destruct (in_str method ["POST"; "PUT"; "DELETE"; "PATCH"]);
    cbn [snd session headers set_headers with_headers] in *;
    (destruct (decide (k = "x-geti-csrf-protection")) as [->|Hne];
     [ rewrite ?lookup_insert_eq, ?lookup_delete_eq; reflexivity
     | rewrite ?(lookup_insert_ne _ _ _ _ (not_eq_sym Hne)),
         ?(lookup_delete_ne _ _ _ (not_eq_sym Hne)); exact Hkind ]).
Qed.

(** X5. The request that a call of [get_rest_response] hands to the
    transport first, on a session that knows its organization id (or for a
    call that leaves the organization out) and for a content kind that the
    method supports.  Its URL is the base URL of the configuration followed
    by the path (the [url] argument without the API pattern); the segment
    organizations/<id>/ is put between the two when the caller includes the
    organization, the platform is later than [GETI_18_VERSION] and the path
    does not start with that segment already.  The body goes under the
    keyword of the content kind for POST and PUT and is left out for every
    other method.  The response is streamed.  The [_cookies] of the session
    are passed in a credential session and no cookies in a token session.
    The session headers at that moment have the CSRF header exactly for
    POST, PUT, DELETE and PATCH, the [Content-Type] that belongs to the
    content kind, and every other header as it was. *)
Theorem first_request_of_a_call (env : Env) (url method contenttype : string)
    (data : Data) (allow include text : bool) (st : State) (v : Version)
    (body : option (Kw * Data)) :
  organization_known env (session st) v include ->
  kw_data_arg method contenttype data = Ok body ->
  exists rq more,
    trace (get_rest_response env url method contenttype data allow include text st).2
    = trace st ++ Sent rq :: more
    /\ rq_call rq
       = {| c_method := method;
            c_url := request_url env (session st) v include url;
            c_body := body;
            c_cookies := if use_token (session st) then NoCookies else SessionCookies;
            c_headers := None; c_allow_redirects := None; c_stream := true |}
    /\ (String.eqb method "POST" || String.eqb method "PUT" = false -> body = None)
    /\ rq_cookies rq
       = (if use_token (session st) then None else Some (_cookies (session st)))
    /\ forall k,
         rq_session_headers rq !! k
         = if decide (k = "x-geti-csrf-protection")
           then if is_mutating method then Some "1" else None
           else if decide (k = "Content-Type")
                then content_type_for contenttype
                       (headers (session st) !! "Content-Type")
                else headers (session st) !! k.
Proof.
  intros Hknown Hbody.
  destruct (get_rest_response_first_request env url method contenttype data allow
              include text st v body Hknown Hbody) as [more Hmore].
  eexists. exists more. split; [exact Hmore|].
  split; [|split; [|split]].
  - unfold request_of, rest_call. cbn [rq_call].
    destruct (use_token (session st)); reflexivity.
  - intros Hother. unfold kw_data_arg in Hbody. rewrite Hother in Hbody.
    congruence.
  - unfold request_of, rest_call. cbn [rq_cookies c_cookies].
    rewrite prepared_session.
    destruct (use_token (session st)); reflexivity.
  - intros k. unfold request_of. cbn [rq_session_headers].
    apply prepared_headers_lookup.
Qed.

Lemma first_request_of_a_call_witness :
  exists rq more,
    trace (get_rest_response (Sample.environment Sample.always_fine)
             "/api/v1/projects" "POST" "json" (DValue (VDict [("name", VStr "p")]))
             true true false
             (Sample.start (Sample.credential_session "2.0.0"))).2
    = Sent rq :: more
    /\ c_url (rq_call rq)
       = "https://geti.example/api/v1/organizations/000000000000000000000001/projects"
    /\ c_body (rq_call rq) = Some (KwJson, DValue (VDict [("name", VStr "p")]))
    /\ rq_session_headers rq !! "Content-Type" = Some "application/json"
    /\ rq_session_headers rq !! "x-geti-csrf-protection" = Some "1".
Proof.
  destruct (first_request_of_a_call (Sample.environment Sample.always_fine)
              "/api/v1/projects" "POST" "json" (DValue (VDict [("name", VStr "p")]))
              true true false
              (Sample.start (Sample.credential_session "2.0.0"))
              (2, 0, 0)%nat (Some (KwJson, DValue (VDict [("name", VStr "p")])))
              (fun _ => conj eq_refl eq_refl) eq_refl)
    as (rq & more & Htrace & Hcall & _ & _ & Hheaders).
  exists rq, more. split; [exact Htrace|].
  rewrite Hcall, !Hheaders. repeat split.
Defined.

(** ** The token exchange *)

(** X6. [_acquire_access_token] posts the personal access token as
    [{"service_id": token}] to service_accounts/access_token under the base
    URL, leaving the organization out.  When the answer is a failure other
    than 503, nothing is retried and no re-authentication is attempted: a
    401 raises the [ValueError] about the token, any other status raises the
    [GetiRequestException] with that status.  When the answer is a success
    with a JSON object, the function logs that the token was validated and
    returns the member [access_token] of the object, which is [None] when
    the object has no such member. *)
Theorem token_exchange_outcome (env : Env) (st : State) (token : string)
    (w : WireResponse) :
  credentials (config (session st)) = PersonalToken token ->
  let body := Some (KwJson, DValue (VDict [("service_id", VStr token)])) in
  let url := cfg_base_url (config (session st))
             +:+ strip_api_pattern (config (session st))
                   "service_accounts/access_token" in
  let st0 := prepared "POST" "json" st in
  let rq := request_of (rest_call "POST" url body (session st)) [] st0 in
  transport env (trace st0) rq = Responds w ->
  let '(result, st') := _acquire_access_token env st in
  (needs_handling (Wire w) false = true ->
   w_status_code w <> 503 ->
   trace st' = trace st ++ [Sent rq]
   /\ result
      = Raise (if w_status_code w =? 401
               then ValueError TokenAuthorizationFailed
               else GetiRequestException
                      {| rf_method := "POST"; rf_url := url;
                         rf_status_code := w_status_code w;
                         rf_request_data := body;
                         rf_response_data := w_decoded w |}))
  /\ (needs_handling (Wire w) false = false ->
      forall members,
        delivered (Wire w) = Ok (Decoded (VDict members)) ->
        trace st'
        = trace st ++ [Sent rq;
                       Logged INFO (TokenValidated (host (config (session st))))]
        /\ result = Ok (default VNone (assoc "access_token" members))).
Proof.
  intros Htoken body url st0 rq Hanswer.
  unfold _acquire_access_token.
  unfold bind at 1. unfold get_session at 1.
  unfold bind at 1. unfold config_token.
  unfold bind at 1. unfold get_session at 1. rewrite Htoken. unfold ret at 1.
  unfold bind at 1. unfold try_except.
  rewrite token_request_is_get_rest_response.
  rewrite (get_rest_response_run env "service_accounts/access_token" "POST" "json"
             (DValue (VDict [("service_id", VStr token)])) false false false st
             (0, 0, 0)%nat body (fun H => False_ind _ (diff_false_true H)) eq_refl).
  change (request_url env (session st) (0, 0, 0)%nat false
            "service_accounts/access_token") with url.
  fold st0. change (read_body (rest_call "POST" url body (session st)) (heap st0)).1
    with (@nil (string * list Byte.byte)).
  fold rq. rewrite Hanswer.
  assert (Htrace : trace (answered (rest_call "POST" url body (session st)) w st0)
                   = trace st ++ [Sent rq]).
  { unfold answered. cbn [trace]. unfold st0 at 1. rewrite prepared_trace.
    reflexivity. }
  unfold settle.
  destruct (needs_handling (Wire w) false) eqn:Hhandled.
  - match goal with
    | |- let '(_, _) := ?run in _ => destruct run as [result st'] eqn:Hrun
    end.
    split; [|discriminate].
    intros _ Hbusy.
    unfold _handle_error_response, _handle_error_response_with, decide_retry in Hrun.
    rewrite andb_false_r in Hrun.
    change (status_code (Wire w)) with (w_status_code w) in Hrun.
    apply Z.eqb_neq in Hbusy. rewrite Hbusy in Hrun.
    unfold bind at 2 in Hrun. unfold bind at 2 in Hrun. unfold ret at 1 in Hrun.
    unfold report_failure, bind, json, ret, raise in Hrun.
    destruct (w_decoded w); cbn [rf_status_code status_code] in Hrun;
      destruct (w_status_code w =? 401); injection Hrun as <- <-;
      (split; [exact Htrace | reflexivity]).
  - match goal with
    | |- let '(_, _) := ?run in _ => destruct run as [result st'] eqn:Hrun
    end.
    split; [discriminate|].
    intros _ members Hdelivered.
    unfold bind, ret, lift in Hrun. rewrite Hdelivered in Hrun.
    unfold log, emit, dict_get in Hrun. injection Hrun as <- <-.
    cbn [trace]. rewrite <- app_assoc. split; reflexivity.
Qed.

Lemma token_exchange_outcome_witness :
  let rejected := Sample.reply 401 None None in
  let '(result, st') :=
    _acquire_access_token
      (Sample.environment (Sample.scripted [] (Responds rejected)))
      (Sample.start (Sample.token_session "1.8.0")) in
  result = Raise (ValueError TokenAuthorizationFailed)
  /\ length (sent (trace st')) = 1%nat.
Proof.
  intros rejected.
  pose proof (token_exchange_outcome
                (Sample.environment (Sample.scripted [] (Responds rejected)))
                (Sample.start (Sample.token_session "1.8.0")) "pat" rejected
                eq_refl eq_refl) as H.
  destruct (_acquire_access_token _ _) as [result st'].
  destruct H as [H _].
  destruct (H eq_refl ltac:(discriminate)) as [-> ->].
  split; reflexivity.
Defined.

(** ** The organization id is looked up once *)

Lemma _get_organization_id_is_not_None (env : Env) (st st1 : State) (o : Value) :
  _get_organization_id env st = (Ok o, st1) -> is_None o = false.
Proof.
  unfold _get_organization_id. unfold bind at 1.
  destruct (version env st) as [[v|e] st0]; [|discriminate].
  unfold bind at 1.
  match goal with
  | |- context [(if ?b then ?m else ?m') st0] =>
      destruct ((if b then m else m') st0) as [[org_id|e] st2]
  end; [|discriminate].
  destruct (is_None org_id) eqn:Hnone; [discriminate|].
  intros H. injection H as <- _. exact Hnone.
Qed.

(** X7. The property [organization_id] looks the id up at most once: a read
    that succeeds yields an id that is not [None] and stores it, so that
    every later read returns the same id without sending anything and
    without changing the session. *)
Theorem organization_id_is_looked_up_once (env : Env) (st st' : State) (o : Value) :
  organization_id env st = (Ok o, st') ->
  is_None o = false
  /\ _organization_id (session st') = o
  /\ organization_id env st' = (Ok o, st').
Proof.
  unfold organization_id at 1. unfold bind at 1. unfold get_session at 1.
  destruct (is_None (_organization_id (session st))) eqn:Hnone.
  - unfold bind at 1.
    destruct (_get_organization_id env st) as [[fetched|e] st1] eqn:Hfetch;
      [|discriminate].
    pose proof (_get_organization_id_is_not_None env st st1 fetched Hfetch) as Hsome.
    unfold bind, modify_session, ret. intros H. injection H as <- <-.
    split; [exact Hsome|]. split; [reflexivity|].
    apply organization_id_cached. exact Hsome.
  - unfold ret. intros H. injection H as <- <-.
    split; [exact Hnone|]. split; [reflexivity|].
    apply organization_id_cached. exact Hnone.
Qed.

Lemma organization_id_is_looked_up_once_witness :
  let env :=
    Sample.environment
      (Sample.scripted []
         (Responds (Sample.json_reply 200 (VDict [("organizationId", VStr "org-7")])))) in
  let st :=
    Sample.start (set__organization_id VNone (Sample.credential_session "2.0.0")) in
  let '(first, st1) := organization_id env st in
  let '(second, st2) := organization_id env st1 in
  first = Ok (VStr "org-7")
  /\ second = first
  /\ st2 = st1
  /\ length (sent (trace st2)) = 1%nat.
Proof.
  intros env st.
  pose proof (organization_id_is_looked_up_once env st
                (organization_id env st).2 (VStr "org-7") eq_refl)
    as (_ & _ & Hagain).
  destruct (organization_id env st) as [first st1] eqn:Hfirst.
  cbn [snd] in Hagain. rewrite Hagain.
  vm_compute in Hfirst. injection Hfirst as <- <-.
  repeat split.
Defined.

(** ** What only the constructor assigns *)

(** A part of the session that the setters among [set_cookies],
    [set__cookies], [set__auth_service], [set_headers], [set_logged_in] and
    [set__organization_id] leave alone is left alone by every function that
    assigns through these setters only. *)
Section Views.

Context {X : Type} (view : Session -> X).

Section Steps.

Context {A B : Type}.

Lemma view_ret (a : A) : preserves (unchanged view) (ret a).
Proof. intros st. reflexivity. Qed.

Lemma view_raise (e : Exc) : preserves (unchanged view) (@raise A e).
Proof. intros st. reflexivity. Qed.

Lemma view_lift (r : Result A) : preserves (unchanged view) (lift r).
Proof. intros st. reflexivity. Qed.

Lemma view_bind (m : M A) (k : A -> M B) :
  preserves (unchanged view) m -> (forall a, preserves (unchanged view) (k a)) ->
  preserves (unchanged view) (bind m k).
Proof.
  intros Hm Hk st. unfold bind. specialize (Hm st).
  destruct (m st) as [[a|e] st1]; simpl in *; [|exact Hm].
  unfold unchanged in *. rewrite <- Hm. apply Hk.
Qed.

Lemma view_try_except (m : M A) (h : Exc -> option (M A)) :
  preserves (unchanged view) m ->
  (forall e handler, h e = Some handler -> preserves (unchanged view) handler) ->
  preserves (unchanged view) (try_except m h).
Proof.
  intros Hm Hh st. unfold try_except. specialize (Hm st).
  destruct (m st) as [[a|e] st1]; simpl in *; [exact Hm|].
  destruct (h e) as [handler|] eqn:He; [|exact Hm].
  unfold unchanged in *. rewrite <- Hm. eapply Hh, He.
Qed.

End Steps.

Lemma view_get_session : preserves (unchanged view) get_session.
Proof. intros st. reflexivity. Qed.

Lemma view_modify_session (f : Session -> Session) :
  (forall s, view (f s) = view s) -> preserves (unchanged view) (modify_session f).
Proof. intros Hf st. apply Hf. Qed.

Lemma view_emit (e : Event) : preserves (unchanged view) (emit e).
Proof. intros st. reflexivity. Qed.

Lemma view_close (env : Env) : preserves (unchanged view) (close env).
Proof. intros st. unfold close. destruct (closing env (trace st)); reflexivity. Qed.

Lemma view_seek_start (ref : nat) : preserves (unchanged view) (seek_start ref).
Proof. intros st. reflexivity. Qed.

Lemma view_when (b : bool) (m : M unit) :
  preserves (unchanged view) m -> preserves (unchanged view) (when b m).
Proof. intros H. destruct b; [exact H | apply view_ret]. Qed.

Hypothesis jar_kept : forall c s, view (set_cookies c s) = view s.
Hypothesis cookies_kept : forall c s, view (set__cookies c s) = view s.
Hypothesis service_kept : forall a s, view (set__auth_service a s) = view s.

Lemma view_request (env : Env) (c : Call) : preserves (unchanged view) (request env c).
Proof.
  intros st. unfold request. destruct (read_body c (heap st)) as [parts heap'].
  destruct (transport env (trace st) _); [apply jar_kept | reflexivity].
Qed.

Ltac view_step :=
  match goal with
  | |- preserves _ (bind _ _) => apply view_bind; [|intros ?]
  | |- preserves _ (ret _) => apply view_ret
  | |- preserves _ (raise _) => apply view_raise
  | |- preserves _ (lift _) => apply view_lift
  | |- preserves _ get_session => apply view_get_session
  | |- preserves _ (modify_session _) =>
      apply view_modify_session; intros ?; auto; fail
  | |- preserves _ (headers_update _ _) =>
      apply view_modify_session; intros ?; auto; fail
  | |- preserves _ (headers_pop _) =>
      apply view_modify_session; intros ?; auto; fail
  | |- preserves _ (emit _) => apply view_emit
  | |- preserves _ (log _ _) => apply view_emit
  | |- preserves _ (when _ _) => apply view_when
  | |- preserves _ (request _ _) => apply view_request
  | |- preserves _ (close _) => apply view_close
  | |- preserves _ (seek_start _) => apply view_seek_start
  | |- preserves _ (try_except _ _) => apply view_try_except; [|intros ? ? ?]
  | H : preserves ?R ?m |- preserves ?R ?m => exact H
  | H : forall x, preserves ?R (?m x) |- preserves ?R (?m _) => apply H
  | H : Some _ = Some ?h |- preserves _ ?h => injection H as <-
  | H : None = Some ?h |- preserves _ ?h => discriminate H
  | H : context [match ?x with _ => _ end] |- preserves _ _ => destruct x; simpl in H
  | |- preserves _ (if ?b then _ else _) => destruct b
  | |- preserves _ (match ?x with _ => _ end) => destruct x
  end.

Ltac view_auto := repeat view_step; auto.

Lemma view_get (env : Env) url allow : preserves (unchanged view) (get env url allow).
Proof. apply view_request. Qed.

Lemma view_post (env : Env) url data cookies headers allow :
  preserves (unchanged view) (post env url data cookies headers allow).
Proof. unfold post. view_auto. Qed.

Lemma view_authentication_service (env : Env) :
  preserves (unchanged view) (authentication_service env).
Proof. unfold authentication_service. view_auto. Qed.

Lemma view__follow_login_redirects (env : Env) depth response legacy :
  preserves (unchanged view) (_follow_login_redirects env depth response legacy).
Proof.
  revert response. induction depth as [|depth IH]; intros response;
    cbn [_follow_login_redirects].
  - apply view_raise.
  - unfold next_url, get. view_auto.
Qed.

Lemma view__get_initial_login_url (env : Env) legacy :
  preserves (unchanged view) (_get_initial_login_url env legacy).
Proof.
  unfold _get_initial_login_url, get. view_auto.
  apply view__follow_login_redirects.
Qed.

Lemma view__handle_legacy_dex_response (response : WireResponse) :
  preserves (unchanged view) (_handle_legacy_dex_response response).
Proof. unfold _handle_legacy_dex_response. view_auto. Qed.

Lemma view__handle_dex_response (env : Env) (response : WireResponse) :
  preserves (unchanged view) (_handle_dex_response env response).
Proof. unfold _handle_dex_response, post. view_auto. Qed.

Hypothesis headers_kept : forall h s, view (set_headers h s) = view s.
Hypothesis flag_kept : forall b s, view (set_logged_in b s) = view s.

Lemma view_authenticate (env : Env) verbose :
  preserves (unchanged view) (authenticate env verbose).
Proof.
  unfold authenticate, config_username, config_password, post. view_auto;
    first [ apply view_authentication_service
          | apply view__get_initial_login_url
          | apply view__handle_legacy_dex_response
          | apply view__handle_dex_response ].
Qed.

Lemma view_rewind parts : preserves (unchanged view) (rewind parts).
Proof.
  induction parts as [|[name part] parts IH]; simpl; [apply view_ret|].
  view_auto.
Qed.

Lemma view_logout (env : Env) verbose : preserves (unchanged view) (logout env verbose).
Proof.
  unfold logout. view_auto.
  apply view_modify_session. intros s. unfold clear_credentials.
  rewrite flag_kept, headers_kept, jar_kept. apply cookies_kept.
Qed.

Section ViewOfDispatcher.

Variable env : Env.
Variables acquire organization : M Value.
Hypothesis view_acquire : preserves (unchanged view) acquire.
Hypothesis view_organization : preserves (unchanged view) organization.

Lemma view__handle_error_response_with response request_params request_data
    allow content_type :
  preserves (unchanged view)
    (_handle_error_response_with env acquire response request_params request_data
       allow content_type).
Proof.
  unfold _handle_error_response_with, decide_retry, retry, reauthenticate,
    prepare_retry, report_failure, _update_headers_for_content_type, rewind_files.
  view_auto; first [apply view_authenticate | apply view_rewind].
Qed.

Lemma view_get_rest_response_with url method contenttype data allow include text :
  preserves (unchanged view)
    (get_rest_response_with env acquire organization url method contenttype data
       allow include text).
Proof.
  unfold get_rest_response_with, base_url_with, version,
    _update_headers_for_content_type.
  view_auto. apply view__handle_error_response_with.
Qed.

End ViewOfDispatcher.

Lemma view__acquire_access_token (env : Env) :
  preserves (unchanged view) (_acquire_access_token env).
Proof.
  unfold _acquire_access_token, config_token. view_auto.
  apply view_get_rest_response_with; apply view_raise.
Qed.

Lemma view__get_organization_id (env : Env) :
  preserves (unchanged view) (_get_organization_id env).
Proof.
  unfold _get_organization_id, version. view_auto.
  apply view_get_rest_response_with;
    [apply view__acquire_access_token | apply view_raise].
Qed.

Hypothesis organization_kept : forall o s, view (set__organization_id o s) = view s.

Lemma view_organization_id (env : Env) :
  preserves (unchanged view) (organization_id env).
Proof.
  unfold organization_id, _get_organization_id, version. view_auto.
  apply view_get_rest_response_with;
    [apply view__acquire_access_token | apply view_raise].
Qed.

Lemma view_get_rest_response (env : Env) url method contenttype data allow
    include text :
  preserves (unchanged view)
    (get_rest_response env url method contenttype data allow include text).
Proof.
  apply view_get_rest_response_with;
    [apply view__acquire_access_token | apply view_organization_id].
Qed.

Lemma view___del__ (env : Env) : preserves (unchanged view) (__del__ env).
Proof. unfold __del__. view_auto. apply view_logout. Qed.

Lemma view___exit__ (env : Env) : preserves (unchanged view) (__exit__ env).
Proof. unfold __exit__. view_auto. apply view_logout. Qed.

End Views.

Lemma unchanged_platform (st st' : State) :
  unchanged (fun s => (config s, use_token s, _product_info s)) st st' ->
  same_platform st st'.
Proof. intros H. injection H as H1 H2 H3. repeat split; assumption. Qed.

Lemma platform_get_rest_response (env : Env) url method contenttype data allow
    include text :
  preserves same_platform
    (get_rest_response env url method contenttype data allow include text).
Proof.
  intros st. apply unchanged_platform. apply view_get_rest_response; reflexivity.
Qed.


(** X8. Requests, logins and disposals never assign the configuration, the
    token mode or the product info of the session: whatever the server
    answers and however the operation ends, the three attributes are what
    they were, and so is the platform version that is read from the product
    info. *)
Theorem platform_is_never_reassigned (env : Env) (st : State) :
  (forall url method contenttype data allow include text,
      same_platform st
        (get_rest_response env url method contenttype data allow include text st).2)
  /\ (forall verbose, same_platform st (authenticate env verbose st).2)
  /\ (forall verbose, same_platform st (logout env verbose st).2)
  /\ same_platform st (__del__ env st).2
  /\ same_platform st (__exit__ env st).2
  /\ same_platform st (organization_id env st).2
  /\ forall st', same_platform st st' ->
        version_of env (session st') = version_of env (session st).
Proof.
  refine (conj _ (conj _ (conj _ (conj _ (conj _ (conj _ _)))))).
  - intros. apply platform_get_rest_response.
  - intros. apply unchanged_platform, view_authenticate; reflexivity.
  - intros. apply unchanged_platform, view_logout; reflexivity.
  - apply unchanged_platform, view___del__; reflexivity.
  - apply unchanged_platform, view___exit__; reflexivity.
  - apply unchanged_platform, view_organization_id; reflexivity.
  - intros st' (_ & _ & Hinfo). unfold version_of. rewrite Hinfo. reflexivity.
Qed.

(** ** Product info and API version *)

(** X9. [_get_product_info_and_set_api_version] asks for the product info
    and, when that ends in a [GetiRequestException], switches the
    configuration to the legacy API version and asks exactly once more.
    When the first call returns, its result is the product info and the
    configuration is untouched.  When it raises anything else, that
    exception propagates and the configuration is untouched.  After the
    switch the second call starts with a request for product_info under the
    base URL of the legacy configuration, its outcome is final (a second
    failure propagates), and the session keeps the legacy configuration. *)
Theorem api_version_falls_back_once (env : Env) (set_legacy_api_version : Config -> Config)
    (st : State) :
  let '(first, st1) :=
    get_rest_response env "product_info" "GET" "json" DNone true false false st in
  let '(result, st') :=
    _get_product_info_and_set_api_version env set_legacy_api_version st in
  match first with
  | Raise (GetiRequestException _) =>
      let legacy := set_legacy_api_version (config (session st)) in
      (result, st')
      = get_rest_response env "product_info" "GET" "json" DNone true false false
          (with_legacy_api_version set_legacy_api_version st1)
      /\ config (session st') = legacy
      /\ exists rq more,
           trace st' = trace st1 ++ Sent rq :: more
           /\ c_method (rq_call rq) = "GET"
           /\ c_url (rq_call rq)
              = cfg_base_url legacy +:+ strip_api_pattern legacy "product_info"
  | _ =>
      result = first /\ st' = st1
      /\ config (session st') = config (session st)
  end.
Proof.
  pose proof (platform_get_rest_response env "product_info" "GET" "json" DNone
                true false false st) as (Hconfig & _).
  unfold _get_product_info_and_set_api_version, try_except.
  destruct (get_rest_response env "product_info" "GET" "json" DNone true false false
              st) as [[info|e] st1]; cbn [snd] in Hconfig.
  - repeat split. exact Hconfig.
  - destruct e; try (repeat split; exact Hconfig).
    unfold bind at 1. unfold modify_session at 1.
    fold (with_legacy_api_version set_legacy_api_version st1).
    pose proof (platform_get_rest_response env "product_info" "GET" "json" DNone
                  true false false
                  (with_legacy_api_version set_legacy_api_version st1))
      as (Hlegacy & _).
    destruct (get_rest_response_first_request env "product_info" "GET" "json" DNone
                true false false
                (with_legacy_api_version set_legacy_api_version st1)
                (0, 0, 0)%nat None
                (fun H => False_ind _ (diff_false_true H)) eq_refl)
      as [more Hmore].
    destruct (get_rest_response env "product_info" "GET" "json" DNone true false
                false (with_legacy_api_version set_legacy_api_version st1))
      as [result st'].
    cbn [snd] in Hlegacy, Hmore.
    split; [reflexivity|]. split.
    + rewrite Hlegacy. cbn. rewrite Hconfig. reflexivity.
    + eexists. exists more. split; [exact Hmore|]. split; [reflexivity|].
      cbn. rewrite Hconfig. reflexivity.
Qed.

(** ** What a request never touches *)

(** X10. Whatever the server answers, and whether the call returns or
    raises, [get_rest_response] only adds to the trace of the session (what
    was sent, slept and logged before stays as it was), and it never changes
    the bytes of a file buffer nor drops one: reading a body and rewinding
    it for a retry only move the read positions. *)
Theorem request_keeps_history_and_files (env : Env) (url method contenttype : string)
    (data : Data) (allow include text : bool) (st : State) :
  let st' :=
    (get_rest_response env url method contenttype data allow include text st).2 in
  (exists events, trace st' = trace st ++ events)
  /\ forall ref, contents <$> heap st' !! ref = contents <$> heap st !! ref.
Proof.
  split.
  - apply (preserves_get_rest_response extends _ env).
  - apply (preserves_get_rest_response same_contents _ env).
Qed.

(** ** Disposal of a session that has nothing to sign out from *)

Lemma logout_when_idle (env : Env) (verbose : bool) (st : State) :
  logged_in (session st) = false \/ use_token (session st) = true ->
  logout env verbose st
  = (Ok tt, {| session := clear_credentials (session st);
               heap := heap st; trace := trace st |}).
Proof.
  intros Hidle. unfold logout. unfold bind at 1. unfold get_session at 1.
  assert (Hno : negb (negb (logged_in (session st)) || use_token (session st))
                = false).
  { destruct Hidle as [-> | ->]; [reflexivity|].
    rewrite orb_true_r. reflexivity. }
  rewrite Hno. reflexivity.
Qed.

(** X11. [logout] on a session that is not logged in, or on a token session
    (which never is), contacts no server and does not close the connection
    pool: it returns without error, and its only effect is that the
    credential state is cleared, the session headers (with them the bearer
    token or the API key of a token session) being reset to the initial
    headers. *)
Theorem logout_without_sign_out (env : Env) (verbose : bool) (st : State) :
  logged_in (session st) = false \/ use_token (session st) = true ->
  let '(result, st') := logout env verbose st in
  result = Ok tt
  /\ trace st' = trace st
  /\ heap st' = heap st
  /\ session st' = clear_credentials (session st)
  /\ headers (session st') = INITIAL_HEADERS
  /\ _cookies (session st') = ∅.
Proof.
  intros Hidle. rewrite (logout_when_idle env verbose st Hidle).
  repeat split.
Qed.

Lemma logout_without_sign_out_witness :
  let st := Sample.start (Sample.token_session "2.0.0") in
  let '(result, st') := logout (Sample.environment Sample.unreachable) true st in
  result = Ok tt
  /\ trace st' = []
  /\ headers (session st') = INITIAL_HEADERS.
Proof.
  intros st.
  pose proof (logout_without_sign_out (Sample.environment Sample.unreachable) true st
                (or_intror eq_refl)) as H.
  destruct (logout _ _ st) as [result st'].
  destruct H as (-> & -> & _ & _ & -> & _). repeat split.
Defined.

Lemma logout_clears (env : Env) (verbose : bool) (st st' : State) :
  logout env verbose st = (Ok tt, st') ->
  exists s, session st' = clear_credentials s.
Proof.
  unfold logout. unfold bind at 1. unfold get_session at 1.
  unfold bind at 1.
  match goal with
  | |- context [(if ?b then ?m else ?m') st] =>
      destruct ((if b then m else m') st) as [[requires_closing|e] st1]
  end; [|discriminate].
  unfold bind at 1. unfold modify_session at 1.
  destruct requires_closing; cbn [when].
  - unfold try_except, close. cbn [session heap trace].
    destruct (closing env (trace st1)) as [[]|]; try discriminate;
      cbn [log emit]; intros H; injection H as <-; eexists; reflexivity.
  - unfold ret. intros H. injection H as <-. eexists; reflexivity.
Qed.

(** X12. Logging out twice is logging out once: after a [logout] that
    returned, another [logout] returns as well and changes nothing, neither
    the session nor the trace, so it sends no second sign-out call and does
    not close the connections again. *)
Theorem logout_is_idempotent (env : Env) (verbose again : bool) (st st' : State) :
  logout env verbose st = (Ok tt, st') ->
  logout env again st' = (Ok tt, st').
Proof.
  intros Hfirst.
  destruct (logout_clears env verbose st st' Hfirst) as [s Hs].
  rewrite logout_when_idle by (left; rewrite Hs; reflexivity).
  f_equal. destruct st' as [s' h tr]. cbn [session heap trace] in *.
  rewrite Hs. reflexivity.
Qed.

Lemma logout_is_idempotent_witness :
  let env := Sample.environment Sample.always_fine in
  let st1 := (logout env true (Sample.start (Sample.credential_session "1.8.0"))).2 in
  logout env true st1 = (Ok tt, st1)
  /\ length (sent (trace st1)) = 1%nat.
Proof.
  intros env st1. split; [|reflexivity].
  apply (logout_is_idempotent env true true
           (Sample.start (Sample.credential_session "1.8.0")) st1).
  vm_compute. reflexivity.
Defined.

(** X13. [__del__] never raises, whatever the server and the connection pool
    do: every exception of the logout is caught and logged at debug level.
    On a session that is not logged in, which a token session never is, it
    does nothing at all.  [__exit__] ends by closing the connection pool in
    every case, and raises only what that closing raises. *)
Theorem disposal_is_safe (env : Env) (st : State) :
  (__del__ env st).1 = Ok tt
  /\ (logged_in (session st) = false -> __del__ env st = (Ok tt, st))
  /\ let '(result, st') := __exit__ env st in
     last (trace st') = Some Closed
     /\ exists before,
          trace st' = before ++ [Closed]
          /\ result = match closing env before with
                      | None => Ok tt
                      | Some e => Raise e
                      end.
Proof.
  split; [|split].
  - unfold __del__, bind, get_session.
    destruct (logged_in (session st)); [|reflexivity].
    cbn [when]. unfold try_except.
    destruct (logout env false st) as [[[]|e] st1]; reflexivity.
  - intros Hout. unfold __del__, bind, get_session. rewrite Hout. reflexivity.
  - unfold __exit__. unfold bind at 1. unfold get_session at 1.
    unfold bind at 1.
    assert (Hquiet :
      exists st1,
        when (logged_in (session st))
          (try_except (logout env false)
             (fun e => Some (log DEBUG (ErrorWhileExiting e)))) st
        = (Ok tt, st1)).
    { destruct (logged_in (session st)); [|eexists; reflexivity].
      cbn [when]. unfold try_except.
      destruct (logout env false st) as [[[]|e] st1]; eexists; reflexivity. }
    destruct Hquiet as [st1 ->].
    unfold close. cbn [session heap trace].
    destruct (closing env (trace st1)) as [e|] eqn:Hclose; cbn [trace];
      (split; [apply last_snoc|]);
      exists (trace st1); rewrite Hclose; split; reflexivity.
Qed.

(** ** Logins that cannot start *)

Lemma authentication_service_is_stored (env : Env) (st st1 : State) (service : string) :
  authentication_service env st = (Ok service, st1) ->
  _auth_service (session st1) = Some service.
Proof.
  unfold authentication_service. unfold bind at 1. unfold get_session at 1.
  destruct (_auth_service (session st)) as [known|] eqn:Hknown.
  - unfold ret. intros H. injection H as <- <-. exact Hknown.
  - unfold bind at 1.
    destruct (request env (deployment_config_call (config (session st))) st)
      as [[w|e] st0]; [|discriminate].
    unfold bind at 1. unfold try_except. unfold bind at 1. unfold lift at 1, json.
    destruct (w_decoded w) as [document|].
    + unfold bind at 1. unfold lift at 1.
      destruct document as [| | | | |members]; cbn [dict_get]; try discriminate.
      set (info := match assoc "auth" members with
                   | Some v => v
                   | None => VDict [("type", VStr "dex")]
                   end).
      unfold ret at 1. cbv beta iota. unfold bind at 1. unfold lift at 1.
      destruct info as [| | | | |fields]; cbn [dict_get]; try discriminate.
      unfold bind, modify_session, ret. intros H. injection H as <- <-.
      reflexivity.
    + unfold bind, modify_session, ret. intros H. injection H as <- <-.
      reflexivity.
Qed.

(** X14. On a server whose authentication service is neither the legacy nor
    the modern redirect login, [authenticate] raises the [ValueError] that
    names the service as soon as the service is known: the cookie jar and
    the headers are not cleared, no login page is asked for and no
    credentials are sent; the state is the one in which the negotiation of
    the service left the session. *)
Theorem authenticate_refuses_unknown_service (env : Env) (verbose : bool)
    (st st1 : State) (service : string) :
  logged_in (session st) = false ->
  authentication_service env st = (Ok service, st1) ->
  service <> AUTHENTICATION_DEX_OLD ->
  service <> AUTHENTICATION_DEX_NEW ->
  authenticate env verbose st
  = (Raise (ValueError (UnsupportedAuthService service)), st1).
Proof.
  intros Hout Hservice Hold Hnew.
  pose proof (authentication_service_cached env st1 service
                (authentication_service_is_stored env st st1 service Hservice))
    as Hcached.
  unfold authenticate. unfold bind at 1. unfold get_session at 1. rewrite Hout.
  rewrite (bind_ok _ _ _ _ _ Hservice).
  apply String.eqb_neq in Hold, Hnew. rewrite Hold.
  unfold bind at 1. rewrite (bind_ok _ _ _ _ _ Hcached). rewrite Hnew.
  rewrite (bind_ok _ _ _ _ _ Hcached). reflexivity.
Qed.

Lemma authenticate_refuses_unknown_service_witness :
  let env :=
    Sample.environment
      (Sample.scripted []
         (Responds (Sample.json_reply 200
                      (VDict [("auth", VDict [("type", VStr "cidaas")])])))) in
  let '(result, st') :=
    authenticate env true (Sample.start (Sample.new_session None)) in
  result = Raise (ValueError (UnsupportedAuthService AUTHENTICATION_CIDAAS))
  /\ length (sent (trace st')) = 1%nat
  /\ headers (session st') = INITIAL_HEADERS.
Proof.
  intros env.
  rewrite (authenticate_refuses_unknown_service env true
             (Sample.start (Sample.new_session None))
             (authentication_service env (Sample.start (Sample.new_session None))).2
             AUTHENTICATION_CIDAAS eq_refl eq_refl
             ltac:(discriminate) ltac:(discriminate)).
  repeat split.
Defined.

(** Looking for the authentication service and for the login page changes
    neither the configuration, nor the logged-in flag, nor the headers. *)
Lemma login_page_search_keeps (env : Env) (legacy : bool) (st : State) :
  let view := fun s => (config s, logged_in s, headers s) in
  unchanged view st (authentication_service env st).2
  /\ unchanged view st (_get_initial_login_url env legacy st).2.
Proof.
  split; [apply view_authentication_service | apply view__get_initial_login_url];
    reflexivity.
Qed.

(** X15. When the search for the login page fails, [authenticate] raises
    without sending the credentials and without touching the headers, and
    the session stays logged out: an [SSLError] is raised anew as an
    [SSLError] that carries the original detail; a connection error of
    requests becomes a [ValueError], the one about dummy login details when
    the password or the user name contains "dummy", the one about the host
    otherwise; any other exception propagates unchanged. *)
Theorem login_page_failure (env : Env) (verbose : bool) (st st0 st1 : State)
    (service username password : string) (e : Exc) :
  logged_in (session st) = false ->
  authentication_service env st = (Ok service, st0) ->
  service = AUTHENTICATION_DEX_OLD \/ service = AUTHENTICATION_DEX_NEW ->
  credentials (config (session st)) = UserPassword username password ->
  _get_initial_login_url env (String.eqb service AUTHENTICATION_DEX_OLD) (cleared st0)
  = (Raise e, st1) ->
  authenticate env verbose st
  = (Raise match e with
           | SSLError _ detail => SSLError true detail
           | RequestsConnectionError _ =>
               ValueError
                 (if contains "dummy" password || contains "dummy" username
                  then DummyLoginDetails
                  else InvalidHostOrLogin (host (config (session st))))
           | _ => e
           end, st1)
  /\ logged_in (session st1) = false
  /\ headers (session st1) = headers (session st).
Proof.
  intros Hout Hservice Hkind Hcredentials Hpage.
  pose proof (authentication_service_cached env st0 service
                (authentication_service_is_stored env st st0 service Hservice))
    as Hcached.
  destruct (login_page_search_keeps env true st) as [Hkept0 _].
  rewrite Hservice in Hkept0. cbn [snd] in Hkept0.
  injection Hkept0 as Hconfig0 Hflag0 Hheaders0.
  destruct (login_page_search_keeps env
              (String.eqb service AUTHENTICATION_DEX_OLD) (cleared st0))
    as [_ Hkept1].
  rewrite Hpage in Hkept1. cbn [snd] in Hkept1.
  injection Hkept1 as Hconfig1 Hflag1 Hheaders1.
  cbn [cleared session config logged_in headers set_cookies]
    in Hconfig1, Hflag1, Hheaders1.
  assert (Hcredentials1 :
            credentials (config (session st1)) = UserPassword username password).
  { rewrite Hconfig1, Hconfig0. exact Hcredentials. }
  split; [|split; congruence].
  unfold authenticate. unfold bind at 1. unfold get_session at 1. rewrite Hout.
  rewrite (bind_ok _ _ _ _ _ Hservice).
  assert (Hlegacy :
    (if String.eqb service AUTHENTICATION_DEX_OLD then ret true
     else bind (authentication_service env)
            (fun service' =>
               if String.eqb service' AUTHENTICATION_DEX_NEW then ret false
               else bind (authentication_service env)
                      (fun service'' =>
                         raise (ValueError (UnsupportedAuthService service'')))))
      st0
    = (Ok (String.eqb service AUTHENTICATION_DEX_OLD), st0)).
  { destruct Hkind as [-> | ->]; [reflexivity|].
    cbn [String.eqb Ascii.eqb Bool.eqb AUTHENTICATION_DEX_NEW AUTHENTICATION_DEX_OLD].
    rewrite (bind_ok _ _ _ _ _ Hcached). reflexivity. }
  rewrite (bind_ok _ _ _ _ _ Hlegacy).
  unfold bind at 1. unfold modify_session at 1. fold (cleared st0).
  unfold bind at 1. unfold try_except. rewrite Hpage.
  destruct e; try reflexivity.
  unfold bind at 1. unfold config_password at 1.
  unfold bind at 1. unfold get_session at 1. rewrite Hcredentials1.
  unfold ret at 1.
  destruct (contains "dummy" password); [reflexivity|].
  unfold bind at 1. unfold config_username at 1.
  unfold bind at 1. unfold get_session at 1. rewrite Hcredentials1.
  unfold ret at 1.
  destruct (contains "dummy" username); reflexivity.
Qed.

Lemma login_page_failure_witness :
  let env := Sample.environment Sample.unreachable in
  let '(result, st') :=
    authenticate env true
      (Sample.start (Sample.new_session (Some AUTHENTICATION_DEX_NEW))) in
  result = Raise (ValueError (InvalidHostOrLogin "https://geti.example"))
  /\ logged_in (session st') = false
  /\ map (fun rq => c_method (rq_call rq)) (sent (trace st')) = ["GET"].
Proof.
  intros env.
  pose (st := Sample.start (Sample.new_session (Some AUTHENTICATION_DEX_NEW))).
  destruct (login_page_failure env true st st
              (_get_initial_login_url env false (cleared st)).2
              AUTHENTICATION_DEX_NEW "alice" "secret"
              (RequestsConnectionError "connection refused")
              eq_refl eq_refl (or_intror eq_refl) eq_refl eq_refl)
    as (Hrun & Hflag & _).
  fold st. rewrite Hrun. split; [reflexivity|]. split; [exact Hflag|].
  vm_compute. reflexivity.
Defined.

(** ** The modern login *)

(** [authenticate] up to the submission of the login form. *)
Lemma authenticate_submits (env : Env) (verbose legacy : bool) (st st1 : State)
    (login_path : option string) (username password : string) :
  logged_in (session st) = false ->
  _auth_service (session st)
  = Some (if legacy then AUTHENTICATION_DEX_OLD else AUTHENTICATION_DEX_NEW) ->
  credentials (config (session st)) = UserPassword username password ->
  _get_initial_login_url env legacy (cleared st) = (Ok login_path, st1) ->
  let st2 := ready_to_submit verbose (host (config (session st))) st1 in
  authenticate env verbose st
  = bind (post env login_path
            (DValue (VDict [("login", VStr username); ("password", VStr password)]))
            (if legacy
             then FreshCookies {[ CSRF_COOKIE_NAME := csrf_cookie (session st2) ]}
             else FreshCookies ∅)
            (Some (if legacy
                   then {[ "Cookie" := csrf_cookie (session st2) ]}
                   else VStr <$> headers (session st2)))
            true)
      (fun response =>
         bind (if legacy
               then _handle_legacy_dex_response response
               else _handle_dex_response env response)
           (fun _ =>
              bind (when verbose (log INFO AuthenticationSuccessful))
                (fun _ => modify_session (set_logged_in true)))) st2
  /\ config (session st2) = config (session st)
  /\ logged_in (session st2) = false.
Proof.
  intros Hlogged Hservice Hcredentials Hurl st2.
  destruct (login_page_search_keeps env legacy (cleared st)) as [_ Hkept].
  rewrite Hurl in Hkept. cbn [snd] in Hkept.
  injection Hkept as Hconfig Hflag _.
  cbn [cleared session config logged_in set_cookies] in Hconfig, Hflag.
  assert (Hconfig2 : config (session st2) = config (session st)).
  { unfold st2, ready_to_submit. destruct verbose; simpl; exact Hconfig. }
  assert (Hflag2 : logged_in (session st2) = false).
  { unfold st2, ready_to_submit. destruct verbose; simpl; congruence. }
  split; [|split; assumption].
  pose proof (authentication_service_cached env st _ Hservice) as Hcached.
  unfold authenticate. unfold bind at 1. unfold get_session at 1.
  rewrite Hlogged.
  rewrite (bind_ok _ _ _ _ _ Hcached).
  assert (Hlegacy :
    (if String.eqb (if legacy then AUTHENTICATION_DEX_OLD else AUTHENTICATION_DEX_NEW)
          AUTHENTICATION_DEX_OLD
     then ret true
     else bind (authentication_service env)
            (fun service' =>
               if String.eqb service' AUTHENTICATION_DEX_NEW then ret false
               else bind (authentication_service env)
                      (fun service'' =>
                         raise (ValueError (UnsupportedAuthService service'')))))
      st
    = (Ok legacy, st)).
  { destruct legacy; [reflexivity|].
    cbn [String.eqb Ascii.eqb Bool.eqb AUTHENTICATION_DEX_NEW AUTHENTICATION_DEX_OLD].
    rewrite (bind_ok _ _ _ _ _ Hcached). reflexivity. }
  rewrite (bind_ok _ _ _ _ _ Hlegacy).
  unfold bind at 1. unfold modify_session at 1. fold (cleared st).
  unfold bind at 1. unfold try_except. rewrite Hurl.
  assert (Hready :
            forall k : unit -> M unit,
              bind (modify_session (set_headers ∅))
                (fun _ =>
                   bind (headers_update "Content-Type"
                           "application/x-www-form-urlencoded")
                     (fun _ =>
                        bind (when verbose
                                (log INFO (Authenticating (host (config (session st))))))
                          k)) st1
              = k tt st2).
  { intros k. unfold st2, ready_to_submit. destruct verbose; reflexivity. }
  rewrite Hready.
  unfold bind at 1. unfold get_session at 1.
  unfold bind at 1. unfold config_username at 1.
  unfold bind at 1. unfold get_session at 1. rewrite Hconfig2, Hcredentials.
  unfold ret at 1.
  unfold bind at 1. unfold config_password at 1.
  unfold bind at 1. unfold get_session at 1. rewrite Hconfig2, Hcredentials.
  unfold ret at 1.
  destruct legacy; reflexivity.
Qed.

(** X16. How a modern login fails before any token is asked for.  When the
    login page request is not answered with a redirect, there is no login
    URL and posting the form raises [MissingSchema]; the credentials are not
    sent.  When the form is answered with status 401, the login raises the
    [ValueError] about the credentials; with any other status than 200 it
    raises a [GetiRequestException] with the method, URL and status of the
    answer and with its content and reason as the response data; with status
    200 and a URL without "code=" it fails with [IndexError].  In all these
    cases the token request is not sent and the session stays logged out. *)
Theorem modern_login_failure (env : Env) (verbose : bool) (st st1 : State)
    (login_path : option string) (username password : string) :
  logged_in (session st) = false ->
  _auth_service (session st) = Some AUTHENTICATION_DEX_NEW ->
  credentials (config (session st)) = UserPassword username password ->
  _get_initial_login_url env false (cleared st) = (Ok login_path, st1) ->
  let st2 := ready_to_submit verbose (host (config (session st))) st1 in
  logged_in (session st2) = false
  /\ match login_path with
     | None => authenticate env verbose st = (Raise MissingSchema, st2)
     | Some path =>
         let call := modern_login_call path username password (session st2) in
         forall w,
           transport env (trace st2) (request_of call [] st2) = Responds w ->
           let st3 := answered call w st2 in
           logged_in (session st3) = false
           /\ (w_status_code w = 401 ->
               authenticate env verbose st
               = (Raise (ValueError AuthenticationFailed), st3))
           /\ (w_status_code w <> 200 -> w_status_code w <> 401 ->
               authenticate env verbose st
               = (Raise (GetiRequestException
                           {| rf_method := w_request_method w;
                              rf_url := w_url w;
                              rf_status_code := w_status_code w;
                              rf_request_data := None;
                              rf_response_data :=
                                Some (VDict [("message", VStr (w_content w));
                                             ("error_code", VStr (w_reason w))]) |}),
                  st3))
           /\ (w_status_code w = 200 -> authorization_code (w_url w) = None ->
               authenticate env verbose st = (Raise IndexError, st3))
     end.
Proof.
  intros Hlogged Hservice Hcredentials Hurl st2.
  destruct (authenticate_submits env verbose false st st1 login_path username
              password Hlogged Hservice Hcredentials Hurl)
    as (Hrun & Hconfig2 & Hflag2).
  fold st2 in Hrun, Hconfig2, Hflag2.
  split; [exact Hflag2|].
  destruct login_path as [path|]; [|exact Hrun].
  intros call w Hanswer st3.
  assert (Hpost :
    post env (Some path)
      (DValue (VDict [("login", VStr username); ("password", VStr password)]))
      (FreshCookies ∅) (Some (VStr <$> headers (session st2))) true st2
    = (Ok w, st3)).
  { unfold post. fold (modern_login_call path username password (session st2)).
    apply request_responds. exact Hanswer. }
  rewrite (bind_ok _ _ _ _ _ Hpost) in Hrun.
  split; [exact Hflag2|].
  unfold _handle_dex_response in Hrun.
  split; [|split].
  - intros Hstatus. rewrite Hrun, Hstatus. reflexivity.
  - intros H200 H401. rewrite Hrun.
    apply Z.eqb_neq in H200, H401. rewrite H200, H401. reflexivity.
  - intros Hstatus Hcode. rewrite Hrun, Hstatus.
    cbn [Z.eqb Pos.eqb]. unfold authorization_code in Hcode.
    destruct (split "code=" (w_url w) !! 1%nat) as [after|]; [|reflexivity].
    rewrite Hcode. reflexivity.
Qed.

Lemma modern_login_failure_witness :
  let env :=
    Sample.environment
      (modern_server (Sample.reply 401 None None) (Sample.reply 500 None None)) in
  let '(result, st') :=
    authenticate env true
      (Sample.start (Sample.new_session (Some AUTHENTICATION_DEX_NEW))) in
  result = Raise (ValueError AuthenticationFailed)
  /\ logged_in (session st') = false
  /\ map (fun rq => c_method (rq_call rq)) (sent (trace st')) = ["GET"; "POST"].
Proof.
  intros env.
  pose (st := Sample.start (Sample.new_session (Some AUTHENTICATION_DEX_NEW))).
  destruct (modern_login_failure env true st
              (_get_initial_login_url env false (cleared st)).2
              (Some "https://geti.example/dex/auth/local/login") "alice" "secret"
              eq_refl eq_refl eq_refl eq_refl) as [_ H].
  destruct (H (Sample.reply 401 None None) eq_refl) as (Hflag & H401 & _).
  fold st. rewrite (H401 eq_refl).
  split; [reflexivity|]. split; [exact Hflag|]. vm_compute. reflexivity.
Defined.

(** X17. A modern login whose form is answered with status 200 and a URL
    that carries an authorization code posts the code to <host>/dex/token as
    an [authorization_code] grant.  When the transport raises on that
    request, the exception propagates and the session stays logged out, and
    so it does when the answer is not a JSON object.  When the answer is a
    JSON object, whatever its status, the login completes: the member
    [access_token] of the object, [None] when there is no such member,
    becomes the cookie [geti-cookie], the session is logged in, and the
    form and the token request are the two requests that were sent. *)
Theorem modern_login_token_exchange (env : Env) (verbose : bool) (st st1 : State)
    (path username password code : string) (w : WireResponse) :
  logged_in (session st) = false ->
  _auth_service (session st) = Some AUTHENTICATION_DEX_NEW ->
  credentials (config (session st)) = UserPassword username password ->
  _get_initial_login_url env false (cleared st) = (Ok (Some path), st1) ->
  let st2 := ready_to_submit verbose (host (config (session st))) st1 in
  let call := modern_login_call path username password (session st2) in
  transport env (trace st2) (request_of call [] st2) = Responds w ->
  w_status_code w = 200 ->
  authorization_code (w_url w) = Some code ->
  let st3 := answered call w st2 in
  let exchange := token_call (host (config (session st))) code in
  let '(result, st') := authenticate env verbose st in
  match transport env (trace st3) (request_of exchange [] st3) with
  | Throws e => result = Raise e /\ logged_in (session st') = false
  | Responds answer =>
      match w_decoded answer with
      | Some (VDict members) =>
          result = Ok tt
          /\ logged_in (session st') = true
          /\ _cookies (session st') !! GETI_COOKIE_NAME
             = Some (default VNone (assoc "access_token" members))
          /\ sent (trace st')
             = sent (trace st2) ++ [request_of call [] st2; request_of exchange [] st3]
      | Some _ => result = Raise AttributeError /\ logged_in (session st') = false
      | None => result = Raise RequestsJSONDecodeError
                /\ logged_in (session st') = false
      end
  end.
Proof.
  intros Hlogged Hservice Hcredentials Hurl st2 call Hanswer Hstatus Hcode st3
    exchange.
  destruct (authenticate_submits env verbose false st st1 (Some path) username
              password Hlogged Hservice Hcredentials Hurl)
    as (Hrun & Hconfig2 & Hflag2).
  fold st2 in Hrun, Hconfig2, Hflag2.
  assert (Hpost :
    post env (Some path)
      (DValue (VDict [("login", VStr username); ("password", VStr password)]))
      (FreshCookies ∅) (Some (VStr <$> headers (session st2))) true st2
    = (Ok w, st3)).
  { unfold post. fold call. apply request_responds. exact Hanswer. }
  rewrite (bind_ok _ _ _ _ _ Hpost) in Hrun.
  rewrite Hrun. clear Hrun.
  unfold _handle_dex_response. rewrite Hstatus. cbn [Z.eqb Pos.eqb].
  unfold authorization_code in Hcode.
  destruct (split "code=" (w_url w) !! 1%nat) as [after|]; [|discriminate Hcode].
  rewrite Hcode.
  unfold bind at 1. unfold bind at 1. unfold ret at 1.
  unfold bind at 1. unfold get_session at 1.
  unfold bind at 1. unfold post, request.
  change (config (session st3)) with (config (session st2)). rewrite Hconfig2.
  fold (token_call (host (config (session st))) code). fold exchange.
  cbn [read_body exchange token_call c_body].
  fold (token_call (host (config (session st))) code). fold exchange.
  destruct (transport env (trace st3) (request_of exchange [] st3)) as [answer|e].
  - unfold bind at 1. unfold lift at 1, json.
    destruct (w_decoded answer) as [document|];
      [|split; [reflexivity | exact Hflag2]].
    destruct document as [| | | | |members];
      try (split; [reflexivity | exact Hflag2]).
    unfold bind at 1. unfold lift at 1. cbn [dict_get].
    unfold bind at 1. unfold modify_session at 1.
    destruct verbose; cbn [when bind log emit modify_session fst snd session
                           trace heap logged_in set_logged_in _cookies set__cookies];
      (split; [reflexivity|]); (split; [reflexivity|]);
      (split; [apply lookup_insert_eq|]);
      cbn [st3 answered trace]; rewrite ?sent_app; cbn [sent];
      rewrite ?app_nil_r, <- ?app_assoc; reflexivity.
  - split; [reflexivity | exact Hflag2].
Qed.

Lemma modern_login_token_exchange_witness :
  let env :=
    Sample.environment
      (modern_server form_accepted
         (Sample.json_reply 200 (VDict [("access_token", VStr "jwt")]))) in
  let '(result, st') :=
    authenticate env true
      (Sample.start (Sample.new_session (Some AUTHENTICATION_DEX_NEW))) in
  result = Ok tt
  /\ logged_in (session st') = true
  /\ _cookies (session st') !! GETI_COOKIE_NAME = Some (VStr "jwt")
  /\ map (fun rq => (c_method (rq_call rq), c_url (rq_call rq))) (sent (trace st'))
     = [("GET", "https://geti.example/dex/auth/regular_users?client_id=web_ui"
                +:+ "&redirect_uri=/callback&code_challenge_method=S256"
                +:+ "&response_type=code&response_mode=query"
                +:+ "&scope=openid+profile+groups+email+offline_access");
        ("POST", "https://geti.example/dex/auth/local/login");
        ("POST", "https://geti.example/dex/token")].
Proof.
  intros env.
  pose (st := Sample.start (Sample.new_session (Some AUTHENTICATION_DEX_NEW))).
  pose proof (modern_login_token_exchange env true st
                (_get_initial_login_url env false (cleared st)).2
                "https://geti.example/dex/auth/local/login" "alice" "secret"
                "abc123" form_accepted
                eq_refl eq_refl eq_refl eq_refl eq_refl eq_refl eq_refl) as H.
  fold st. destruct (authenticate env true st) as [result st'].
  cbv beta iota zeta in H.
  match type of H with
  | match ?answer with _ => _ end =>
      let a := eval vm_compute in answer in change answer with a in H
  end.
  cbv beta iota in H.
  destruct H as (-> & -> & -> & ->).
  repeat split.
Defined.

(** ** The search for the login page *)

Lemma request_trace (env : Env) (c : Call) (st : State) :
  trace (request env c st).2
  = trace st ++ [Sent (request_of c (read_body c (heap st)).1 st)].
Proof.
  unfold request. destruct (read_body c (heap st)) as [parts heap'].
  destruct (transport env (trace st) _); reflexivity.
Qed.

Ltac nothing_sent :=
  exists []; rewrite app_nil_r;
  split; [reflexivity|]; split; [reflexivity|];
  split; [cbn; lia | intros _; reflexivity].

Lemma _follow_login_redirects_probes (env : Env) (depth : nat)
    (response : WireResponse) (legacy : bool) (st : State) :
  exists events,
    trace (_follow_login_redirects env depth response legacy st).2
    = trace st ++ events
    /\ forallb is_probe (sent events) = true
    /\ (length (sent events) <= depth)%nat
    /\ (legacy = false -> events = []).
Proof.
  revert response st. induction depth as [|depth IH]; intros response st.
  - nothing_sent.
  - cbn [_follow_login_redirects]. destruct legacy.
    + destruct (in_Z (w_status_code response) [302; 303]); [|nothing_sent].
      unfold bind at 1. unfold next_url.
      destruct (w_next_url response) as [redirect_url|]; [|nothing_sent].
      unfold ret at 1. unfold bind at 1. unfold get.
      pose proof (request_trace env
                    {| c_method := "GET"; c_url := redirect_url;
                       c_body := None; c_cookies := NoCookies;
                       c_headers := None; c_allow_redirects := Some false;
                       c_stream := false |} st) as Hsent.
      destruct (request env _ st) as [[redirected|e] st1]; cbn [snd] in Hsent.
      * unfold bind at 1.
        match goal with
        | |- context [match ?c with Some _ => _ | None => _ end st1] =>
            assert (Hstore :
              exists st2,
                match c with
                | Some c' =>
                    modify_session
                      (fun s => set__cookies
                                  (<[CSRF_COOKIE_NAME := VStr c']> (_cookies s)) s)
                | None => ret tt
                end st1 = (Ok tt, st2)
                /\ trace st2 = trace st1)
              by (destruct c; eexists; split; reflexivity)
        end.
        destruct Hstore as (st2 & -> & Hsame).
        destruct (IH redirected st2) as (events & Htrace & Hprobes & Hcount & _).
        eexists. split; [rewrite Htrace, Hsame, Hsent, <- app_assoc; reflexivity|].
        cbn [app sent forallb length].
        split; [exact Hprobes|]. split; [lia | discriminate].
      * eexists. split; [exact Hsent|].
        split; [reflexivity|]. split; [cbn; lia | discriminate].
    + destruct (in_Z (w_status_code response) [302; 303]); [|nothing_sent].
      unfold bind, next_url. destruct (w_next_url response); nothing_sent.
Qed.

(** X18. The search for the login page only looks: every request it sends
    is a GET without a body and with redirects not followed, so the
    credentials never leave the session during it.  A modern login sends
    exactly one such request.  A legacy login follows the redirects one GET
    at a time, and gives up with [RecursionError] rather than go on forever:
    it sends at most one request more than the recursion limit allows nested
    calls. *)
Theorem login_page_search_only_looks (env : Env) (legacy : bool) (st : State) :
  exists events,
    trace (_get_initial_login_url env legacy st).2 = trace st ++ events
    /\ forallb is_probe (sent events) = true
    /\ (1 <= length (sent events) <= S (recursion_limit env))%nat
    /\ (legacy = false -> length (sent events) = 1%nat).
Proof.
  unfold _get_initial_login_url. unfold bind at 1. unfold get_session at 1.
  unfold bind at 1. unfold get.
  match goal with
  | |- context [request env ?c st] =>
      pose proof (request_trace env c st) as Hsent;
      destruct (request env c st) as [[response|e] st1]
  end; cbn [snd] in Hsent.
  - destruct (_follow_login_redirects_probes env (recursion_limit env) response
                legacy st1) as (events & Htrace & Hprobes & Hcount & Hmodern).
    eexists. split; [rewrite Htrace, Hsent, <- app_assoc; reflexivity|].
    cbn [app sent forallb length].
    split; [exact Hprobes|]. split; [lia|].
    intros Hlegacy. rewrite (Hmodern Hlegacy). reflexivity.
  - eexists. split; [exact Hsent|].
    split; [reflexivity|]. split; [cbn; lia | reflexivity].
Qed.

(** ** The headers after a login *)

(** X19. A login that found its login page leaves the session with exactly
    one header, the content type of the login form, whether it then
    succeeds or fails: [authenticate] clears the session headers before it
    posts the form and nothing after that sets a header.  Whatever was in
    the headers before, the initial headers and the CSRF header of the
    request that triggered a re-authentication included, is gone. *)
Theorem login_leaves_one_header (env : Env) (verbose legacy : bool) (st st1 : State)
    (login_path : option string) (username password : string) :
  logged_in (session st) = false ->
  _auth_service (session st)
  = Some (if legacy then AUTHENTICATION_DEX_OLD else AUTHENTICATION_DEX_NEW) ->
  credentials (config (session st)) = UserPassword username password ->
  _get_initial_login_url env legacy (cleared st) = (Ok login_path, st1) ->
  headers (session (authenticate env verbose st).2)
  = {[ "Content-Type" := "application/x-www-form-urlencoded" ]}.
Proof.
  intros Hlogged Hservice Hcredentials Hurl.
  destruct (authenticate_submits env verbose legacy st st1 login_path username
              password Hlogged Hservice Hcredentials Hurl) as (-> & _ & _).
  match goal with
  | |- headers (session (?m ?st2).2) = _ =>
      assert (Hkept : preserves (unchanged headers) m)
  end.
  { apply view_bind; [apply view_post; reflexivity|]. intros response.
    apply view_bind.
    - destruct legacy;
        [ apply view__handle_legacy_dex_response
        | apply view__handle_dex_response ]; reflexivity.
    - intros _. apply view_bind; [|intros _; apply view_modify_session; reflexivity].
      apply view_when, view_emit. }
  rewrite Hkept. unfold ready_to_submit. destruct verbose; reflexivity.
Qed.

Lemma login_leaves_one_header_witness :
  let st := Sample.start (Sample.new_session (Some AUTHENTICATION_DEX_OLD)) in
  let st' :=
    (authenticate (Sample.environment Sample.legacy_server_without_cookie) true st).2 in
  headers (session st) !! "Upgrade-Insecure-Requests" = Some "1"
  /\ headers (session st') !! "Upgrade-Insecure-Requests" = None
  /\ headers (session st') !! "Content-Type"
     = Some "application/x-www-form-urlencoded".
Proof.
  intros st st'. split; [reflexivity|].
  unfold st'.
  rewrite (login_leaves_one_header
             (Sample.environment Sample.legacy_server_without_cookie) true true st
             (_get_initial_login_url
                (Sample.environment Sample.legacy_server_without_cookie) true
                (cleared st)).2
             (Some "https://geti.example/") "alice" "secret"
             eq_refl eq_refl eq_refl eq_refl).
  split; reflexivity.
Defined.

(** ** The sign-out call *)

Lemma length_append (a b : string) :
  String.length (a +:+ b) = (String.length a + String.length b)%nat.
Proof. induction a as [|c a IH]; simpl; [reflexivity | rewrite IH; reflexivity]. Qed.

Lemma substring_of_append (a b : string) :
  String.substring 0 (String.length a) (a +:+ b) = a.
Proof.
  induction a as [|c a IH]; simpl; [destruct b; reflexivity|].
  rewrite IH. reflexivity.
Qed.

Lemma slice_to_minus_append (a b : string) :
  b <> "" -> slice_to_minus (String.length b) (a +:+ b) = a.
Proof.
  intros Hb. unfold slice_to_minus.
  destruct (String.length b) as [|n] eqn:Hlen; [destruct b; [congruence | discriminate]|].
  rewrite length_append, Hlen.
  replace (String.length a + S n - S n)%nat with (String.length a) by lia.
  apply substring_of_append.
Qed.

(** A request inside a [try], followed by anything that only adds to the
    trace: the request is the first thing added. *)
Lemma request_comes_first {A B} (env : Env) (c : Call) (k1 : WireResponse -> M A)
    (h : Exc -> option (M A)) (k2 : A -> M B) (st : State) :
  (forall w, monotone (k1 w)) ->
  (forall e handler, h e = Some handler -> monotone handler) ->
  (forall a, monotone (k2 a)) ->
  exists more,
    trace (bind (try_except (bind (request env c) k1) h) k2 st).2
    = trace st ++ Sent (request_of c (read_body c (heap st)).1 st) :: more.
Proof.
  intros Hk1 Hh Hk2.
  pose proof (request_trace env c st) as Hsent.
  destruct (request env c st) as [answer st1] eqn:Hrequest. cbn [snd] in Hsent.
  assert (Hrest : bind (try_except (bind (request env c) k1) h) k2 st
                  = bind (try_except (bind (lift answer) k1) h) k2 st1).
  { unfold bind, try_except, lift. rewrite Hrequest. reflexivity. }
  assert (Hmonotone : monotone (bind (try_except (bind (lift answer) k1) h) k2)).
  { apply preserves_bind; [exact _ | | exact Hk2].
    apply preserves_try_except; [exact _ | | exact Hh].
    apply preserves_bind; [exact _ | apply preserves_lift; exact _ | exact Hk1]. }
  destruct (Hmonotone st1) as [events Hevents].
  exists events. rewrite Hrest, Hevents, Hsent, <- app_assoc. reflexivity.
Qed.

(** X20. Where [logout] signs out.  On a logged-in credential session it
    starts, whatever happens afterwards, with a GET of the sign-out URL,
    sent without a body.  When the base URL of the configuration is the
    host followed by the API pattern, that URL is <host>/oauth2/sign_out:
    cutting the pattern off the base URL gives the host back.  (An empty API
    pattern would cut everything off, since [s[:-0]] is empty.) *)
Theorem logout_signs_out_at_the_host (env : Env) (verbose : bool) (st : State)
    (origin : string) :
  logged_in (session st) = true ->
  use_token (session st) = false ->
  cfg_base_url (config (session st)) = origin +:+ api_pattern (config (session st)) ->
  exists rq more,
    trace (logout env verbose st).2 = trace st ++ Sent rq :: more
    /\ c_method (rq_call rq) = "GET"
    /\ c_body (rq_call rq) = None
    /\ c_url (rq_call rq)
       = if String.eqb (api_pattern (config (session st))) ""
         then "/oauth2/sign_out"
         else origin +:+ "/oauth2/sign_out".
Proof.
  intros Hin Htoken Hbase.
  assert (Hurl : c_url (sign_out_call (config (session st)))
                 = if String.eqb (api_pattern (config (session st))) ""
                   then "/oauth2/sign_out"
                   else origin +:+ "/oauth2/sign_out").
  { cbn [sign_out_call c_url]. unfold sign_out_url. rewrite Hbase.
    destruct (String.eqb_spec (api_pattern (config (session st))) "") as [Hempty|Hsome].
    - rewrite Hempty. reflexivity.
    - rewrite (slice_to_minus_append _ _ Hsome). reflexivity. }
  unfold logout. unfold bind at 1. unfold get_session at 1.
  rewrite Hin, Htoken. cbn [negb orb].
  match goal with
  | |- context [bind (try_except (bind (request env ?c) ?k1) ?h) ?k2 st] =>
      destruct (request_comes_first env c k1 h k2 st) as [more Hmore]
  end.
  - intros w. preserves_auto.
  - intros e handler He.
    destruct (is_RequestException env e || _); [injection He as <-; preserves_auto|].
    destruct e; try discriminate He. injection He as <-. preserves_auto.
  - intros requires_closing. preserves_auto.
  - eexists. exists more. split; [exact Hmore|].
    split; [reflexivity|]. split; [reflexivity | exact Hurl].
Qed.

Lemma logout_signs_out_at_the_host_witness :
  exists rq more,
    trace (logout (Sample.environment Sample.unreachable) true
             (Sample.start (Sample.credential_session "1.8.0"))).2
    = Sent rq :: more
    /\ c_url (rq_call rq) = "https://geti.example/oauth2/sign_out".
Proof.
  destruct (logout_signs_out_at_the_host (Sample.environment Sample.unreachable) true
              (Sample.start (Sample.credential_session "1.8.0"))
              "https://geti.example" eq_refl eq_refl eq_refl)
    as (rq & more & Htrace & _ & _ & Hurl).
  exists rq, more. split; [exact Htrace | exact Hurl].
Defined.

(** ** The authorization code in the URL of the login answer *)

Lemma append_assoc (a b c : string) : (a +:+ b) +:+ c = a +:+ (b +:+ c).
Proof.
  induction a as [|x a IH]; [reflexivity|].
  change (String x ((a +:+ b) +:+ c) = String x (a +:+ (b +:+ c))).
  rewrite IH. reflexivity.
Qed.

Lemma append_empty_r (a : string) : a +:+ "" = a.
Proof.
  induction a as [|x a IH]; [reflexivity|].
  change (String x (a +:+ "") = String x a). rewrite IH. reflexivity.
Qed.

(** Passing over the rest of a separator. *)
Lemma split_go_skips (sep passed cur rest : string) :
  split_go sep (String.length passed) cur (passed +:+ rest) = split_go sep 0 cur rest.
Proof.
  induction passed as [|x passed IH]; [reflexivity|]. simpl. exact IH.
Qed.

(** A string that starts with [sep] is [sep] followed by the rest. *)
Lemma prefix_splits (sep s : string) :
  String.prefix sep s = true -> s = sep +:+ str_drop (String.length sep) s.
Proof.
  revert s. induction sep as [|x sep IH]; intros s Hprefix; [reflexivity|].
  destruct s as [|y s]; [discriminate Hprefix|].
  cbn [String.prefix] in Hprefix.
  destruct (Ascii.ascii_dec x y) as [<-|]; [|discriminate Hprefix].
  change (String x s = String x (sep +:+ str_drop (String.length sep) s)).
  rewrite <- (IH s Hprefix). reflexivity.
Qed.

(** The pieces of [split]: the first piece is the text before the first
    separator, and the other pieces are those of the text after it. *)
Lemma split_go_pieces (y : Ascii.ascii) (tail cur s : string) :
  let sep := String y tail in
  split_go sep 0 cur s
  = (cur +:+ text_before sep s)
    :: if contains sep s then split_go sep 0 "" (text_after sep s) else [].
Proof.
  intros sep. revert cur. induction s as [|x s IH]; intros cur.
  - cbn. rewrite append_empty_r. reflexivity.
  - cbn [split_go text_before text_after contains].
    destruct (String.prefix sep (String x s)) eqn:Hprefix.
    + cbn [orb]. rewrite append_empty_r. f_equal.
      pose proof (prefix_splits sep (String x s) Hprefix) as Hs.
      set (rest := str_drop (String.length sep) (String x s)) in *.
      clearbody rest. unfold sep in Hs.
      change (String y tail +:+ rest) with (String y (tail +:+ rest)) in Hs.
      injection Hs as _ ->.
      unfold sep. cbn [String.length]. rewrite Nat.sub_succ, Nat.sub_0_r.
      apply split_go_skips.
    + cbn [orb]. rewrite IH, append_assoc. reflexivity.
Qed.

Lemma authorization_code_of (url : string) :
  authorization_code url
  = if contains "code=" url
    then Some (text_before "&" (text_before "code=" (text_after "code=" url)))
    else None.
Proof.
  unfold authorization_code, split.
  pose proof (split_go_pieces (Ascii.ascii_of_nat 99) "ode=" "" url) as Hcode.
  change (String (Ascii.ascii_of_nat 99) "ode=") with "code=" in Hcode.
  cbv zeta in Hcode. rewrite Hcode. clear Hcode.
  destruct (contains "code=" url); [|reflexivity].
  pose proof (split_go_pieces (Ascii.ascii_of_nat 99) "ode=" ""
                (text_after "code=" url)) as Hnext.
  change (String (Ascii.ascii_of_nat 99) "ode=") with "code=" in Hnext.
  cbv zeta in Hnext. rewrite Hnext. clear Hnext.
  cbn [lookup list_lookup].
  pose proof (split_go_pieces (Ascii.ascii_of_nat 38) "" ""
                ("" +:+ text_before "code=" (text_after "code=" url))) as Hamp.
  change (String (Ascii.ascii_of_nat 38) "") with "&" in Hamp.
  cbv zeta in Hamp. rewrite Hamp. reflexivity.
Qed.

Lemma request_then {A} (env : Env) (c : Call) (k : WireResponse -> M A) (st : State) :
  (forall w, monotone (k w)) ->
  exists more,
    trace (bind (request env c) k st).2
    = trace st ++ Sent (request_of c (read_body c (heap st)).1 st) :: more.
Proof.
  intros Hk. pose proof (request_trace env c st) as Hsent.
  unfold bind. destruct (request env c st) as [[w|e] st1]; cbn [snd] in Hsent.
  - destruct (Hk w st1) as [events Hevents].
    exists events. rewrite Hevents, Hsent, <- app_assoc. reflexivity.
  - exists []. exact Hsent.
Qed.

(** X21. The authorization code that a modern login exchanges for a token
    is read from the URL of the answer to the login form.  For an answer
    with status 200 whose URL contains "code=", the code is the text that
    follows the first "code=", up to the next "&", the next "code=" or the
    end of the URL, whichever comes first, and [_handle_dex_response] goes
    on by posting exactly that text to <host>/dex/token.  When the URL has
    no "code=" at all, it fails with [IndexError] and sends nothing. *)
Theorem authorization_code_is_read_from_the_url (env : Env) (w : WireResponse)
    (st : State) :
  w_status_code w = 200 ->
  if contains "code=" (w_url w)
  then
    let code :=
      text_before "&" (text_before "code=" (text_after "code=" (w_url w))) in
    exists more,
      trace (_handle_dex_response env w st).2
      = trace st
        ++ Sent (request_of (token_call (host (config (session st))) code) [] st)
        :: more
  else _handle_dex_response env w st = (Raise IndexError, st).
Proof.
  intros Hstatus.
  pose proof (authorization_code_of (w_url w)) as Hcode.
  unfold _handle_dex_response. rewrite Hstatus. cbn [Z.eqb Pos.eqb].
  unfold authorization_code in Hcode.
  destruct (contains "code=" (w_url w)).
  - destruct (split "code=" (w_url w) !! 1%nat) as [found|]; [|discriminate Hcode].
    rewrite Hcode. cbv zeta.
    set (code := text_before "&"
                   (text_before "code=" (text_after "code=" (w_url w)))).
    unfold bind at 1. unfold ret at 1.
    unfold bind at 1. unfold get_session at 1.
    unfold post. fold (token_call (host (config (session st))) code).
    apply (request_then env (token_call (host (config (session st))) code)).
    intros login_response. preserves_auto.
  - destruct (split "code=" (w_url w) !! 1%nat) as [found|]; [|reflexivity].
    rewrite Hcode. reflexivity.
Qed.

Lemma authorization_code_is_read_from_the_url_witness :
  exists more,
    trace (_handle_dex_response (Sample.environment Sample.always_fine) form_accepted
             (Sample.start (Sample.new_session (Some AUTHENTICATION_DEX_NEW)))).2
    = Sent (request_of (token_call "https://geti.example" "abc123") []
              (Sample.start (Sample.new_session (Some AUTHENTICATION_DEX_NEW))))
      :: more.
Proof.
  exact (authorization_code_is_read_from_the_url
           (Sample.environment Sample.always_fine) form_accepted
           (Sample.start (Sample.new_session (Some AUTHENTICATION_DEX_NEW)))
           eq_refl).
Defined.

(** Where the code ends: at the next "&", at the end of the URL, or at a
    second "code=" when that comes first; a "code=" after an "&" does not
    matter. *)
Example authorization_code_ends :
  authorization_code "https://geti.example/callback?code=abc123&state=xyz"
  = Some "abc123"
  /\ authorization_code "https://geti.example/callback?code=abc123" = Some "abc123"
  /\ authorization_code "https://geti.example/callback?code=abcode=d&state=xyz"
     = Some "ab"
  /\ authorization_code "https://geti.example/callback?code=a&x=1&code=b"
     = Some "a".
Proof. repeat split. Qed.

(** ** The logged-in flag *)

Section Ensures.

Context {A B : Type}.

Lemma ensures_kept (P : bool * bool -> Prop) (m : M A) :
  preserves (unchanged login_view) m -> ensures P m P P.
Proof.
  intros Hm st HP. specialize (Hm st). unfold unchanged in Hm.
  destruct (m st) as [[a|e] st']; cbn [snd] in Hm; rewrite Hm; exact HP.
Qed.

Lemma ensures_weaken (P P' Q Q' E E' : bool * bool -> Prop) (m : M A) :
  ensures P m Q E ->
  (forall v, P' v -> P v) -> (forall v, Q v -> Q' v) -> (forall v, E v -> E' v) ->
  ensures P' m Q' E'.
Proof.
  intros Hm HP HQ HE st Hst. specialize (Hm st (HP _ Hst)).
  destruct (m st) as [[a|e] st']; auto.
Qed.

Lemma ensures_strengthen (P P' : bool * bool -> Prop) {Q E : bool * bool -> Prop}
    (m : M A) :
  ensures P m Q E -> (forall v, P' v -> P v) -> ensures P' m Q E.
Proof. intros Hm HP. apply (ensures_weaken P P' Q Q E E); auto. Qed.

Lemma ensures_bind (P R Q E : bool * bool -> Prop) (m : M A) (k : A -> M B) :
  ensures P m R E -> (forall a, ensures R (k a) Q E) -> ensures P (bind m k) Q E.
Proof.
  intros Hm Hk st Hst. unfold bind. specialize (Hm st Hst).
  destruct (m st) as [[a|e] st1]; [apply Hk; exact Hm | exact Hm].
Qed.

Lemma ensures_try_except (P Q E E' : bool * bool -> Prop) (m : M A)
    (h : Exc -> option (M A)) :
  ensures P m Q E' ->
  (forall e handler, h e = Some handler -> ensures E' handler Q E) ->
  (forall v, E' v -> E v) ->
  ensures P (try_except m h) Q E.
Proof.
  intros Hm Hh Huncaught st Hst. unfold try_except. specialize (Hm st Hst).
  destruct (m st) as [[a|e] st1]; [exact Hm|].
  destruct (h e) as [handler|] eqn:He; [|apply Huncaught; exact Hm].
  apply (Hh e handler He). exact Hm.
Qed.

Lemma ensures_get_session (P Q E : bool * bool -> Prop) (k : Session -> M B) :
  (forall s, ensures (fun v => P v /\ v = login_view s) (k s) Q E) ->
  ensures P (bind get_session k) Q E.
Proof.
  intros Hk st Hst. unfold bind, get_session.
  apply (Hk (session st)). split; [exact Hst | reflexivity].
Qed.

End Ensures.

Lemma ensures_set_logged_in (b u : bool) (P E : bool * bool -> Prop) :
  (forall v, P v -> v.2 = u) ->
  ensures P (modify_session (set_logged_in b)) (fun v => v = (b, u)) E.
Proof.
  intros Hmode st Hst. cbn. unfold login_view in *. cbn.
  rewrite <- (Hmode _ Hst). reflexivity.
Qed.

(** What the login flow and the requests keep: they assign neither the
    logged-in flag nor the token mode. *)
Lemma login_view_kept (env : Env) :
  (forall c, preserves (unchanged login_view) (request env c))
  /\ preserves (unchanged login_view) (authentication_service env)
  /\ (forall legacy, preserves (unchanged login_view) (_get_initial_login_url env legacy))
  /\ (forall w, preserves (unchanged login_view) (_handle_legacy_dex_response w))
  /\ (forall w, preserves (unchanged login_view) (_handle_dex_response env w))
  /\ (forall url data cookies headers allow,
        preserves (unchanged login_view) (post env url data cookies headers allow)).
Proof.
  repeat apply conj; intros;
    first [ apply view_request | apply view_authentication_service
          | apply view__get_initial_login_url
          | apply view__handle_legacy_dex_response
          | apply view__handle_dex_response | apply view_post ]; reflexivity.
Qed.

(** [authenticate] returns with the session logged in and raises with the
    session logged out; it never changes the token mode. *)
Lemma ensures_authenticate (env : Env) (verbose u : bool) :
  ensures (fun v => v.2 = u) (authenticate env verbose)
    (fun v => v = (true, u)) (fun v => v = (false, u)).
Proof.
  destruct (login_view_kept env)
    as (Hrequest & Hservice & Hpage & Hlegacy & Hmodern & Hpost).
  unfold authenticate. apply ensures_get_session. intros s.
  destruct (logged_in s) eqn:Hin.
  - intros st [Hmode Hview]. cbn. unfold login_view in *. cbn.
    rewrite Hview in *. cbn in *. rewrite Hin, Hmode. reflexivity.
  - apply (ensures_strengthen (fun v => v = (false, u))).
    2:{ intros v [Hv ->]. unfold login_view in *. cbn in *.
        rewrite Hin, Hv. reflexivity. }
    assert (Hkeep : forall {X} (m : M X),
               preserves (unchanged login_view) m ->
               ensures (fun v => v = (false, u)) m (fun v => v = (false, u)) (fun v => v = (false, u)))
      by (intros X m Hm; apply ensures_kept; exact Hm).
    apply (ensures_bind _ (fun v => v = (false, u))); [apply Hkeep, Hservice|].
    intros service.
    apply (ensures_bind _ (fun v => v = (false, u))).
    { apply Hkeep.
      destruct (String.eqb service AUTHENTICATION_DEX_OLD); [apply view_ret|].
      apply view_bind; [exact Hservice|]. intros service'.
      destruct (String.eqb service' AUTHENTICATION_DEX_NEW); [apply view_ret|].
      apply view_bind; [exact Hservice | intros; apply view_raise]. }
    intros use_legacy_dex.
    apply (ensures_bind _ (fun v => v = (false, u)));
      [apply Hkeep, view_modify_session; reflexivity|]. intros _.
    apply (ensures_bind _ (fun v => v = (false, u))).
    { apply Hkeep. apply view_try_except; [apply Hpage|].
      intros e handler He. destruct e; try discriminate He;
        injection He as <-; [apply view_raise|].
      unfold config_password, config_username.
      repeat first [ apply view_bind; [|intros ?] | apply view_get_session
                   | apply view_ret | apply view_raise
                   | match goal with
                     | |- preserves _ (match ?x with _ => _ end) => destruct x
                     | |- preserves _ (if ?b then _ else _) => destruct b
                     end ]. }
    intros login_path.
    apply (ensures_bind _ (fun v => v = (false, u)));
      [apply Hkeep, view_modify_session; reflexivity|]. intros _.
    apply (ensures_bind _ (fun v => v = (false, u)));
      [apply Hkeep, view_modify_session; reflexivity|]. intros _.
    apply (ensures_bind _ (fun v => v = (false, u)));
      [apply Hkeep, view_when, view_emit|]. intros _.
    apply ensures_get_session. intros s1.
    apply (ensures_strengthen (fun v => v = (false, u))); [|intros v [Hv _]; exact Hv].
    apply (ensures_bind _ (fun v => v = (false, u))).
    { apply Hkeep. unfold config_username.
      apply view_bind; [apply view_get_session|]. intros ?.
      destruct (credentials _); [apply view_ret | apply view_raise]. }
    intros username.
    apply (ensures_bind _ (fun v => v = (false, u))).
    { apply Hkeep. unfold config_password.
      apply view_bind; [apply view_get_session|]. intros ?.
      destruct (credentials _); [apply view_ret | apply view_raise]. }
    intros password.
    apply (ensures_bind _ (fun v => v = (false, u))); [apply Hkeep, Hpost|].
    intros response.
    apply (ensures_bind _ (fun v => v = (false, u))).
    { apply Hkeep. destruct use_legacy_dex; [apply Hlegacy | apply Hmodern]. }
    intros _.
    apply (ensures_bind _ (fun v => v = (false, u)));
      [apply Hkeep, view_when, view_emit|]. intros _.
    apply ensures_set_logged_in. intros v ->. reflexivity.
Qed.

(** One step of a proof that a computation keeps a given part of the
    session, for a part that the setters of the computation do not touch. *)
Ltac kept_step :=
  match goal with
  | |- preserves (unchanged _) (bind _ _) => apply view_bind; [|intros ?]
  | |- preserves (unchanged _) (ret _) => apply view_ret
  | |- preserves (unchanged _) (raise _) => apply view_raise
  | |- preserves (unchanged _) (lift _) => apply view_lift
  | |- preserves (unchanged _) get_session => apply view_get_session
  | |- preserves (unchanged _) (modify_session _) =>
      apply view_modify_session; reflexivity
  | |- preserves (unchanged _) (headers_update _ _) =>
      apply view_modify_session; reflexivity
  | |- preserves (unchanged _) (headers_pop _) =>
      apply view_modify_session; reflexivity
  | |- preserves (unchanged _) (emit _) => apply view_emit
  | |- preserves (unchanged _) (log _ _) => apply view_emit
  | |- preserves (unchanged _) (when _ _) => apply view_when
  | |- preserves (unchanged _) (request _ _) => apply view_request; reflexivity
  | |- preserves (unchanged _) (close _) => apply view_close
  | |- preserves (unchanged _) (seek_start _) => apply view_seek_start
  | |- preserves (unchanged _) (rewind _) => apply view_rewind
  | |- preserves (unchanged _) (try_except _ _) =>
      apply view_try_except; [|intros ? ? ?]
  | H : Some _ = Some ?h |- preserves _ ?h => injection H as <-
  | H : None = Some ?h |- preserves _ ?h => discriminate H
  | H : context [match ?x with _ => _ end] |- preserves _ _ => destruct x; simpl in H
  | |- preserves _ (if ?b then _ else _) => destruct b
  | |- preserves _ (match ?x with _ => _ end) => destruct x
  end.

Section EnsuredByDispatcher.

Variable env : Env.
Variables acquire organization : M Value.

(** [I] holds between requests and [J] is what an exception may leave. *)
Variables I J : bool * bool -> Prop.
Hypothesis I_J : forall v, I v -> J v.
Hypothesis ensures_reauthenticate : ensures J (reauthenticate env acquire) I J.
Hypothesis ensures_organization : ensures I organization I J.

Lemma ensures_step {X} (m : M X) :
  preserves (unchanged login_view) m -> ensures I m I J.
Proof.
  intros Hm. apply (ensures_weaken I I I I I J); auto. apply ensures_kept, Hm.
Qed.

Lemma ensures_decide_retry response allow :
  ensures I (decide_retry env acquire response allow) I J.
Proof.
  unfold decide_retry.
  destruct (in_Z (status_code response) [200; 401] && allow).
  - apply (ensures_bind I I);
      [|intros; apply ensures_step; apply view_ret].
    apply (ensures_strengthen J); [exact ensures_reauthenticate | exact I_J].
  - apply ensures_step. repeat kept_step.
Qed.

Lemma ensures__handle_error_response_with response request_params request_data
    allow content_type :
  ensures I
    (_handle_error_response_with env acquire response request_params request_data
       allow content_type) I J.
Proof.
  unfold _handle_error_response_with.
  apply (ensures_bind I I); [apply ensures_decide_retry|]. intros retry_request.
  apply ensures_step.
  unfold retry, prepare_retry, report_failure, _update_headers_for_content_type,
    rewind_files.
  repeat kept_step.
Qed.

Lemma ensures_get_rest_response_with url method contenttype data allow include text :
  ensures I
    (get_rest_response_with env acquire organization url method contenttype data
       allow include text) I J.
Proof.
  unfold get_rest_response_with.
  apply ensures_get_session. intros s.
  apply (ensures_strengthen I); [|intros v [Hv _]; exact Hv].
  apply (ensures_bind I I).
  { apply ensures_step. unfold _update_headers_for_content_type. repeat kept_step. }
  intros _.
  apply (ensures_bind I I).
  { destruct (negb include); [apply ensures_step, view_ret|].
    apply (ensures_bind I I); [exact ensures_organization|].
    intros o. apply ensures_step, view_ret. }
  intros without_organization.
  apply (ensures_bind I I).
  { destruct without_organization; [apply ensures_step, view_ret|].
    apply (ensures_bind I I); [|intros b; apply ensures_step, view_ret].
    unfold base_url_with.
    apply (ensures_bind I I); [apply ensures_step; unfold version; repeat kept_step|].
    intros v. apply ensures_get_session. intros s0.
    apply (ensures_strengthen I); [|intros w [Hw _]; exact Hw].
    destruct (version_le v (GETI_18_VERSION env)); [apply ensures_step, view_ret|].
    apply (ensures_bind I I); [exact ensures_organization|].
    intros o. apply ensures_step, view_ret. }
  intros requesturl.
  apply (ensures_bind I I); [apply ensures_step; repeat kept_step|].
  intros kw_data_arg.
  apply ensures_get_session. intros s1.
  apply (ensures_strengthen I); [|intros v [Hv _]; exact Hv].
  apply (ensures_bind I I); [apply ensures_step; repeat kept_step|]. intros _.
  apply (ensures_bind I I).
  { apply ensures_step. apply view_try_except; [repeat kept_step|].
    intros e handler He.
    destruct e; try discriminate He; try (injection He as <-; apply view_raise).
    destruct args as [|first rest]; [injection He as <-; apply view_raise|].
    destruct (value_eq_str first _); injection He as <-;
      [apply view_ret | apply view_raise]. }
  intros response.
  apply (ensures_bind I I).
  { destruct (negb _ || _); [|apply ensures_step, view_ret].
    destruct (negb _); [|apply ensures_step, view_ret].
    apply ensures__handle_error_response_with. }
  intros response'. apply ensures_step. repeat kept_step.
Qed.

End EnsuredByDispatcher.

Lemma ensures_reauthenticate_with_credentials (env : Env) (acquire : M Value) :
  ensures credential_mode (reauthenticate env acquire)
    logged_in_with_credentials credential_mode.
Proof.
  unfold reauthenticate.
  apply (ensures_bind _ credential_mode); [apply ensures_kept, view_emit|].
  intros _.
  apply (ensures_bind _ (fun v => v = (false, false)));
    [apply ensures_set_logged_in; auto|].
  intros _. apply ensures_get_session. intros s.
  destruct (use_token s) eqn:Htoken.
  { intros st [Hst Hs]. rewrite Hst in Hs. unfold login_view in Hs.
    rewrite Htoken in Hs. discriminate Hs. }
  cbn [negb].
  apply (ensures_bind _ logged_in_with_credentials).
  - apply (ensures_weaken (fun v => v.2 = false) _ (fun v => v = (true, false)) _
             (fun v => v = (false, false)) _ _ (ensures_authenticate env false false)).
    + intros v [-> _]. reflexivity.
    + auto.
    + intros v ->. reflexivity.
  - intros _.
    apply (ensures_weaken _ _ _ _ _ _ _
             (ensures_kept logged_in_with_credentials _ (view_emit _ _))); auto.
    intros v ->. reflexivity.
Qed.

Lemma ensures_reauthenticate_with_token (env : Env) (acquire : M Value) :
  ensures token_mode acquire token_mode token_mode ->
  ensures token_mode (reauthenticate env acquire) token_mode token_mode.
Proof.
  intros Hacquire. unfold reauthenticate.
  apply (ensures_bind _ token_mode); [apply ensures_kept, view_emit|].
  intros _.
  apply (ensures_bind _ token_mode).
  { apply (ensures_set_logged_in false true). intros v ->. reflexivity. }
  intros _. apply ensures_get_session. intros s.
  destruct (use_token s) eqn:Htoken.
  2:{ intros st [Hst Hs]. rewrite Hst in Hs. unfold login_view in Hs.
      rewrite Htoken in Hs. discriminate Hs. }
  cbn [negb].
  apply (ensures_strengthen token_mode); [|intros v [Hv _]; exact Hv].
  apply (ensures_bind _ token_mode); [exact Hacquire|]. intros access_token.
  apply ensures_kept. repeat kept_step.
Qed.

Section EnsuredBySession.

Variable env : Env.
Variables I J : bool * bool -> Prop.
Hypothesis I_J : forall v, I v -> J v.
Hypothesis ensures_reauthenticate :
  forall acquire, ensures I acquire I J -> ensures J (reauthenticate env acquire) I J.

Lemma ensures_not_called : ensures I not_called I J.
Proof. intros st Hst. cbn. apply I_J, Hst. Qed.

Lemma ensures__acquire_access_token : ensures I (_acquire_access_token env) I J.
Proof.
  unfold _acquire_access_token. apply ensures_get_session. intros s.
  apply (ensures_strengthen I); [|intros v [Hv _]; exact Hv].
  apply (ensures_bind _ I).
  { apply ensures_step; [exact I_J|]. unfold config_token. repeat kept_step. }
  intros token.
  apply (ensures_bind _ I).
  { apply (ensures_try_except I I J J).
    - apply ensures_get_rest_response_with; auto using ensures_not_called.
    - intros e handler He. destruct e; try discriminate He.
      destruct (rf_status_code _ =? 401); [|discriminate He].
      injection He as <-. intros st Hst. exact Hst.
    - auto. }
  intros response.
  apply ensures_step; [exact I_J|]. repeat kept_step.
Qed.

Lemma ensures__get_organization_id : ensures I (_get_organization_id env) I J.
Proof.
  unfold _get_organization_id.
  apply (ensures_bind _ I).
  { apply ensures_step; [exact I_J|]. unfold version. repeat kept_step. }
  intros v.
  apply (ensures_bind _ I); [|intros; apply ensures_step; [exact I_J|]; repeat kept_step].
  destruct (version_lt v (GETI_114_VERSION env));
    [apply ensures_step; [exact I_J | apply view_ret]|].
  apply (ensures_bind _ I).
  - apply ensures_get_rest_response_with;
      auto using ensures_not_called, ensures__acquire_access_token.
  - intros result. apply ensures_step; [exact I_J|]. repeat kept_step.
Qed.

Lemma ensures_organization_id : ensures I (organization_id env) I J.
Proof.
  unfold organization_id. apply ensures_get_session. intros s.
  apply (ensures_strengthen I); [|intros v [Hv _]; exact Hv].
  destruct (is_None (_organization_id s));
    [|apply ensures_step; [exact I_J | apply view_ret]].
  apply (ensures_bind _ I); [apply ensures__get_organization_id|].
  intros o. apply ensures_step; [exact I_J|]. repeat kept_step.
Qed.

Lemma ensures_get_rest_response url method contenttype data allow include text :
  ensures I (get_rest_response env url method contenttype data allow include text) I J.
Proof.
  apply ensures_get_rest_response_with;
    auto using ensures_organization_id, ensures__acquire_access_token.
Qed.

End EnsuredBySession.

(** X22.  A session that authenticates with a personal access token is never
    logged in: whatever a request does, renewing the token included, and
    whether it returns or raises, it leaves [logged_in] False and the
    session in token mode.  The same holds for reading the organization
    id and for acquiring a token. *)
Theorem token_session_is_never_logged_in (env : Env)
    (url method contenttype : string) (data : Data)
    (allow_reauthentication include_organization_id allow_text_response : bool)
    (st : State)
    (Htoken : use_token (session st) = true)
    (Hflag : logged_in (session st) = false) :
  login_view
    (session (get_rest_response env url method contenttype data
                allow_reauthentication include_organization_id
                allow_text_response st).2) = (false, true)
  /\ login_view (session (organization_id env st).2) = (false, true)
  /\ login_view (session (_acquire_access_token env st).2) = (false, true).
Proof.
  assert (Hre : forall acquire,
             ensures token_mode acquire token_mode token_mode ->
             ensures token_mode (reauthenticate env acquire) token_mode token_mode)
    by (intros acquire; apply ensures_reauthenticate_with_token).
  assert (Hst : token_mode (login_view (session st)))
    by (unfold token_mode, login_view; rewrite Htoken, Hflag; reflexivity).
  assert (Hrun : forall {X} (m : M X),
             ensures token_mode m token_mode token_mode ->
             login_view (session (m st).2) = (false, true)).
  { intros X m Hm. specialize (Hm st Hst).
    destruct (m st) as [[a|e] st']; exact Hm. }
  split; [|split]; apply Hrun.
  - apply (ensures_get_rest_response env token_mode token_mode); auto.
  - apply (ensures_organization_id env token_mode token_mode); auto.
  - apply (ensures__acquire_access_token env token_mode token_mode); auto.
Qed.

Lemma token_session_is_never_logged_in_witness :
  login_view
    (session (get_rest_response (Sample.environment Sample.expired_then_fine)
                "projects" "GET" "json" DNone true true false
                (Sample.start (Sample.token_session "2.0.0"))).2)
  = (false, true).
Proof.
  exact (proj1 (token_session_is_never_logged_in
                  (Sample.environment Sample.expired_then_fine)
                  "projects" "GET" "json" DNone true true false
                  (Sample.start (Sample.token_session "2.0.0")) eq_refl eq_refl)).
Defined.

(** X23.  A session that authenticates with a user name and a password and
    is logged in is still logged in when a request returns, also when the
    request logged in again on the way; when the request raises, the session
    is still in credential mode.  The same holds for reading the
    organization id. *)
Theorem credential_session_stays_logged_in (env : Env)
    (url method contenttype : string) (data : Data)
    (allow_reauthentication include_organization_id allow_text_response : bool)
    (st : State)
    (Hmode : use_token (session st) = false)
    (Hflag : logged_in (session st) = true) :
  logged_in_on_return
    (get_rest_response env url method contenttype data allow_reauthentication
       include_organization_id allow_text_response st)
  /\ logged_in_on_return (organization_id env st).
Proof.
  assert (Hre : forall acquire,
             ensures logged_in_with_credentials acquire
               logged_in_with_credentials credential_mode ->
             ensures credential_mode (reauthenticate env acquire)
               logged_in_with_credentials credential_mode)
    by (intros acquire _; apply ensures_reauthenticate_with_credentials).
  assert (Hweak : forall v, logged_in_with_credentials v -> credential_mode v)
    by (intros v ->; reflexivity).
  assert (Hst : logged_in_with_credentials (login_view (session st)))
    by (unfold logged_in_with_credentials, login_view; rewrite Hmode, Hflag;
        reflexivity).
  assert (Hrun : forall {X} (m : M X),
             ensures logged_in_with_credentials m
               logged_in_with_credentials credential_mode ->
             logged_in_on_return (m st)).
  { intros X m Hm. specialize (Hm st Hst). unfold logged_in_on_return.
    destruct (m st) as [[a|e] st']; cbn [fst snd].
    - unfold logged_in_with_credentials, login_view in Hm.
      injection Hm as -> ->. split; reflexivity.
    - split; [exact Hm | exact Logic.I]. }
  split; apply Hrun.
  - apply (ensures_get_rest_response env _ _ Hweak Hre).
  - apply (ensures_organization_id env _ _ Hweak Hre).
Qed.

Lemma credential_session_stays_logged_in_witness :
  let run :=
    get_rest_response (Sample.environment Sample.expired_then_login)
      "projects" "GET" "json" DNone true true false
      (Sample.start (Sample.credential_session "1.8.0")) in
  run.1 = Ok (Decoded (VDict []))
  /\ map (fun rq => c_method (rq_call rq)) (sent (trace run.2))
     = ["GET"; "GET"; "POST"; "GET"]
  /\ logged_in (session run.2) = true
  /\ use_token (session run.2) = false.
Proof.
  intros run.
  assert (Hreturned : run.1 = Ok (Decoded (VDict []))) by (vm_compute; reflexivity).
  destruct (proj1 (credential_session_stays_logged_in
                     (Sample.environment Sample.expired_then_login)
                     "projects" "GET" "json" DNone true true false
                     (Sample.start (Sample.credential_session "1.8.0"))
                     eq_refl eq_refl)) as [Hmode Hflag].
  fold run in Hmode, Hflag. rewrite Hreturned in Hflag.
  split; [exact Hreturned|]. split; [vm_compute; reflexivity|].
  split; [exact Hflag | exact Hmode].
Defined.

(** X24.  After [authenticate] the session is logged in exactly when the
    call returned: it returns only with [logged_in] True, and when it
    raises the flag is False.  The token mode is never changed. *)
Theorem authenticate_sets_the_flag_on_return (env : Env) (verbose : bool)
    (st : State) :
  let '(result, st') := authenticate env verbose st in
  logged_in (session st') = (if result is Ok _ then true else false)
  /\ use_token (session st') = use_token (session st).
Proof.
  pose proof (ensures_authenticate env verbose (use_token (session st)) st eq_refl)
    as H.
  destruct (authenticate env verbose st) as [[a|e] st'];
    unfold login_view in H; injection H as -> ->; split; reflexivity.
Qed.

(** ** The constructor *)

Lemma bind_returns {A B} (m : M A) (k : A -> M B) (st st' : State) (b : B) :
  bind m k st = (Ok b, st') ->
  exists a st1, m st = (Ok a, st1) /\ k a st1 = (Ok b, st').
Proof.
  unfold bind. destruct (m st) as [[a|e] st1]; [|discriminate].
  intros H. exists a, st1. split; [reflexivity | exact H].
Qed.

(** X25.  A session whose constructor returned knows its platform version
    and its organization: the product info it stored yields a version, and
    the organization id it stored is not None.  So every later request may
    include the organization without looking it up. *)
Theorem constructor_stores_version_and_organization (env : Env)
    (set_legacy_api_version : Config -> Config)
    (default_headers : gmap string string) (server_config : Config)
    (st st' : State) :
  __init__ env set_legacy_api_version default_headers server_config st
  = (Ok tt, st') ->
  exists v,
    version_of env (session st') = Ok v
    /\ is_None (_organization_id (session st')) = false
    /\ forall include, organization_known env (session st') v include.
Proof.
  unfold __init__. intros H.
  apply bind_returns in H as (? & st1 & _ & H).
  apply bind_returns in H as (? & st2 & _ & H).
  apply bind_returns in H as (product_info & st3 & _ & H).
  apply bind_returns in H as (? & st4 & Hstore & H).
  apply bind_returns in H as (o & st5 & Hlookup & H).
  injection H as <-. cbn [session].
  pose proof (_get_organization_id_is_not_None env st4 st5 o Hlookup) as Hnone.
  pose proof (view__get_organization_id _product_info
                ltac:(reflexivity) ltac:(reflexivity) ltac:(reflexivity)
                ltac:(reflexivity) ltac:(reflexivity) env st4) as Hinfo.
  rewrite Hlookup in Hinfo. unfold unchanged in Hinfo. cbn [snd] in Hinfo.
  unfold _get_organization_id in Hlookup.
  apply bind_returns in Hlookup as (v & st4' & Hversion & _).
  unfold version, bind, get_session, lift in Hversion.
  destruct (version_of env (session st4)) as [v'|e] eqn:Hv; [|discriminate].
  injection Hversion as -> _.
  assert (Hv5 : version_of env (set__organization_id o (session st5)) = Ok v).
  { unfold version_of in *. cbn [_product_info set__organization_id].
    rewrite Hinfo. exact Hv. }
  exists v. split; [exact Hv5|]. split; [exact Hnone|].
  intros include _. split; [exact Hnone | exact Hv5].
Qed.

Lemma constructor_stores_version_and_organization_witness :
  let run :=
    __init__ (Sample.environment platform_for_token) (fun c => c) requests_headers
      Sample.token_config (Sample.start (Sample.new_session None)) in
  run.1 = Ok tt
  /\ version_of (Sample.environment platform_for_token) (session run.2)
     = Ok (2, 0, 0)%nat
  /\ _organization_id (session run.2) = VStr "org-1"
  /\ exists v, organization_known (Sample.environment platform_for_token)
                 (session run.2) v true.
Proof.
  intros run.
  assert (Hrun : run = (Ok tt, run.2)) by (vm_compute; reflexivity).
  split; [rewrite Hrun; reflexivity|].
  split; [vm_compute; reflexivity|].
  split; [vm_compute; reflexivity|].
  destruct (constructor_stores_version_and_organization
              (Sample.environment platform_for_token) (fun c => c) requests_headers
              Sample.token_config (Sample.start (Sample.new_session None)) run.2
              Hrun)
    as (v & _ & _ & Hknown).
  exists v. apply Hknown.
Defined.

Section EnsuredByConstructor.

Variable env : Env.
Variable set_legacy_api_version : Config -> Config.
Variable K : bool * bool -> Prop.
Hypothesis ensures_reauthenticate :
  forall acquire, ensures K acquire K K -> ensures K (reauthenticate env acquire) K K.

Lemma ensures__get_product_info_and_set_api_version :
  ensures K (_get_product_info_and_set_api_version env set_legacy_api_version) K K.
Proof.
  assert (Hrequest :
            ensures K (get_rest_response env "product_info" "GET" "json" DNone
                         true false false) K K)
    by (apply ensures_get_rest_response; auto).
  unfold _get_product_info_and_set_api_version.
  apply (ensures_try_except K K K K); [exact Hrequest| |auto].
  intros e handler He. destruct e; try discriminate He. injection He as <-.
  apply (ensures_bind _ K); [|intros _; exact Hrequest].
  apply ensures_kept, view_modify_session. reflexivity.
Qed.

Lemma ensures_get_server_version :
  ensures K
    (let* product_info :=
       _get_product_info_and_set_api_version env set_legacy_api_version in
     modify_session (set__product_info (product_info_of product_info)) ;;
     let* o := _get_organization_id env in
     modify_session (set__organization_id o)) K K.
Proof.
  apply (ensures_bind _ K); [apply ensures__get_product_info_and_set_api_version|].
  intros product_info.
  apply (ensures_bind _ K);
    [apply ensures_kept, view_modify_session; reflexivity|].
  intros _.
  apply (ensures_bind _ K); [apply ensures__get_organization_id; auto|].
  intros o. apply ensures_kept, view_modify_session. reflexivity.
Qed.

End EnsuredByConstructor.

(** X26.  The constructor takes the token mode from the kind of the
    configuration: a session constructed from a user name and a password is
    not in token mode, and one constructed from a personal access token is
    in token mode and not logged in. *)
Theorem constructor_sets_the_token_mode (env : Env)
    (set_legacy_api_version : Config -> Config)
    (default_headers : gmap string string) (server_config : Config)
    (st st' : State) :
  __init__ env set_legacy_api_version default_headers server_config st
  = (Ok tt, st') ->
  match credentials server_config with
  | UserPassword _ _ => use_token (session st') = false
  | PersonalToken _ => login_view (session st') = (false, true)
  end.
Proof.
  intros Hrun.
  assert (Hinit :
            ensures (fun _ => True)
              (__init__ env set_legacy_api_version default_headers server_config)
              (fun v => match credentials server_config with
                        | UserPassword _ _ => v.2 = false
                        | PersonalToken _ => v = (false, true)
                        end)
              (fun _ => True)).
  { unfold __init__. destruct (credentials server_config) as [username password|token].
    - apply (ensures_bind _ credential_mode); [intros st0 _; reflexivity|].
      intros _.
      apply (ensures_weaken credential_mode _ credential_mode _ credential_mode);
        auto.
      apply (ensures_bind _ credential_mode).
      + apply (ensures_bind _ credential_mode).
        * apply (ensures_weaken _ _ _ _ _ _ _ (ensures_authenticate env true false));
            auto; intros v ->; reflexivity.
        * intros _ st0 Hst0. reflexivity.
      + intros _. apply ensures_get_server_version.
        intros acquire _.
        apply (ensures_weaken _ _ _ _ _ _ _
                 (ensures_reauthenticate_with_credentials env acquire)); auto.
        intros v ->. reflexivity.
    - apply (ensures_bind _ (fun v => v.1 = false)); [intros st0 _; reflexivity|].
      intros _.
      apply (ensures_bind _ token_mode).
      + apply (ensures_bind _ token_mode).
        { intros st0 Hst0. cbn. unfold token_mode, login_view in *. cbn in *.
          rewrite Hst0. reflexivity. }
        intros _.
        apply (ensures_weaken token_mode _ token_mode _ token_mode); auto.
        apply (ensures_bind _ token_mode).
        { apply ensures_kept, view_authentication_service; reflexivity. }
        intros service.
        apply (ensures_bind _ token_mode).
        { destruct (String.eqb service AUTHENTICATION_DEX_OLD).
          - apply (ensures_bind _ token_mode).
            + apply (ensures__acquire_access_token env token_mode token_mode); auto.
              intros acquire. apply ensures_reauthenticate_with_token.
            + intros access_token. apply ensures_kept. repeat kept_step.
          - apply ensures_kept. repeat kept_step. }
        intros _. apply ensures_kept. unfold headers_pop_or_raise.
        repeat kept_step.
      + intros _.
        apply (ensures_weaken token_mode _ token_mode _ token_mode); auto.
        apply ensures_get_server_version.
        intros acquire. apply ensures_reauthenticate_with_token. }
  specialize (Hinit st Logic.I). rewrite Hrun in Hinit.
  destruct (credentials server_config); exact Hinit.
Qed.

Lemma constructor_sets_the_token_mode_witness :
  let run :=
    __init__ (Sample.environment platform_for_credentials) (fun c => c)
      requests_headers Sample.credential_config
      (Sample.start (Sample.new_session None)) in
  run.1 = Ok tt
  /\ logged_in (session run.2) = true
  /\ use_token (session run.2) = false.
Proof.
  intros run.
  assert (Hrun : run = (Ok tt, run.2)) by (vm_compute; reflexivity).
  split; [rewrite Hrun; reflexivity|].
  split; [vm_compute; reflexivity|].
  exact (constructor_sets_the_token_mode
           (Sample.environment platform_for_credentials) (fun c => c)
           requests_headers Sample.credential_config
           (Sample.start (Sample.new_session None)) run.2 Hrun).
Defined.

(** ** Retrying a multipart request *)

Lemma prepared_heap (method contenttype : string) (st : State) :
  heap (prepared method contenttype st) = heap st.
Proof. rewrite prepared_session. reflexivity. Qed.

Lemma read_body_file_parts (c : Call) (h : gmap nat Buffer) :
  (read_body c h).1 = (read_parts (file_parts c) h).1.
Proof.
  unfold read_body, file_parts.
  destruct (c_body c) as [[[] []]|]; reflexivity.
Qed.

(** Rewinding makes the reading independent of where the files stood: two
    heaps with the same bytes read the same once they are rewound. *)
Lemma rewound_parts_of_same_contents (parts : list (string * Part))
    (h h' : gmap nat Buffer) :
  (forall ref, contents <$> h' !! ref = contents <$> h !! ref) ->
  (read_parts parts (rewind_heap parts h')).1
  = (read_parts parts (rewind_heap parts h)).1.
Proof.
  intros Hsame. apply read_parts_agree. intros ref Href.
  rewrite !rewind_heap_lookup, Href. specialize (Hsame ref).
  destruct (h' !! ref) as [[bytes' offset']|], (h !! ref) as [[bytes offset]|];
    try discriminate Hsame; [|reflexivity].
  injection Hsame as ->. reflexivity.
Qed.

(** Rewinding changes nothing for files that stand at their start. *)
Lemma offset_at_start (parts : list (string * Part)) (h : gmap nat Buffer)
    (ref : nat) (buf : Buffer) :
  Forall (fun o => o.2 = 0%nat) (part_offsets parts h) ->
  mentions parts ref = true ->
  h !! ref = Some buf ->
  position buf = 0%nat.
Proof.
  intros Hzero Href Hbuf.
  induction parts as [|[name part] parts IH]; [discriminate Href|].
  destruct part as [r|blob]; cbn [mentions existsb snd part_offsets] in *.
  - destruct (Nat.eqb r ref) eqn:Hr.
    + apply Nat.eqb_eq in Hr as ->. rewrite Hbuf in Hzero.
      inversion Hzero as [|? ? Hhere _]. exact Hhere.
    + apply IH; [|exact Href].
      destruct (h !! r); [inversion Hzero; assumption | exact Hzero].
  - apply IH; assumption.
Qed.

Lemma rewound_parts_at_start (parts : list (string * Part)) (h : gmap nat Buffer) :
  Forall (fun o => o.2 = 0%nat) (part_offsets parts h) ->
  (read_parts parts (rewind_heap parts h)).1 = (read_parts parts h).1.
Proof.
  intros Hzero. apply read_parts_agree. intros ref Href.
  rewrite rewind_heap_lookup, Href.
  destruct (h !! ref) as [[bytes offset]|] eqn:Hbuf; [|reflexivity].
  pose proof (offset_at_start parts h ref _ Hzero Href Hbuf) as Hoffset.
  cbn [position] in Hoffset. subst offset. reflexivity.
Qed.

(** C8. On a session that knows its organization, for a call of
    [get_rest_response] with the content kind multipart whose first attempt
    is answered and goes to the error handling.  The first attempt carries
    every file from the position at which the caller passed it.  When the
    handling decides to make the request again (after re-authentication or
    after the pause) and every value of the [files] dictionary is a file
    object, each one is rewound and the request is sent once more with every
    file object at offset 0: it carries every file from its start.  These
    are the bytes of the first attempt when every file stood at offset 0 at
    the call.  When the body has a part that cannot be rewound, the
    rewinding raises and nothing is sent again. *)
Theorem retry_rewinds_file_parts (env : Env) (url method : string) (data : Data)
    (allow include text : bool) (st : State) (v : Version)
    (body : option (Kw * Data)) (w : WireResponse) :
  organization_known env (session st) v include ->
  kw_data_arg method "multipart" data = Ok body ->
  let st0 := prepared method "multipart" st in
  let rp := rest_call method (request_url env (session st) v include url) body
              (session st) in
  let rq := request_of rp (read_body rp (heap st0)).1 st0 in
  transport env (trace st0) rq = Responds w ->
  needs_handling (Wire w) text = true ->
  let '(result, st') :=
    get_rest_response env url method "multipart" data allow include text st in
  let '(retry_request, st1) := decision env (Wire w) allow (answered rp w st0) in
  rq_offsets rq = part_offsets (file_parts rp) (heap st)
  /\ rq_parts rq = (read_parts (file_parts rp) (heap st)).1
  /\ match retry_request with
     | Ok true =>
         if rewindable rp then
           exists again,
             trace st' = trace st1 ++ [Sent again]
             /\ rq_call again = rp
             /\ Forall (fun o => o.2 = 0%nat) (rq_offsets again)
             /\ rq_parts again
                = (read_parts (file_parts rp)
                     (rewind_heap (file_parts rp) (heap st))).1
             /\ (Forall (fun o => o.2 = 0%nat) (rq_offsets rq) ->
                 rq_parts again = rq_parts rq)
         else trace st' = trace st1 /\ exists e, result = Raise e
     | Ok false => trace st' = trace st1
     | Raise e => st' = st1 /\ result = Raise e
     end.
Proof.
  intros Hknown Hbody st0 rp rq Hanswer Hhandled.
  rewrite (get_rest_response_run env url method "multipart" data allow include text
             st v body Hknown Hbody).
  fold st0. fold rp. fold rq. rewrite Hanswer.
  assert (Hoffsets : rq_offsets rq = part_offsets (file_parts rp) (heap st)).
  { unfold rq, request_of. cbn [rq_offsets]. unfold st0.
    rewrite prepared_heap. unfold body_offsets, file_parts.
    destruct (c_body rp) as [[[] []]|]; reflexivity. }
  assert (Hparts : rq_parts rq = (read_parts (file_parts rp) (heap st)).1).
  { unfold rq, request_of. cbn [rq_parts]. unfold st0.
    rewrite prepared_heap. apply read_body_file_parts. }
  assert (Hread : same_contents st (answered rp w st0)).
  { intros ref. unfold answered. cbn [heap]. rewrite read_body_contents.
    unfold st0. rewrite prepared_heap. reflexivity. }
  unfold settle. rewrite Hhandled. unfold bind at 1.
  unfold _handle_error_response, _handle_error_response_with, decision.
  unfold bind at 1.
  pose proof (preserves_decide_retry same_contents _ env
                (_acquire_access_token env)
                (preserves__acquire_access_token same_contents _ env)
                (Wire w) allow (answered rp w st0)) as Hkept.
  destruct (decide_retry env (_acquire_access_token env) (Wire w) allow
              (answered rp w st0)) as [[[]|e] st1]; cbn [snd] in Hkept.
  - pose proof (retry_multipart env rp body st1) as Hretry.
    destruct (retry env rp body "multipart" st1) as [[second|e] st2].
    + unfold lift. split; [exact Hoffsets|]. split; [exact Hparts|].
      destruct (rewindable rp).
      * destruct Hretry as (again & Htrace & Hcall & Hzero & Hbytes).
        assert (Hagain : rq_parts again
                         = (read_parts (file_parts rp)
                              (rewind_heap (file_parts rp) (heap st))).1).
        { rewrite Hbytes. apply rewound_parts_of_same_contents.
          intros ref. rewrite (Hkept ref). apply Hread. }
        exists again. repeat split; try assumption.
        intros Hstart. rewrite Hagain, Hparts.
        apply rewound_parts_at_start. rewrite <- Hoffsets. exact Hstart.
      * destruct Hretry as [_ [e He]]. discriminate He.
    + split; [exact Hoffsets|]. split; [exact Hparts|].
      destruct (rewindable rp).
      * destruct Hretry as (again & Htrace & Hcall & Hzero & Hbytes).
        assert (Hagain : rq_parts again
                         = (read_parts (file_parts rp)
                              (rewind_heap (file_parts rp) (heap st))).1).
        { rewrite Hbytes. apply rewound_parts_of_same_contents.
          intros ref. rewrite (Hkept ref). apply Hread. }
        exists again. repeat split; try assumption.
        intros Hstart. rewrite Hagain, Hparts.
        apply rewound_parts_at_start. rewrite <- Hoffsets. exact Hstart.
      * destruct Hretry as [Htrace _]. split; [exact Htrace|].
        eexists. reflexivity.
  - unfold report_failure, bind, json, ret, raise.
    destruct (w_decoded w); cbn [fst snd];
      (split; [exact Hoffsets|]); (split; [exact Hparts|]); reflexivity.
  - split; [exact Hoffsets|]. split; [exact Hparts|]. split; reflexivity.
Qed.

Lemma retry_rewinds_file_parts_witness :
  let st := {| session := Sample.credential_session "1.8.0";
               heap := {[ 0%nat := {| contents := [Byte.x47; Byte.x45; Byte.x54];
                                      position := 0 |} ]};
               trace := [] |} in
  let '(result, st') :=
    get_rest_response (Sample.environment Sample.unavailable_once)
      "media" "POST" "multipart" (DFiles [("file", FileObj 0)]) true true false st in
  exists first again,
    sent (trace st') = [first; again]
    /\ rq_parts first = [("file", [Byte.x47; Byte.x45; Byte.x54])]
    /\ rq_parts again = rq_parts first
    /\ Forall (fun o => o.2 = 0%nat) (rq_offsets again).
Proof.
  intros st.
  pose (env := Sample.environment Sample.unavailable_once).
  pose (body := Some (KwFiles, DFiles [("file", FileObj 0)])).
  pose (rp := rest_call "POST"
                (request_url env (session st) (1, 8, 0)%nat true "media")
                body (session st)).
  pose (st0 := prepared "POST" "multipart" st).
  pose (rq := request_of rp (read_body rp (heap st0)).1 st0).
  pose proof (retry_rewinds_file_parts env "media" "POST"
                (DFiles [("file", FileObj 0)]) true true false st (1, 8, 0)%nat
                body (Sample.reply 503 None None)
                (fun _ => conj eq_refl eq_refl) eq_refl eq_refl eq_refl) as H.
  fold env.
  destruct (get_rest_response env _ _ _ _ _ _ _ st) as [result st'].
  destruct (decision env _ _ _) as [retry_request st1] eqn:Hdecision.
  vm_compute in Hdecision. injection Hdecision as <- <-.
  cbv beta iota in H.
  destruct H as (Hoffsets & Hparts & H).
  change (rewindable _) with true in H. cbv beta iota in H.
  destruct H as (again & Htrace & _ & Hzero & _ & Hsame).
  exists rq, again. rewrite Htrace, sent_app.
  split; [reflexivity|]. split; [exact Hparts|].
  split; [|exact Hzero].
  apply Hsame. rewrite Hoffsets. repeat constructor.
Defined.

(** C8 as stated fails: when the caller passes a file that stands past its
    start, the first attempt sends the rest of the file and the retry, after
    the rewinding, sends all of it. *)
Lemma retry_resends_from_the_start_of_the_file :
  ~ (forall (env : Env) (url method : string) (data : Data)
            (allow_reauthentication include_organization_id allow_text_response : bool)
            (st : State) (first again : Request),
        sent (trace (get_rest_response env url method "multipart" data
                       allow_reauthentication include_organization_id
                       allow_text_response st).2)
        = sent (trace st) ++ [first; again] ->
        rq_call again = rq_call first ->
        rq_parts again = rq_parts first).
Proof.
  intros claim.
  pose (st := {| session := Sample.credential_session "1.8.0";
                 heap := {[ 0%nat := {| contents := [Byte.x47; Byte.x45; Byte.x54];
                                        position := 2 |} ]};
                 trace := [] |}).
  pose (run := get_rest_response (Sample.environment Sample.unavailable_once)
                 "media" "POST" "multipart" (DFiles [("file", FileObj 0)])
                 true true false st).
  assert (Hsent : exists first again,
             sent (trace run.2) = sent (trace st) ++ [first; again]
             /\ rq_call again = rq_call first
             /\ rq_parts first = [("file", [Byte.x54])]
             /\ rq_parts again = [("file", [Byte.x47; Byte.x45; Byte.x54])]).
  { vm_compute. eexists. eexists. repeat split. }
  destruct Hsent as (first & again & Hsent & Hcall & Hfirst & Hagain).
  specialize (claim (Sample.environment Sample.unavailable_once)
                "media" "POST" (DFiles [("file", FileObj 0)]) true true false st
                first again Hsent Hcall).
  rewrite Hfirst, Hagain in claim. discriminate claim.
Qed.
